(** * The middle-room session store

    A shallow embedding of [src/stores/app/middle-room.ts]: the store's
    observable fields, the notification handlers registered by [join], the stage
    commands ([clickPlatform], [addGroupStar]) and the teardown path
    ([reset], [leave]).

    Asynchronous methods are written in a small free monad [Prog] whose
    [Await] nodes are exactly the suspension points of the TypeScript code;
    synchronous handlers are plain store transformers. *)

From Stdlib Require Import ZArith Ascii String List Bool Lia.
From stdpp Require Import base gmap strings list fin_maps.

Local Open Scope string_scope.
Local Open Scope list_scope.
Local Open Scope stdpp_scope.

(** ** Data model *)

(** Modelled from the spec: the SDK enum [EduVideoSourceType] is imported from
    the interface declarations, which are not part of this file; section 3
    tags every stream with its type (camera/screen). *)
Inductive EduVideoSourceType := VideoNone | VideoCamera | VideoScreen.

Definition is_screen (t : EduVideoSourceType) : bool :=
  match t with VideoScreen => true | _ => false end.

(** [EduStream]: the fields the store reads. *)
Record EduStream := mkEduStream {
  es_streamUuid : string;
  es_userUuid : string;
  hasVideo : bool;
  hasAudio : bool;
  videoSourceType : EduVideoSourceType }.

(** What [getLocalStreamData] / [getLocalScreenData] hand back: a descriptor
    with an online state (0 is offline) and the stream. *)
Record LocalStreamData := mkLocalStreamData {
  lsd_state : Z;
  lsd_stream : EduStream }.

(** An entry of [roomManager.data.userList]. *)
Record RoomUser := mkRoomUser {
  ru_userUuid : string;
  ru_streamUuid : string }.

(** The transport's view, read by the handlers through [roomManager]. *)
Record RoomManagerData := mkRoomManagerData {
  localStreamData : option LocalStreamData;
  localScreenData : option LocalStreamData;
  fullStreamList : list EduStream;
  data_userList : list RoomUser }.

Record RoomInfo := mkRoomInfo {
  userRole : string;
  ri_userUuid : string;
  ri_userName : string }.

(** A localized text: an i18n key, possibly with its [reason] argument. *)
Inductive Text :=
| T (key : string)
| TReason (key : string) (reason : string).

Record ChatMessage := mkChatMessage {
  cm_id : string;
  cm_ts : Z;
  cm_text : string;
  cm_account : string;
  cm_link : option string;
  cm_sender : bool }.

Record Notice := mkNotice {
  reason : Text;
  notice_userUuid : string }.

Record ApplyUser := mkApplyUser {
  au_userName : string;
  au_userUuid : string;
  au_streamUuid : string;
  au_state : bool }.

(** [UserGroup] and its members, as [cardUserGroups] builds them. *)
Record Member := mkMember {
  m_userUuid : string;
  m_reward : Z;
  m_streamUuid : string }.

Record UserGroup := mkUserGroup {
  groupName : string;
  groupUuid : string;
  members : list Member }.

(** Values written into the property tree by the commands of this file. *)
Inductive PropValue :=
| PNum (n : Z)
| PStr (s : string).

Record StreamType := mkStreamType {
  st_userUuid : string;
  st_streamUuid : string;
  st_streamName : string;
  st_videoSourceType : Z;
  st_audioSourceType : Z;
  st_videoState : Z;
  st_audioState : Z }.

Record DeleteStreamType := mkDeleteStreamType {
  ds_userUuid : string;
  ds_streamUuid : string }.

(** [MiddleRoomProperties], with the [record] namespace the property handler
    reads.  [teachers] and [processes] are never read by the code below. *)
Record GroupProp := mkGroupProp {
  gp_groupName : string;
  gp_members : list string }.

Record StudentProp := mkStudentProp {
  sp_userName : string;
  sp_reward : Z;
  sp_streamUuid : string }.

Record RecordProp := mkRecordProp {
  rec_state : Z;
  rec_recordId : string }.

Record InteractOutGroups := mkInteractOutGroups {
  iog_g1 : option string;
  iog_g2 : option string }.

Record RoomProperties := mkRoomProperties {
  handUpStates : Z * Z;
  groups : gmap string GroupProp;
  students : gmap string StudentProp;
  interactOutGroups : InteractOutGroups;
  rp_record : option RecordProp }.

(** The initializer of the [roomProperties] field (source lines 1106-1117). *)
Definition initial_roomProperties : RoomProperties :=
  {| handUpStates := (0, 0)%Z; groups := ∅; students := ∅;
     interactOutGroups := {| iog_g1 := None; iog_g2 := None |};
     rp_record := None |}.

(** The argument of the [classroom-property-updated] notification. *)
Record RoomStatus := mkRoomStatus {
  courseState : Z;
  rs_startTime : option Z;
  isStudentChatAllowed : bool }.

Record Classroom := mkClassroom {
  cr_roomProperties : RoomProperties;
  roomStatus : RoomStatus }.

(** A repeating timer: the callback of this file always calls
    [appStore.updateTime] with a captured start time. *)
Record Interval := mkInterval {
  iv_startTime : Z;
  iv_delay : Z }.

(** Everything the store does to its collaborators: awaited remote and device
    calls, timers, and user-interface notifications. *)
Inductive Effect :=
| UpdateRoomBatchProperties (properties : gmap string PropValue) (cmd : string)
| BatchUpsertStream (streams : list StreamType)
| BatchDeleteStream (streams : list DeleteStreamType)
| GetCameras
| GetMicrophones
| DevOpenCamera
| DevCloseCamera
| DevOpenMicrophone
| DevCloseMicrophone
| LeaveRtc
| BoardLeave
| Logout
| RoomManagerLeave
| SetInterval (key : string) (iv : Interval)
| ClearInterval (key : string)
| AddToast (text : Text)
| ShowShakeHands
| UpdateCurSeqId (n : Z)
| UpdateLastSeqId (n : Z)
| ResetRoomState
| ResetTime.

(** ** The stores *)

(** The fields of [sceneStore] this file reads and writes.  [_roomManager]
    records whether the scene store's manager reference has been assigned;
    [cameraOpen] and [microphoneOpen] are the device state behind
    [openCamera] / [closeCamera] / [openMicrophone] / [closeMicrophone]. *)
Record SceneStore := mkSceneStore {
  joiningRTC : bool;
  _roomManager : bool;
  _cameraEduStream : option EduStream;
  _screenEduStream : option EduStream;
  _hasCamera : bool;
  _hasMicrophone : bool;
  cameraOpen : bool;
  microphoneOpen : bool;
  sharing : bool;
  recordState : bool;
  recordId : string;
  classState : Z;
  startTime : Z;
  isMuted : bool;
  streamList : list EduStream;
  roomUuid : string }.

(** [MiddleRoomStore], together with the collaborators it reaches through
    [appStore] and the log of effects it has performed. *)
Record MiddleRoomStore := mkStore {
  sceneStore : SceneStore;
  roomManager : RoomManagerData;
  roomInfo : RoomInfo;
  applyUsers : list ApplyUser;
  quit : bool;
  joined : bool;
  roomChatMessages : list ChatMessage;
  messages : list string;
  userGroups : list UserGroup;
  pkList : list string;
  notice : option Notice;
  groupingSolution : Z;
  roomProperties : RoomProperties;
  _intervalMap : gmap string Interval;
  trace : list Effect }.

(** Field updates. *)
Definition set_joiningRTC (v : bool) (sc : SceneStore) : SceneStore :=
  {| joiningRTC := v; _roomManager := _roomManager sc; _cameraEduStream := _cameraEduStream sc;
     _screenEduStream := _screenEduStream sc; _hasCamera := _hasCamera sc; _hasMicrophone :=
     _hasMicrophone sc; cameraOpen := cameraOpen sc; microphoneOpen := microphoneOpen sc;
     sharing := sharing sc; recordState := recordState sc; recordId := recordId sc; classState
     := classState sc; startTime := startTime sc; isMuted := isMuted sc; streamList :=
     streamList sc; roomUuid := roomUuid sc |}.

Definition set_cameraEduStream (v : option EduStream) (sc : SceneStore) : SceneStore :=
  {| joiningRTC := joiningRTC sc; _roomManager := _roomManager sc; _cameraEduStream := v;
     _screenEduStream := _screenEduStream sc; _hasCamera := _hasCamera sc; _hasMicrophone :=
     _hasMicrophone sc; cameraOpen := cameraOpen sc; microphoneOpen := microphoneOpen sc;
     sharing := sharing sc; recordState := recordState sc; recordId := recordId sc; classState
     := classState sc; startTime := startTime sc; isMuted := isMuted sc; streamList :=
     streamList sc; roomUuid := roomUuid sc |}.

Definition set_screenEduStream (v : option EduStream) (sc : SceneStore) : SceneStore :=
  {| joiningRTC := joiningRTC sc; _roomManager := _roomManager sc; _cameraEduStream :=
     _cameraEduStream sc; _screenEduStream := v; _hasCamera := _hasCamera sc; _hasMicrophone :=
     _hasMicrophone sc; cameraOpen := cameraOpen sc; microphoneOpen := microphoneOpen sc;
     sharing := sharing sc; recordState := recordState sc; recordId := recordId sc; classState
     := classState sc; startTime := startTime sc; isMuted := isMuted sc; streamList :=
     streamList sc; roomUuid := roomUuid sc |}.

Definition set_hasCamera (v : bool) (sc : SceneStore) : SceneStore :=
  {| joiningRTC := joiningRTC sc; _roomManager := _roomManager sc; _cameraEduStream :=
     _cameraEduStream sc; _screenEduStream := _screenEduStream sc; _hasCamera := v;
     _hasMicrophone := _hasMicrophone sc; cameraOpen := cameraOpen sc; microphoneOpen :=
     microphoneOpen sc; sharing := sharing sc; recordState := recordState sc; recordId :=
     recordId sc; classState := classState sc; startTime := startTime sc; isMuted := isMuted sc;
     streamList := streamList sc; roomUuid := roomUuid sc |}.

Definition set_hasMicrophone (v : bool) (sc : SceneStore) : SceneStore :=
  {| joiningRTC := joiningRTC sc; _roomManager := _roomManager sc; _cameraEduStream :=
     _cameraEduStream sc; _screenEduStream := _screenEduStream sc; _hasCamera := _hasCamera sc;
     _hasMicrophone := v; cameraOpen := cameraOpen sc; microphoneOpen := microphoneOpen sc;
     sharing := sharing sc; recordState := recordState sc; recordId := recordId sc; classState
     := classState sc; startTime := startTime sc; isMuted := isMuted sc; streamList :=
     streamList sc; roomUuid := roomUuid sc |}.

Definition set_cameraOpen (v : bool) (sc : SceneStore) : SceneStore :=
  {| joiningRTC := joiningRTC sc; _roomManager := _roomManager sc; _cameraEduStream :=
     _cameraEduStream sc; _screenEduStream := _screenEduStream sc; _hasCamera := _hasCamera sc;
     _hasMicrophone := _hasMicrophone sc; cameraOpen := v; microphoneOpen := microphoneOpen sc;
     sharing := sharing sc; recordState := recordState sc; recordId := recordId sc; classState
     := classState sc; startTime := startTime sc; isMuted := isMuted sc; streamList :=
     streamList sc; roomUuid := roomUuid sc |}.

Definition set_microphoneOpen (v : bool) (sc : SceneStore) : SceneStore :=
  {| joiningRTC := joiningRTC sc; _roomManager := _roomManager sc; _cameraEduStream :=
     _cameraEduStream sc; _screenEduStream := _screenEduStream sc; _hasCamera := _hasCamera sc;
     _hasMicrophone := _hasMicrophone sc; cameraOpen := cameraOpen sc; microphoneOpen := v;
     sharing := sharing sc; recordState := recordState sc; recordId := recordId sc; classState
     := classState sc; startTime := startTime sc; isMuted := isMuted sc; streamList :=
     streamList sc; roomUuid := roomUuid sc |}.

Definition set_sharing (v : bool) (sc : SceneStore) : SceneStore :=
  {| joiningRTC := joiningRTC sc; _roomManager := _roomManager sc; _cameraEduStream :=
     _cameraEduStream sc; _screenEduStream := _screenEduStream sc; _hasCamera := _hasCamera sc;
     _hasMicrophone := _hasMicrophone sc; cameraOpen := cameraOpen sc; microphoneOpen :=
     microphoneOpen sc; sharing := v; recordState := recordState sc; recordId := recordId sc;
     classState := classState sc; startTime := startTime sc; isMuted := isMuted sc; streamList
     := streamList sc; roomUuid := roomUuid sc |}.

Definition set_recordState (v : bool) (sc : SceneStore) : SceneStore :=
  {| joiningRTC := joiningRTC sc; _roomManager := _roomManager sc; _cameraEduStream :=
     _cameraEduStream sc; _screenEduStream := _screenEduStream sc; _hasCamera := _hasCamera sc;
     _hasMicrophone := _hasMicrophone sc; cameraOpen := cameraOpen sc; microphoneOpen :=
     microphoneOpen sc; sharing := sharing sc; recordState := v; recordId := recordId sc;
     classState := classState sc; startTime := startTime sc; isMuted := isMuted sc; streamList
     := streamList sc; roomUuid := roomUuid sc |}.

Definition set_recordId (v : string) (sc : SceneStore) : SceneStore :=
  {| joiningRTC := joiningRTC sc; _roomManager := _roomManager sc; _cameraEduStream :=
     _cameraEduStream sc; _screenEduStream := _screenEduStream sc; _hasCamera := _hasCamera sc;
     _hasMicrophone := _hasMicrophone sc; cameraOpen := cameraOpen sc; microphoneOpen :=
     microphoneOpen sc; sharing := sharing sc; recordState := recordState sc; recordId := v;
     classState := classState sc; startTime := startTime sc; isMuted := isMuted sc; streamList
     := streamList sc; roomUuid := roomUuid sc |}.

Definition set_classState (v : Z) (sc : SceneStore) : SceneStore :=
  {| joiningRTC := joiningRTC sc; _roomManager := _roomManager sc; _cameraEduStream :=
     _cameraEduStream sc; _screenEduStream := _screenEduStream sc; _hasCamera := _hasCamera sc;
     _hasMicrophone := _hasMicrophone sc; cameraOpen := cameraOpen sc; microphoneOpen :=
     microphoneOpen sc; sharing := sharing sc; recordState := recordState sc; recordId :=
     recordId sc; classState := v; startTime := startTime sc; isMuted := isMuted sc; streamList
     := streamList sc; roomUuid := roomUuid sc |}.

Definition set_startTime (v : Z) (sc : SceneStore) : SceneStore :=
  {| joiningRTC := joiningRTC sc; _roomManager := _roomManager sc; _cameraEduStream :=
     _cameraEduStream sc; _screenEduStream := _screenEduStream sc; _hasCamera := _hasCamera sc;
     _hasMicrophone := _hasMicrophone sc; cameraOpen := cameraOpen sc; microphoneOpen :=
     microphoneOpen sc; sharing := sharing sc; recordState := recordState sc; recordId :=
     recordId sc; classState := classState sc; startTime := v; isMuted := isMuted sc; streamList
     := streamList sc; roomUuid := roomUuid sc |}.

Definition set_isMuted (v : bool) (sc : SceneStore) : SceneStore :=
  {| joiningRTC := joiningRTC sc; _roomManager := _roomManager sc; _cameraEduStream :=
     _cameraEduStream sc; _screenEduStream := _screenEduStream sc; _hasCamera := _hasCamera sc;
     _hasMicrophone := _hasMicrophone sc; cameraOpen := cameraOpen sc; microphoneOpen :=
     microphoneOpen sc; sharing := sharing sc; recordState := recordState sc; recordId :=
     recordId sc; classState := classState sc; startTime := startTime sc; isMuted := v;
     streamList := streamList sc; roomUuid := roomUuid sc |}.

Definition set_streamList (v : list EduStream) (sc : SceneStore) : SceneStore :=
  {| joiningRTC := joiningRTC sc; _roomManager := _roomManager sc; _cameraEduStream :=
     _cameraEduStream sc; _screenEduStream := _screenEduStream sc; _hasCamera := _hasCamera sc;
     _hasMicrophone := _hasMicrophone sc; cameraOpen := cameraOpen sc; microphoneOpen :=
     microphoneOpen sc; sharing := sharing sc; recordState := recordState sc; recordId :=
     recordId sc; classState := classState sc; startTime := startTime sc; isMuted := isMuted sc;
     streamList := v; roomUuid := roomUuid sc |}.

Definition set_sceneStore (v : SceneStore) (s : MiddleRoomStore) : MiddleRoomStore :=
  {| sceneStore := v; roomManager := roomManager s; roomInfo := roomInfo s; applyUsers :=
     applyUsers s; quit := quit s; joined := joined s; roomChatMessages := roomChatMessages s;
     messages := messages s; userGroups := userGroups s; pkList := pkList s; notice := notice s;
     groupingSolution := groupingSolution s; roomProperties := roomProperties s; _intervalMap :=
     _intervalMap s; trace := trace s |}.

Definition set_roomInfo (v : RoomInfo) (s : MiddleRoomStore) : MiddleRoomStore :=
  {| sceneStore := sceneStore s; roomManager := roomManager s; roomInfo := v; applyUsers :=
     applyUsers s; quit := quit s; joined := joined s; roomChatMessages := roomChatMessages s;
     messages := messages s; userGroups := userGroups s; pkList := pkList s; notice := notice s;
     groupingSolution := groupingSolution s; roomProperties := roomProperties s; _intervalMap :=
     _intervalMap s; trace := trace s |}.

Definition set_applyUsers (v : list ApplyUser) (s : MiddleRoomStore) : MiddleRoomStore :=
  {| sceneStore := sceneStore s; roomManager := roomManager s; roomInfo := roomInfo s;
     applyUsers := v; quit := quit s; joined := joined s; roomChatMessages := roomChatMessages
     s; messages := messages s; userGroups := userGroups s; pkList := pkList s; notice := notice
     s; groupingSolution := groupingSolution s; roomProperties := roomProperties s; _intervalMap
     := _intervalMap s; trace := trace s |}.

Definition set_quit (v : bool) (s : MiddleRoomStore) : MiddleRoomStore :=
  {| sceneStore := sceneStore s; roomManager := roomManager s; roomInfo := roomInfo s;
     applyUsers := applyUsers s; quit := v; joined := joined s; roomChatMessages :=
     roomChatMessages s; messages := messages s; userGroups := userGroups s; pkList := pkList s;
     notice := notice s; groupingSolution := groupingSolution s; roomProperties :=
     roomProperties s; _intervalMap := _intervalMap s; trace := trace s |}.

Definition set_joined (v : bool) (s : MiddleRoomStore) : MiddleRoomStore :=
  {| sceneStore := sceneStore s; roomManager := roomManager s; roomInfo := roomInfo s;
     applyUsers := applyUsers s; quit := quit s; joined := v; roomChatMessages :=
     roomChatMessages s; messages := messages s; userGroups := userGroups s; pkList := pkList s;
     notice := notice s; groupingSolution := groupingSolution s; roomProperties :=
     roomProperties s; _intervalMap := _intervalMap s; trace := trace s |}.

Definition set_roomChatMessages (v : list ChatMessage) (s : MiddleRoomStore) : MiddleRoomStore :=
  {| sceneStore := sceneStore s; roomManager := roomManager s; roomInfo := roomInfo s;
     applyUsers := applyUsers s; quit := quit s; joined := joined s; roomChatMessages := v;
     messages := messages s; userGroups := userGroups s; pkList := pkList s; notice := notice s;
     groupingSolution := groupingSolution s; roomProperties := roomProperties s; _intervalMap :=
     _intervalMap s; trace := trace s |}.

Definition set_messages (v : list string) (s : MiddleRoomStore) : MiddleRoomStore :=
  {| sceneStore := sceneStore s; roomManager := roomManager s; roomInfo := roomInfo s;
     applyUsers := applyUsers s; quit := quit s; joined := joined s; roomChatMessages :=
     roomChatMessages s; messages := v; userGroups := userGroups s; pkList := pkList s; notice
     := notice s; groupingSolution := groupingSolution s; roomProperties := roomProperties s;
     _intervalMap := _intervalMap s; trace := trace s |}.

Definition set_userGroups (v : list UserGroup) (s : MiddleRoomStore) : MiddleRoomStore :=
  {| sceneStore := sceneStore s; roomManager := roomManager s; roomInfo := roomInfo s;
     applyUsers := applyUsers s; quit := quit s; joined := joined s; roomChatMessages :=
     roomChatMessages s; messages := messages s; userGroups := v; pkList := pkList s; notice :=
     notice s; groupingSolution := groupingSolution s; roomProperties := roomProperties s;
     _intervalMap := _intervalMap s; trace := trace s |}.

Definition set_pkList (v : list string) (s : MiddleRoomStore) : MiddleRoomStore :=
  {| sceneStore := sceneStore s; roomManager := roomManager s; roomInfo := roomInfo s;
     applyUsers := applyUsers s; quit := quit s; joined := joined s; roomChatMessages :=
     roomChatMessages s; messages := messages s; userGroups := userGroups s; pkList := v; notice
     := notice s; groupingSolution := groupingSolution s; roomProperties := roomProperties s;
     _intervalMap := _intervalMap s; trace := trace s |}.

Definition set_notice (v : option Notice) (s : MiddleRoomStore) : MiddleRoomStore :=
  {| sceneStore := sceneStore s; roomManager := roomManager s; roomInfo := roomInfo s;
     applyUsers := applyUsers s; quit := quit s; joined := joined s; roomChatMessages :=
     roomChatMessages s; messages := messages s; userGroups := userGroups s; pkList := pkList s;
     notice := v; groupingSolution := groupingSolution s; roomProperties := roomProperties s;
     _intervalMap := _intervalMap s; trace := trace s |}.

Definition set_groupingSolution (v : Z) (s : MiddleRoomStore) : MiddleRoomStore :=
  {| sceneStore := sceneStore s; roomManager := roomManager s; roomInfo := roomInfo s;
     applyUsers := applyUsers s; quit := quit s; joined := joined s; roomChatMessages :=
     roomChatMessages s; messages := messages s; userGroups := userGroups s; pkList := pkList s;
     notice := notice s; groupingSolution := v; roomProperties := roomProperties s; _intervalMap
     := _intervalMap s; trace := trace s |}.

Definition set_roomProperties (v : RoomProperties) (s : MiddleRoomStore) : MiddleRoomStore :=
  {| sceneStore := sceneStore s; roomManager := roomManager s; roomInfo := roomInfo s;
     applyUsers := applyUsers s; quit := quit s; joined := joined s; roomChatMessages :=
     roomChatMessages s; messages := messages s; userGroups := userGroups s; pkList := pkList s;
     notice := notice s; groupingSolution := groupingSolution s; roomProperties := v;
     _intervalMap := _intervalMap s; trace := trace s |}.

Definition set_intervalMap (v : gmap string Interval) (s : MiddleRoomStore) : MiddleRoomStore :=
  {| sceneStore := sceneStore s; roomManager := roomManager s; roomInfo := roomInfo s;
     applyUsers := applyUsers s; quit := quit s; joined := joined s; roomChatMessages :=
     roomChatMessages s; messages := messages s; userGroups := userGroups s; pkList := pkList s;
     notice := notice s; groupingSolution := groupingSolution s; roomProperties :=
     roomProperties s; _intervalMap := v; trace := trace s |}.

Definition set_trace (v : list Effect) (s : MiddleRoomStore) : MiddleRoomStore :=
  {| sceneStore := sceneStore s; roomManager := roomManager s; roomInfo := roomInfo s;
     applyUsers := applyUsers s; quit := quit s; joined := joined s; roomChatMessages :=
     roomChatMessages s; messages := messages s; userGroups := userGroups s; pkList := pkList s;
     notice := notice s; groupingSolution := groupingSolution s; roomProperties :=
     roomProperties s; _intervalMap := _intervalMap s; trace := v |}.

Definition upd_scene (f : SceneStore -> SceneStore) (s : MiddleRoomStore) : MiddleRoomStore :=
  set_sceneStore (f (sceneStore s)) s.

(** Appending to the effect log. *)
Definition log (e : Effect) (s : MiddleRoomStore) : MiddleRoomStore :=
  set_trace (trace s ++ [e]) s.

(** ** Asynchronous programs *)

(** How an awaited call settles: the promise resolves (a device probe also
    reports whether a device was found) or rejects. *)
Inductive Outcome :=
| Resolved (available : bool)
| Rejected.

Inductive Result (A : Type) : Type :=
| Ok (a : A)
| Thrown.
Arguments Ok {A} a.
Arguments Thrown {A}.

(** An [async] method body.  [Get] and [Put] read and write [this];
    [Await] is an [await] on an external call and is the only place where
    the body is suspended; [Throw] is a raised exception or a rejection. *)
Inductive Prog (A : Type) : Type :=
| Ret (a : A)
| Throw
| Get (k : MiddleRoomStore -> Prog A)
| Put (s : MiddleRoomStore) (k : Prog A)
| Await (c : Effect) (k : Outcome -> Prog A).
Arguments Ret {A} a.
Arguments Throw {A}.
Arguments Get {A} k.
Arguments Put {A} s k.
Arguments Await {A} c k.

Fixpoint bind {A B : Type} (p : Prog A) (f : A -> Prog B) : Prog B :=
  match p with
  | Ret a => f a
  | Throw => Throw
  | Get k => Get (fun s => bind (k s) f)
  | Put s k => Put s (bind k f)
  | Await c k => Await c (fun o => bind (k o) f)
  end.

#[global] Instance Prog_ret : MRet Prog := fun A a => Ret a.
#[global] Instance Prog_bind : MBind Prog := fun A B f p => bind p f.

(** [try { p } catch { h }] *)
Fixpoint try_catch {A : Type} (p : Prog A) (h : Prog A) : Prog A :=
  match p with
  | Ret a => Ret a
  | Throw => h
  | Get k => Get (fun s => try_catch (k s) h)
  | Put s k => Put s (try_catch k h)
  | Await c k => Await c (fun o => try_catch (k o) h)
  end.

Definition get : Prog MiddleRoomStore := Get Ret.

Definition modify (f : MiddleRoomStore -> MiddleRoomStore) : Prog unit :=
  Get (fun s => Put (f s) (Ret tt)).

Definition emit (e : Effect) : Prog unit := modify (log e).

(** [await call()] where only completion matters. *)
Definition await (c : Effect) : Prog unit :=
  Await c (fun o => match o with Resolved _ => Ret tt | Rejected => Throw end).

(** [await probe()] where the answer is used. *)
Definition probe (c : Effect) : Prog bool :=
  Await c (fun o => match o with Resolved b => Ret b | Rejected => Throw end).

Definition skip : Prog unit := Ret tt.

(** JavaScript truthiness of a string. *)
Definition truthy (x : string) : bool := negb (String.eqb x "").

(** ** The Session Clock mixin *)

(** Modelled from the spec: the [SimpleInterval] mixin the store extends is
    imported from [mixin/simple-interval].  Section 4.5: stopping removes the
    timer if present and is idempotent if absent; starting while already
    running replaces the previous timer. *)
Definition delInterval (key : string) (s : MiddleRoomStore) : MiddleRoomStore :=
  match _intervalMap s !! key with
  | Some _ => log (ClearInterval key) (set_intervalMap (delete key (_intervalMap s)) s)
  | None => s
  end.

(** Modelled from the spec: [addInterval] of the same mixin; a timer already
    running under the key is replaced. *)
Definition addInterval (key : string) (iv : Interval) (s : MiddleRoomStore) : MiddleRoomStore :=
  let s1 := delInterval key s in
  log (SetInterval key iv) (set_intervalMap (<[key := iv]> (_intervalMap s1)) s1).

Definition ms : Z := 500.

(** ** Scene-store device control *)

(** Modelled from the spec: [sceneStore.prepareCamera] and
    [sceneStore.prepareMicrophone] are not part of this file.  Section 4.2,
    step 2: they probe device availability, and a probe failure propagates as
    an error. *)
Definition prepareCamera : Prog unit :=
  b ← probe GetCameras; modify (upd_scene (set_hasCamera b)).

(** Modelled from the spec: the microphone probe, as [prepareCamera]. *)
Definition prepareMicrophone : Prog unit :=
  b ← probe GetMicrophones; modify (upd_scene (set_hasMicrophone b)).

(** Modelled from the spec: [sceneStore.openCamera] is not part of this file
    (nor are [closeCamera], [openMicrophone], [closeMicrophone]).  Section
    4.2, step 4: open and close are idempotent, calling either when already
    in that state is a no-op; failures are surfaced to the caller. *)
Definition openCamera : Prog unit :=
  s ← get;
  if cameraOpen (sceneStore s) then skip
  else await DevOpenCamera;; modify (upd_scene (set_cameraOpen true)).

(** Modelled from the spec: [sceneStore.closeCamera], idempotent as
    [openCamera]. *)
Definition closeCamera : Prog unit :=
  s ← get;
  if cameraOpen (sceneStore s)
  then await DevCloseCamera;; modify (upd_scene (set_cameraOpen false))
  else skip.

(** Modelled from the spec: [sceneStore.openMicrophone], idempotent as
    [openCamera]. *)
Definition openMicrophone : Prog unit :=
  s ← get;
  if microphoneOpen (sceneStore s) then skip
  else await DevOpenMicrophone;; modify (upd_scene (set_microphoneOpen true)).

(** Modelled from the spec: [sceneStore.closeMicrophone], idempotent as
    [openCamera]. *)
Definition closeMicrophone : Prog unit :=
  s ← get;
  if microphoneOpen (sceneStore s)
  then await DevCloseMicrophone;; modify (upd_scene (set_microphoneOpen false))
  else skip.

(** Modelled from the spec: [sceneStore.leaveRtc] is not part of this file;
    it detaches from the media transport, one awaited call that can fail. *)
Definition leaveRtc : Prog unit := await LeaveRtc.

(** ** Remote commands (source lines 1091-1104) *)

(** The three wrappers go through [this.roomManager.userService]; with no
    manager assigned the property access throws. *)
Definition updateRoomBatchProperties (properties : gmap string PropValue) (cmd : string)
  : Prog unit :=
  s ← get;
  if _roomManager (sceneStore s) then await (UpdateRoomBatchProperties properties cmd)
  else Throw.

Definition batchUpsertStream (streams : list StreamType) : Prog unit :=
  s ← get;
  if _roomManager (sceneStore s) then await (BatchUpsertStream streams) else Throw.

Definition batchDeleteStream (streams : list DeleteStreamType) : Prog unit :=
  s ← get;
  if _roomManager (sceneStore s) then await (BatchDeleteStream streams) else Throw.

(** ** Stage occupancy (source lines 836-961) *)

(** [platformState]: the two slots and the member ids of the groups in them.
    The [g1Members] / [g2Members] stream views are not used by the commands. *)
Record PlatformState := mkPlatformState {
  g1 : string;
  g2 : string;
  g1MemberIds : list string;
  g2MemberIds : list string }.

(** Whether an id is one segment of a property path: no dot, no bracket. *)
Definition segment (g : string) : bool :=
  forallb (fun c => negb (Ascii.eqb c "." || Ascii.eqb c "[" || Ascii.eqb c "]")%char)
    (list_ascii_of_string g).

(** The member ids of the group in a slot: [get] at the path
    groups.<g>.members with default [[]], behind the truthiness test of the
    id.  The path is split at its dots and brackets.  A group record is
    reached only through one segment that names an own key of [groups];
    every longer path ends in a value that has no [members], and the default
    is returned.  An id that bracket syntax reduces to one segment is not
    interpreted: it gives the default as well. *)
Definition memberIds (p : RoomProperties) (g : string) : list string :=
  if truthy g then
    if segment g then default [] (gp_members <$> (groups p !! g)) else []
  else [].

Definition platformState (s : MiddleRoomStore) : PlatformState :=
  let p := roomProperties s in
  let g1 := default "" (iog_g1 (interactOutGroups p)) in
  let g2 := default "" (iog_g2 (interactOutGroups p)) in
  {| g1 := g1; g2 := g2; g1MemberIds := memberIds p g1; g2MemberIds := memberIds p g2 |}.

Definition deleteStreamOf (item : Member) : DeleteStreamType :=
  {| ds_userUuid := m_userUuid item; ds_streamUuid := m_streamUuid item |}.

Definition upsertStreamOf (audioState : Z) (item : Member) : StreamType :=
  {| st_userUuid := m_userUuid item;
     st_streamUuid := m_streamUuid item;
     st_streamName := m_userUuid item +:+ "stream";
     st_videoSourceType := 1;
     st_audioSourceType := 1;
     st_videoState := 1;
     st_audioState := audioState |}.

(** The property patch of a group leaving slot [t]. *)
Definition leaveStagePatch (t : string) (last : bool) : gmap string PropValue :=
  if last
  then <["interactOutGroups." +:+ t := PStr ""]>
         (<["groupStates.interactOutGroup" := PNum 0]> ∅)
  else <["interactOutGroups." +:+ t := PStr ""]> ∅.

(** The property patch of group [id] entering slot [t]. *)
Definition enterStagePatch (t id : string) : gmap string PropValue :=
  <["interactOutGroups." +:+ t := PStr id]>
    (<["groupStates.interactOutGroup" := PNum 1]>
       (<["groupStates.interactInGroup" := PNum 0]>
          (<["groupStates.state" := PNum 1]> ∅))).

Definition clickPlatform (group : UserGroup) : Prog unit :=
  let id := groupUuid group in
  let cause := "104" in
  s ← get;
  if String.eqb (g1 (platformState s)) id || String.eqb (g2 (platformState s)) id then
    let t := if String.eqb (g1 (platformState s)) id then "g1" else "g2" in
    let last :=
      (String.eqb t "g1" && negb (truthy (g2 (platformState s))))
      || (String.eqb t "g2" && negb (truthy (g1 (platformState s)))) in
    updateRoomBatchProperties (leaveStagePatch t last) cause;;
    batchDeleteStream (map deleteStreamOf (members group))
  else if truthy (g1 (platformState s)) && truthy (g2 (platformState s)) then
    skip
  else
    batchUpsertStream (map (upsertStreamOf 1) (members group));;
    s' ← get;
    let t := if negb (truthy (g1 (platformState s'))) then "g1" else "g2" in
    updateRoomBatchProperties (enterStagePatch t id) cause.

(** ** Reward accounting (source lines 963-972) *)

Definition rewardKey (userUuid : string) : string :=
  "students." +:+ userUuid +:+ ".reward".

(** The numbers of the source are IEEE-754 doubles.  [roundDouble x] is the
    double nearest to the integer [x], a tie going to the even significand:
    every integer of magnitude below 2^53 is a double; from there on the
    doubles are the multiples of the power of two that leaves 53 significant
    bits.  (Past the largest finite double the source has Infinity, which is
    not represented; the sum of a double and 1 never gets there.) *)
Definition roundDouble (x : Z) : Z :=
  let a := Z.abs x in
  if (a <? 2 ^ 53)%Z then x
  else
    let step := (2 ^ (Z.log2 a - 52))%Z in
    let q := (a / step)%Z in
    let r := (a mod step)%Z in
    let q' := if (step <? 2 * r)%Z || ((2 * r =? step)%Z && Z.odd q)
              then (q + 1)%Z else q in
    (Z.sgn x * (q' * step))%Z.

(** [a + b] on integer-valued numbers. *)
Definition jsAdd (a b : Z) : Z := roundDouble (a + b).

(** One iteration of the [forEach] in [addGroupStar]. *)
Definition award (props : gmap string PropValue) (stu : Member) : gmap string PropValue :=
  <[rewardKey (m_userUuid stu) := PNum (jsAdd (m_reward stu) 1)]> props.

Definition rewardPatch (members : list Member) : gmap string PropValue :=
  foldl award ∅ members.

Definition addGroupStar (group : UserGroup) : Prog unit :=
  let properties := rewardPatch (members group) in
  updateRoomBatchProperties properties "202".

(** ** Concrete sessions *)

(** An environment in which every call resolves, and one in which the RTC
    leave fails. *)
Definition world_ok : list Effect -> Effect -> Outcome := fun _ _ => Resolved true.

Definition world_rtc_down : list Effect -> Effect -> Outcome :=
  fun _ c => match c with LeaveRtc => Rejected | _ => Resolved true end.

Definition scene0 : SceneStore :=
  {| joiningRTC := false; _roomManager := false; _cameraEduStream := None;
     _screenEduStream := None; _hasCamera := false; _hasMicrophone := false;
     cameraOpen := false; microphoneOpen := false; sharing := false;
     recordState := false; recordId := ""; classState := 0; startTime := 0;
     isMuted := false; streamList := []; roomUuid := "room-1" |}.

(** The scene store of a session that has joined and is attached, with the
    class running and a recording in progress. *)
Definition sceneAttached : SceneStore :=
  {| joiningRTC := true; _roomManager := true; _cameraEduStream := None;
     _screenEduStream := None; _hasCamera := false; _hasMicrophone := false;
     cameraOpen := false; microphoneOpen := false; sharing := false;
     recordState := true; recordId := "rec-7"; classState := 1; startTime := 1000;
     isMuted := false; streamList := []; roomUuid := "room-1" |}.

Definition mainStream : EduStream :=
  {| es_streamUuid := "s0"; es_userUuid := "t1"; hasVideo := true; hasAudio := false;
     videoSourceType := VideoCamera |}.

Definition screenStream : EduStream :=
  {| es_streamUuid := "s9"; es_userUuid := "t1"; hasVideo := true; hasAudio := false;
     videoSourceType := VideoScreen |}.

Definition transport : RoomManagerData :=
  {| localStreamData := Some {| lsd_state := 1; lsd_stream := mainStream |};
     localScreenData := Some {| lsd_state := 1; lsd_stream := screenStream |};
     fullStreamList := [mainStream; screenStream];
     data_userList := [] |}.

(** Group 1 is on stage in slot [g1]; slot [g2] is free; the recording has
    stopped. *)
Definition stageProperties : RoomProperties :=
  {| handUpStates := (0, 0)%Z;
     groups := {[ "group_id_1" := {| gp_groupName := "group1"; gp_members := ["u1"; "u2"] |};
                  "group_id_2" := {| gp_groupName := "group2"; gp_members := ["u3"] |} ]};
     students := ∅;
     interactOutGroups := {| iog_g1 := Some "group_id_1"; iog_g2 := None |};
     rp_record := Some {| rec_state := 0; rec_recordId := "rec-7" |} |}.

Definition sessionOf (role : string) : MiddleRoomStore :=
  {| sceneStore := sceneAttached; roomManager := transport;
     roomInfo := {| userRole := role; ri_userUuid := "t1"; ri_userName := "Kim" |};
     applyUsers := []; quit := false; joined := true; roomChatMessages := [];
     messages := []; userGroups := []; pkList := []; notice := None;
     groupingSolution := 0; roomProperties := stageProperties;
     _intervalMap := {[ "timer" := {| iv_startTime := 1000; iv_delay := 500 |} ]};
     trace := [] |}.

Definition teacherSession : MiddleRoomStore := sessionOf "teacher".
Definition studentSession : MiddleRoomStore := sessionOf "student".

Definition groupOne : UserGroup :=
  {| groupName := "group1"; groupUuid := "group_id_1";
     members := [ {| m_userUuid := "u1"; m_reward := 0; m_streamUuid := "s1" |};
                  {| m_userUuid := "u2"; m_reward := 3; m_streamUuid := "s2" |} ] |}.

Definition groupTwo : UserGroup :=
  {| groupName := "group2"; groupUuid := "group_id_2";
     members := [ {| m_userUuid := "u3"; m_reward := 1; m_streamUuid := "s3" |} ] |}.

(** A group that lists the same user twice, and a group whose member has
    collected 2^53 stars. *)
Definition pairedGroup : UserGroup :=
  {| groupName := "group3"; groupUuid := "group_id_3";
     members := [ {| m_userUuid := "u1"; m_reward := 5; m_streamUuid := "s1" |};
                  {| m_userUuid := "u1"; m_reward := 5; m_streamUuid := "s1" |} ] |}.

Definition veteranGroup : UserGroup :=
  {| groupName := "group4"; groupUuid := "group_id_4";
     members := [ {| m_userUuid := "u1"; m_reward := 2 ^ 53; m_streamUuid := "s1" |} ] |}.

(** The same session before the class has started. *)
Definition beforeClass : MiddleRoomStore :=
  set_intervalMap ∅ (upd_scene (set_classState 0) teacherSession).

(** Snapshots in which the recording has stopped: one with the class running,
    one with the class over. *)
Definition runningSnapshot : Classroom :=
  {| cr_roomProperties := stageProperties;
     roomStatus := {| courseState := 1; rs_startTime := Some 2000%Z;
                      isStudentChatAllowed := true |} |}.

Definition endedSnapshot : Classroom :=
  {| cr_roomProperties := stageProperties;
     roomStatus := {| courseState := 2; rs_startTime := Some 2600%Z;
                      isStudentChatAllowed := true |} |}.

(** ** Group audio control and single rewards (source lines 868-891, 1071-1083) *)

Definition groupControlMicrophone (group : UserGroup) (control : Z) : Prog unit :=
  batchUpsertStream (map (upsertStreamOf control) (members group));;
  updateRoomBatchProperties ∅ "201".

(** [sendReward] reaches the user service directly, not through the wrapper
    of lines 1091-1094. *)
Definition sendReward (userUuid : string) (reward : Z) : Prog unit :=
  s ← get;
  if _roomManager (sceneStore s)
  then await (UpdateRoomBatchProperties {[ rewardKey userUuid := PNum (jsAdd reward 1) ]} "402")
  else Throw.

(** The store with its effect log forgotten: the fields the views observe. *)
Definition localState (s : MiddleRoomStore) : MiddleRoomStore := set_trace [] s.

(** ** Computed views (source lines 204-233, 810-866, 1063-1069, 1119-1222, 1298-1304) *)

(** An entry of [sceneStore.userList]: the fields the views read. *)
Record SceneUser := mkSceneUser {
  su_userUuid : string;
  su_role : string }.

(** An entry of [roomStudentUserList]. *)
Record StudentEntry := mkStudentEntry {
  se_userUuid : string;
  se_streamUuid : string;
  se_userName : string;
  se_account : string;
  se_reward : Z;
  se_offline : bool }.

(** What [object[key]] gives on an object used as a map: the own property
    under the key; failing that, the member the object inherits under that
    name (constructor, toString and the like), which is truthy and has none
    of the fields of a record; failing that, undefined. *)
Inductive Property (A : Type) :=
| Own (a : A)
| Inherited
| Undefined.

Arguments Own {A} a.
Arguments Inherited {A}.
Arguments Undefined {A}.

(** The truth value of what was found. *)
Definition found {A : Type} (p : Property A) : bool :=
  match p with
  | Undefined => false
  | _ => true
  end.

(** Reading a field of what was found: an inherited member has none of the
    fields, the read gives undefined ([None]). *)
Definition field {A B : Type} (f : A -> B) (p : Property A) : option B :=
  match p with
  | Own a => Some (f a)
  | _ => None
  end.

(** An entry of [onlineStudentList]; a field is [None] where the source has
    undefined. *)
Record OnlineStudent := mkOnlineStudent {
  os_userUuid : string;
  os_streamUuid : option string;
  os_userName : option string;
  os_account : option string;
  os_reward : option Z }.

(** The entry [studentsList] and [rawStudentsList] make for a student with no
    stream: the student entry, spread, with the media fields switched off. *)
Record Placeholder := mkPlaceholder {
  ph_entry : StudentEntry;
  ph_account : string;
  ph_audio : bool;
  ph_video : bool;
  ph_showControls : bool;
  ph_local : bool }.

(** A member and a group as [cardUserGroups] builds them; a field is [None]
    where the source has undefined. *)
Record CardMember := mkCardMember {
  cd_userUuid : string;
  cd_userName : option string;
  cd_reward : option Z;
  cd_streamUuid : option string;
  cd_offline : bool }.

Record CardGroup := mkCardGroup {
  cg_groupName : string;
  cg_groupUuid : string;
  cg_members : list CardMember }.

(** The fields of a card group the stage commands read.  A card member with
    an undefined reward or stream id is no [Member]: the commands would send
    NaN and undefined, which their payloads here do not represent. *)
Definition asMember (m : CardMember) : option Member :=
  reward ← cd_reward m;
  streamUuid ← cd_streamUuid m;
  Some {| m_userUuid := cd_userUuid m; m_reward := reward; m_streamUuid := streamUuid |}.

Definition asUserGroup (g : CardGroup) : option UserGroup :=
  members ← mapM asMember (cg_members g);
  Some {| groupName := cg_groupName g; groupUuid := cg_groupUuid g; members := members |}.

(** [studentSum] (lines 1298-1304): the number of keys of the student
    records. *)
Definition studentSum (s : MiddleRoomStore) : nat :=
  length (map_to_list (students (roomProperties s))).

Section Views.

(** [EduMediaStream] is declared with the scene store; the views read the
    owner of a stream and copy everything else. *)
Variable Stream : Type.
Variable stream_userUuid : Stream -> string.

(** The names under which every object inherits a member: those of
    [Object.prototype] in the engine that runs the store. *)
Variable inherited : string -> bool.

(** [object[key]] on an object used as a map. *)
Definition property {A : Type} (object : gmap string A) (key : string) : Property A :=
  match object !! key with
  | Some a => Own a
  | None => if inherited key then Inherited else Undefined
  end.

(** The two collections of the scene store the views read: [userList] and
    [studentStreams]. *)
Record Roster := mkRoster {
  userList : list SceneUser;
  studentStreams : list Stream }.

(** A stream as [allStudentStreams] decorates it. *)
Record MarqueeStream := mkMarqueeStream {
  mq_stream : Stream;
  mq_showStar : bool;
  mq_showControls : bool;
  mq_showHover : bool;
  mq_rewardNum : Z }.

(** [this.sceneStore.userList.find(user => user.userUuid === uuid)], as a
    truth value. *)
Definition present (r : Roster) (uuid : string) : bool :=
  match List.find (fun user => String.eqb (su_userUuid user) uuid) (userList r) with
  | Some _ => true
  | None => false
  end.

(** [roomStudentUserList] (lines 1205-1217): one entry per key of the student
    records, built from the record under that key.  The order in which
    [Object.keys] enumerates the records is not represented: the entries come
    in the order of the map. *)
Definition roomStudentUserList (r : Roster) (s : MiddleRoomStore) : list StudentEntry :=
  let studentRecords := students (roomProperties s) in
  (fun kv : string * StudentProp =>
     {| se_userUuid := fst kv;
        se_streamUuid := sp_streamUuid (snd kv);
        se_userName := sp_userName (snd kv);
        se_account := sp_userName (snd kv);
        se_reward := sp_reward (snd kv);
        se_offline := negb (present r (fst kv)) |}) <$> map_to_list studentRecords.

(** [studentTotal] (lines 1185-1188). *)
Definition studentTotal (r : Roster) (s : MiddleRoomStore) : nat :=
  length (roomStudentUserList r s).

(** [getUserReward] (lines 1063-1069). *)
Definition getUserReward (r : Roster) (s : MiddleRoomStore) (userUuid : string) : Z :=
  match List.find (fun it => String.eqb (se_userUuid it) userUuid) (roomStudentUserList r s) with
  | Some user => se_reward user
  | None => 0
  end.

(** [onlineStudentList] (lines 1190-1203): the second filter keeps the users
    for which [studentRecords[user.userUuid]] is truthy, and the map reads
    the fields of that same property. *)
Definition onlineStudentList (r : Roster) (s : MiddleRoomStore) : list OnlineStudent :=
  let studentRecords := students (roomProperties s) in
  (fun user =>
     {| os_userUuid := su_userUuid user;
        os_streamUuid := field sp_streamUuid (property studentRecords (su_userUuid user));
        os_userName := field sp_userName (property studentRecords (su_userUuid user));
        os_account := field sp_userName (property studentRecords (su_userUuid user));
        os_reward := field sp_reward (property studentRecords (su_userUuid user)) |})
    <$> List.filter (fun user => found (property studentRecords (su_userUuid user)))
          (List.filter (fun user => negb (String.eqb (su_role user) "host")) (userList r)).

(** [studentUserList] (lines 1219-1222). *)
Definition studentUserList (r : Roster) : list SceneUser :=
  List.filter (fun item => negb (String.eqb (su_role item) "host")) (userList r).

(** The first half of [studentsList] and of [rawStudentsList] (lines 1121-1139
    and 1158-1176, the same text): the streams, then a placeholder for every
    student entry whose user owns none of them. *)
Definition listItems (r : Roster) (s : MiddleRoomStore) : list (Stream + Placeholder) :=
  let showControls := negb (String.eqb (userRole (roomInfo s)) "student") in
  let streams := studentStreams r in
  let streamUserIds := stream_userUuid <$> streams in
  let userList :=
    (fun it => {| ph_entry := it;
                  ph_account := se_userName it;
                  ph_audio := false;
                  ph_video := false;
                  ph_showControls := showControls;
                  ph_local := String.eqb (se_userUuid it) (ri_userUuid (roomInfo s)) |})
      <$> List.filter (fun e => negb (existsb (String.eqb (se_userUuid e)) streamUserIds))
            (roomStudentUserList r s) in
  (inl <$> streams) ++ (inr <$> userList).

Definition item_userUuid (it : Stream + Placeholder) : string :=
  match it with
  | inl stream => stream_userUuid stream
  | inr p => se_userUuid (ph_entry p)
  end.

(** [studentsList] (lines 1119-1154): the items whose user is in the user
    list. *)
Definition studentsList (r : Roster) (s : MiddleRoomStore) : list (Stream + Placeholder) :=
  List.filter (fun it => present r (item_userUuid it)) (listItems r s).

(** [rawStudentsList] (lines 1156-1183): every item, with the [offline] flag
    the last [map] writes. *)
Definition rawStudentsList (r : Roster) (s : MiddleRoomStore)
  : list ((Stream + Placeholder) * bool) :=
  (fun it => (it, negb (present r (item_userUuid it)))) <$> listItems r s.

(** [allStudentStreams] (lines 810-834). *)
Definition allStudentStreams (r : Roster) (s : MiddleRoomStore) : list MarqueeStream :=
  let userIdsNotInPkList :=
    su_userUuid <$>
      List.filter (fun user => negb (existsb (String.eqb (su_userUuid user)) (pkList s)))
        (userList r) in
  (fun stream =>
     {| mq_stream := stream;
        mq_showStar := true;
        mq_showControls := false;
        mq_showHover := String.eqb (userRole (roomInfo s)) "teacher";
        mq_rewardNum := getUserReward r s (stream_userUuid stream) |})
    <$> List.filter (fun stream => existsb (String.eqb (stream_userUuid stream)) userIdsNotInPkList)
          (studentStreams r).

(** The [g1Members] / [g2Members] of [platformState] (lines 844-857): for
    every decorated stream, one push per member id equal to its owner. *)
Definition stageMembers (memberIds : list string) (streams : list MarqueeStream)
  : list MarqueeStream :=
  flat_map (fun e =>
              flat_map (fun uid => if String.eqb uid (stream_userUuid (mq_stream e))
                                   then [e] else [])
                       memberIds)
           streams.

Definition g1Members (r : Roster) (s : MiddleRoomStore) : list MarqueeStream :=
  stageMembers (g1MemberIds (platformState s)) (allStudentStreams r s).

Definition g2Members (r : Roster) (s : MiddleRoomStore) : list MarqueeStream :=
  stageMembers (g2MemberIds (platformState s)) (allStudentStreams r s).

(** [cardUserGroups] (lines 204-233).  [students[stuUuid]] is an own
    record, an inherited member or undefined; reading [info.userName] of
    undefined throws, and the view has no value then.  The groups come in
    the order of the map, the members of a group in the order of its
    record. *)
Definition cardMember (r : Roster) (s : MiddleRoomStore) (stuUuid : string)
  : option CardMember :=
  let info := property (students (roomProperties s)) stuUuid in
  match info with
  | Undefined => None
  | _ =>
      Some {| cd_userUuid := stuUuid;
              cd_userName := field sp_userName info;
              cd_reward := field sp_reward info;
              cd_streamUuid := field sp_streamUuid info;
              cd_offline := negb (present r stuUuid) |}
  end.

Definition cardUserGroups (r : Roster) (s : MiddleRoomStore) : option (list CardGroup) :=
  mapM (fun kv : string * GroupProp =>
          members ← mapM (cardMember r s) (gp_members (snd kv));
          Some {| cg_groupName := gp_groupName (snd kv);
                  cg_groupUuid := fst kv;
                  cg_members := members |})
       (map_to_list (groups (roomProperties s))).

End Views.

Arguments userList {Stream} _.
Arguments studentStreams {Stream} _.
Arguments mkRoster {Stream} _ _.
Arguments mq_stream {Stream} _.
Arguments mq_rewardNum {Stream} _.
Arguments mq_showStar {Stream} _.
Arguments mq_showControls {Stream} _.
Arguments mq_showHover {Stream} _.
Arguments present {Stream} _ _.
Arguments roomStudentUserList {Stream} _ _.
Arguments studentTotal {Stream} _ _.
Arguments getUserReward {Stream} _ _ _.
Arguments onlineStudentList {Stream} _ _ _.
Arguments property _ {A} _ _.
Arguments studentUserList {Stream} _.
Arguments listItems {Stream} _ _ _.
Arguments item_userUuid {Stream} _ _.
Arguments studentsList {Stream} _ _ _.
Arguments rawStudentsList {Stream} _ _ _.
Arguments allStudentStreams {Stream} _ _ _.
Arguments stageMembers {Stream} _ _ _.
Arguments g1Members {Stream} _ _ _.
Arguments g2Members {Stream} _ _ _.
Arguments cardMember {Stream} _ _ _ _.
Arguments cardUserGroups {Stream} _ _ _.

(** ** Further concrete sessions *)

(** The same session not yet attached to the transport, no manager assigned. *)
Definition lobbySession : MiddleRoomStore := set_sceneStore scene0 teacherSession.

(** Environments in which one kind of call fails. *)
Definition world_camera_down : list Effect -> Effect -> Outcome :=
  fun _ c => match c with GetCameras => Rejected | _ => Resolved true end.

Definition world_upsert_down : list Effect -> Effect -> Outcome :=
  fun _ c => match c with BatchUpsertStream _ => Rejected | _ => Resolved true end.

Definition world_update_down : list Effect -> Effect -> Outcome :=
  fun _ c => match c with UpdateRoomBatchProperties _ _ => Rejected | _ => Resolved true end.

(** A group with no id. *)
Definition namelessGroup : UserGroup :=
  {| groupName := "group3"; groupUuid := "";
     members := [ {| m_userUuid := "u4"; m_reward := 0; m_streamUuid := "s4" |} ] |}.

(** A snapshot with the recording running. *)
Definition recordingSnapshot : Classroom :=
  {| cr_roomProperties :=
       {| handUpStates := (0, 0)%Z; groups := ∅; students := ∅;
          interactOutGroups := {| iog_g1 := None; iog_g2 := None |};
          rp_record := Some {| rec_state := 1; rec_recordId := "rec-8" |} |};
     roomStatus := {| courseState := 1; rs_startTime := Some 1000%Z;
                      isStudentChatAllowed := true |} |}.

(** A session whose transport lists student u1. *)
Definition handsSession : MiddleRoomStore :=
  {| sceneStore := sceneAttached;
     roomManager :=
       {| localStreamData := None; localScreenData := None; fullStreamList := [];
          data_userList := [ {| ru_userUuid := "u1"; ru_streamUuid := "s1" |} ] |};
     roomInfo := {| userRole := "teacher"; ri_userUuid := "t1"; ri_userName := "Kim" |};
     applyUsers := []; quit := false; joined := true; roomChatMessages := [];
     messages := []; userGroups := []; pkList := []; notice := None;
     groupingSolution := 0; roomProperties := stageProperties;
     _intervalMap := ∅; trace := [] |}.

(** The stage of [stageProperties] with the student records filled in: u2
    is in group 1 and u3 in group 2. *)
Definition classProperties : RoomProperties :=
  {| handUpStates := (0, 0)%Z;
     groups := groups stageProperties;
     students :=
       {[ "u1" := {| sp_userName := "Ann"; sp_reward := 0; sp_streamUuid := "s1" |};
          "u2" := {| sp_userName := "Bob"; sp_reward := 3; sp_streamUuid := "s2" |};
          "u3" := {| sp_userName := "Cy"; sp_reward := 1; sp_streamUuid := "s3" |} ]};
     interactOutGroups := interactOutGroups stageProperties;
     rp_record := None |}.

Definition classSession : MiddleRoomStore := set_roomProperties classProperties teacherSession.

Definition streamOf (userUuid streamUuid : string) : EduStream :=
  {| es_streamUuid := streamUuid; es_userUuid := userUuid; hasVideo := true; hasAudio := true;
     videoSourceType := VideoCamera |}.

(** The teacher, u1 and u3 are in the room; u1 and u3 publish a stream, and
    so does u9, who has no student record. *)
Definition classRoster : Roster EduStream :=
  {| userList := [ {| su_userUuid := "t1"; su_role := "host" |};
                   {| su_userUuid := "u1"; su_role := "broadcaster" |};
                   {| su_userUuid := "u3"; su_role := "broadcaster" |} ];
     studentStreams := [ streamOf "u1" "s1"; streamOf "u3" "s3"; streamOf "u9" "s9" ] |}.

(** The names [Object.prototype] defines. *)
Definition objectPrototype (key : string) : bool :=
  existsb (String.eqb key)
    [ "constructor"; "hasOwnProperty"; "isPrototypeOf"; "propertyIsEnumerable";
      "toLocaleString"; "toString"; "valueOf"; "__proto__"; "__defineGetter__";
      "__defineSetter__"; "__lookupGetter__"; "__lookupSetter__" ].

(** The cards of that class. *)
Definition cardOne : CardGroup :=
  {| cg_groupName := "group1"; cg_groupUuid := "group_id_1";
     cg_members :=
       [ {| cd_userUuid := "u1"; cd_userName := Some "Ann"; cd_reward := Some 0%Z;
            cd_streamUuid := Some "s1"; cd_offline := false |};
         {| cd_userUuid := "u2"; cd_userName := Some "Bob"; cd_reward := Some 3%Z;
            cd_streamUuid := Some "s2"; cd_offline := true |} ] |}.

Definition cardTwo : CardGroup :=
  {| cg_groupName := "group2"; cg_groupUuid := "group_id_2";
     cg_members :=
       [ {| cd_userUuid := "u3"; cd_userName := Some "Cy"; cd_reward := Some 1%Z;
            cd_streamUuid := Some "s3"; cd_offline := false |} ] |}.

Definition classCards : list CardGroup := [cardOne; cardTwo].

(** A class in which a user is called constructor: the group names that user
    and u1, only u1 has a student record, and both are in the room together
    with u7, who has no record either. *)
Definition quirkProperties : RoomProperties :=
  {| handUpStates := (0, 0)%Z;
     groups := {[ "group_id_1" := {| gp_groupName := "group1";
                                     gp_members := ["u1"; "constructor"] |} ]};
     students :=
       {[ "u1" := {| sp_userName := "Ann"; sp_reward := 0; sp_streamUuid := "s1" |} ]};
     interactOutGroups := {| iog_g1 := Some "group_id_1"; iog_g2 := None |};
     rp_record := None |}.

Definition quirkSession : MiddleRoomStore := set_roomProperties quirkProperties teacherSession.

Definition quirkRoster : Roster EduStream :=
  {| userList := [ {| su_userUuid := "t1"; su_role := "host" |};
                   {| su_userUuid := "u1"; su_role := "broadcaster" |};
                   {| su_userUuid := "constructor"; su_role := "broadcaster" |};
                   {| su_userUuid := "u7"; su_role := "broadcaster" |} ];
     studentStreams := [] |}.

Definition quirkCard : CardGroup :=
  {| cg_groupName := "group1"; cg_groupUuid := "group_id_1";
     cg_members :=
       [ {| cd_userUuid := "u1"; cd_userName := Some "Ann"; cd_reward := Some 0%Z;
            cd_streamUuid := Some "s1"; cd_offline := false |};
         {| cd_userUuid := "constructor"; cd_userName := None; cd_reward := None;
            cd_streamUuid := None; cd_offline := false |} ] |}.

(** ** The session: handlers registered by [join], teardown, scheduling *)

Section Session.

(** Constants and collaborators imported from modules outside this file. *)
Variable InvitationEnum_Apply InvitationEnum_Cancel InvitationEnum_Accept : Z.
Variable PeerInviteEnum_teacherAccept : Z.

(** What [JSON.parse] followed by the destructuring of the handler makes of a
    peer message: nothing usable ([decodeMsg] returned a falsy value), a value
    on which the destructuring throws, or the fields the handler extracts. *)
Inductive Decoded :=
| DecodeNull
| DecodeMalformed
| DecodeMsg (cmd action : Z) (uuid name : string).

Variable decodeMsg : string -> Decoded.

(** [sceneStore.reset] and [appStore.resetRoomInfo] act on their own stores. *)
Variable sceneStore_reset : SceneStore -> SceneStore.
Variable appStore_resetRoomInfo : RoomInfo -> RoomInfo.

(** How the environment settles each awaited call, given what has happened
    so far. *)
Variable world : list Effect -> Effect -> Outcome.

Definition isStudent (s : MiddleRoomStore) : bool :=
  String.eqb (userRole (roomInfo s)) "student".

Definition addChatMessage (args : ChatMessage) (s : MiddleRoomStore) : MiddleRoomStore :=
  set_roomChatMessages (roomChatMessages s ++ [args]) s.

(** *** [reset] (source lines 172-184) *)

(** [mediaStore.resetRoomState] and [appStore.resetTime] are calls into
    other stores and are recorded as effects; [sceneStore.reset] rewrites the
    scene store; the seven assignments follow. *)
Definition reset (s : MiddleRoomStore) : MiddleRoomStore :=
  let s := log ResetRoomState s in
  let s := log ResetTime s in
  let s := upd_scene sceneStore_reset s in
  let s := set_roomChatMessages [] s in
  let s := set_userGroups [] s in
  let s := set_pkList [] s in
  let s := set_messages [] s in
  let s := set_notice None s in
  let s := set_groupingSolution 0 s in
  set_quit false s.

Definition resetRoomInfo (s : MiddleRoomStore) : MiddleRoomStore :=
  set_roomInfo (appStore_resetRoomInfo (roomInfo s)) s.

(** *** [showInvitationNotice] (source lines 241-301) *)

Definition invitationText (action : Z) (userName : string) : Text :=
  if (action =? InvitationEnum_Apply)%Z
  then TReason "middle_room.student_hands_up" userName
  else if (action =? InvitationEnum_Cancel)%Z
  then TReason "middle_room.student_hands_down" userName
  else if (action =? InvitationEnum_Accept)%Z
  then T "middle_room.the_teacher_accepted"
  else T "toast.you_have_a_default_message".

Definition pushApplyUser (userUuid userName : string) (s : MiddleRoomStore) : MiddleRoomStore :=
  let userExists := List.find (fun u => String.eqb (au_userUuid u) userUuid) (applyUsers s) in
  let user :=
    if _roomManager (sceneStore s)
    then List.find (fun it => String.eqb (ru_userUuid it) userUuid) (data_userList (roomManager s))
    else None in
  match userExists, user with
  | None, Some user =>
      set_applyUsers
        (applyUsers s ++ [{| au_userName := userName; au_userUuid := userUuid;
                             au_streamUuid := ru_streamUuid user; au_state := true |}]) s
  | _, _ => s
  end.

Definition dropApplyUser (userUuid : string) (s : MiddleRoomStore) : MiddleRoomStore :=
  set_applyUsers
    (List.filter (fun it => negb (String.eqb (au_userUuid it) userUuid)) (applyUsers s)) s.

Definition showInvitationNotice (cmd action : Z) (userUuid userName : string) : Prog unit :=
  let text := invitationText action userName in
  modify (set_notice (Some {| reason := text; notice_userUuid := userUuid |}));;
  emit (AddToast text);;
  (if (action =? InvitationEnum_Apply)%Z
   then modify (pushApplyUser userUuid userName);; emit ShowShakeHands
   else skip);;
  (if (action =? InvitationEnum_Cancel)%Z
   then modify (dropApplyUser userUuid)
   else skip);;
  s ← get;
  if (action =? PeerInviteEnum_teacherAccept)%Z && isStudent s then
    try_catch
      (prepareCamera;;
       prepareMicrophone;;
       s1 ← get;
       (if _hasCamera (sceneStore s1) then openCamera else skip);;
       s2 ← get;
       (if _hasMicrophone (sceneStore s2) then openMicrophone else skip))
      Throw;;
    emit (AddToast (T "toast.publish_rtc_success"))
  else skip.

(** *** Handlers dispatched through [sceneStore.mutex] *)

Record StreamEvent := mkStreamEvent { evt_type : string }.

(** [local-stream-removed] (source lines 378-398), the dispatched body. *)
Definition local_stream_removed (evt : StreamEvent) : Prog unit :=
  s ← get;
  if negb (joiningRTC (sceneStore s)) then skip
  else
    try_catch
      (if String.eqb (evt_type evt) "main"
       then modify (upd_scene (set_cameraEduStream None));;
            closeCamera;;
            closeMicrophone
       else skip)
      skip.

(** Modelled from the spec: the [cameraEduStream] getter of the scene store
    is not part of this file; section 4.2, step 4 reads the desired flags
    from the cached stream descriptor.  Dereferencing an absent stream
    throws. *)
Definition cameraEduStreamFlag (flag : EduStream -> bool) (onTrue onFalse : Prog unit)
  : Prog unit :=
  s ← get;
  match _cameraEduStream (sceneStore s) with
  | Some st => if flag st then onTrue else onFalse
  | None => Throw
  end.

Definition online (d : option LocalStreamData) : option EduStream :=
  match d with
  | Some ls => if negb (lsd_state ls =? 0)%Z then Some (lsd_stream ls) else None
  | None => None
  end.

(** The main-stream branch of [local-stream-updated] (source lines 422-457):
    the reconciliation pass of the stream lifecycle. *)
Definition reconcileMain : Prog unit :=
  s ← get;
  match online (localStreamData (roomManager s)) with
  | Some stream =>
      modify (upd_scene (set_cameraEduStream (Some stream)));;
      prepareCamera;;
      prepareMicrophone;;
      s1 ← get;
      if joiningRTC (sceneStore s1) then
        (if _hasCamera (sceneStore s1)
         then cameraEduStreamFlag hasVideo openCamera closeCamera
         else skip);;
        s2 ← get;
        (if _hasMicrophone (sceneStore s2)
         then cameraEduStreamFlag hasAudio openMicrophone closeMicrophone
         else skip)
      else skip
  | None => modify (upd_scene (set_cameraEduStream None))
  end.

(** The screen branch (source lines 459-472). *)
Definition reconcileScreen : Prog unit :=
  s ← get;
  if String.eqb (userRole (roomInfo s)) "teacher" then
    match online (localScreenData (roomManager s)) with
    | Some stream =>
        modify (upd_scene (fun sc => set_sharing true (set_screenEduStream (Some stream) sc)))
    | None =>
        modify (upd_scene (fun sc => set_sharing false (set_screenEduStream None sc)))
    end
  else skip.

(** [local-stream-updated] (source lines 415-477), the dispatched body. *)
Definition local_stream_updated (evt : StreamEvent) : Prog unit :=
  s ← get;
  if negb (joiningRTC (sceneStore s)) then skip
  else
    (if String.eqb (evt_type evt) "main" then reconcileMain else skip);;
    (if String.eqb (evt_type evt) "screen" then reconcileScreen else skip).

(** [user-message] (source lines 549-573), the dispatched body. *)
Definition user_message (raw : string) : Prog unit :=
  s ← get;
  if negb (joiningRTC (sceneStore s)) then skip
  else
    try_catch
      (match decodeMsg raw with
       | DecodeNull => skip
       | DecodeMalformed => Throw
       | DecodeMsg cmd action uuid name =>
           if (cmd =? 1)%Z then showInvitationNotice cmd action uuid name else skip
       end)
      skip.

(** *** Handlers that run directly *)

(** [remote-stream-added], [remote-stream-removed] and
    [remote-stream-updated] (source lines 500-540) have the same body. *)
Definition syncRemoteStreams (s : MiddleRoomStore) : MiddleRoomStore :=
  let s := upd_scene (set_streamList (fullStreamList (roomManager s))) s in
  if negb (String.eqb (userRole (roomInfo s)) "teacher") then
    match List.find (fun it => is_screen (videoSourceType it)) (streamList (sceneStore s)) with
    | Some _ => upd_scene (set_sharing true) s
    | None => upd_scene (set_sharing false) s
    end
  else s.

Definition remote_stream_added : MiddleRoomStore -> MiddleRoomStore := syncRemoteStreams.
Definition remote_stream_removed : MiddleRoomStore -> MiddleRoomStore := syncRemoteStreams.
Definition remote_stream_updated : MiddleRoomStore -> MiddleRoomStore := syncRemoteStreams.

(** [classroom-property-updated] (source lines 575-641); [now] is the reading
    of [Date.now()] when the handler runs. *)
Definition systemMessage (now : Z) (s : MiddleRoomStore) : ChatMessage :=
  {| cm_id := "system"; cm_ts := now; cm_text := ""; cm_account := "system";
     cm_link := Some (roomUuid (sceneStore s)); cm_sender := false |}.

Definition syncRecord (now : Z) (classroom : Classroom) (s : MiddleRoomStore)
  : MiddleRoomStore :=
  match rp_record (cr_roomProperties classroom) with
  | Some record =>
      let state := rec_state record in
      if (state =? 1)%Z then upd_scene (set_recordState true) s
      else if (state =? 0)%Z && recordState (sceneStore s) then
        let s := addChatMessage (systemMessage now s) s in
        let s := upd_scene (set_recordState false) s in
        upd_scene (set_recordId "") s
      else s
  | None => s
  end.

Definition syncClassState (classroom : Classroom) (s : MiddleRoomStore) : MiddleRoomStore :=
  let newClassState := courseState (roomStatus classroom) in
  if negb (classState (sceneStore s) =? newClassState)%Z then
    let s := upd_scene (set_classState newClassState) s in
    let statusStartTime := default 0%Z (rs_startTime (roomStatus classroom)) in
    if (classState (sceneStore s) =? 1)%Z then
      let s := upd_scene (set_startTime statusStartTime) s in
      addInterval "timer" {| iv_startTime := statusStartTime; iv_delay := ms |} s
    else
      let s := upd_scene (set_startTime statusStartTime) s in
      delInterval "timer" s
  else s.

Definition classroom_property_updated (now : Z) (classroom : Classroom) (s : MiddleRoomStore)
  : MiddleRoomStore :=
  let s := set_roomProperties (cr_roomProperties classroom) s in
  let s := syncRecord now classroom s in
  let s := syncClassState classroom s in
  let s := upd_scene (set_isMuted (negb (isStudentChatAllowed (roomStatus classroom)))) s in
  set_roomProperties (cr_roomProperties classroom) s.

(** *** [leave] (source lines 1307-1325) *)

Definition leave : Prog unit :=
  try_catch
    (modify (upd_scene (set_joiningRTC true));;
     leaveRtc;;
     await BoardLeave;;
     await Logout;;
     s ← get;
     (if _roomManager (sceneStore s) then await RoomManagerLeave else skip);;
     emit (AddToast (T "toast.successfully_left_the_business_channel"));;
     modify (delInterval "timer");;
     modify reset;;
     modify resetRoomInfo;;
     emit (UpdateCurSeqId 0);;
     emit (UpdateLastSeqId 0))
    (modify reset).

(** *** Running a program *)

(** Big-step execution: every awaited call is logged and settled by
    [world]. *)
Fixpoint run {A : Type} (p : Prog A) (s : MiddleRoomStore) : Result A * MiddleRoomStore :=
  match p with
  | Ret a => (Ok a, s)
  | Throw => (Thrown, s)
  | Get k => run (k s) s
  | Put s' k => run k s'
  | Await c k => run (k (world (trace s) c)) (log c s)
  end.

Definition exec {A : Type} (p : Prog A) (s : MiddleRoomStore) : MiddleRoomStore :=
  snd (run p s).

(** Execution up to the next suspension point: the store at that point and,
    unless the body has finished, what remains to run once the awaited call
    has settled. *)
Fixpoint advance (p : Prog unit) (s : MiddleRoomStore) : option (Prog unit) * MiddleRoomStore :=
  match p with
  | Ret _ => (None, s)
  | Throw => (None, s)
  | Get k => advance (k s) s
  | Put s' k => advance k s'
  | Await c k => (Some (k (world (trace s) c)), log c s)
  end.

(** The number of suspensions of a body started in store [s]. *)
Fixpoint suspensions (p : Prog unit) (s : MiddleRoomStore) : nat :=
  match p with
  | Ret _ => 0
  | Throw => 0
  | Get k => suspensions (k s) s
  | Put s' k => suspensions k s'
  | Await c k => S (suspensions (k (world (trace s) c)) (log c s))
  end.

(** *** The Event Serializer *)

(** Modelled from the spec: [sceneStore.mutex] and its [dispatch] are not
    part of this file.  Section 4.1: a single-consumer queue; every handler
    enqueues its body; a single worker drains the queue sequentially, running
    each task to completion, including its own suspensions, before starting
    the next; an exception from a task does not abort the queue. *)
Record Mutex := mkMutex {
  running : option (Prog unit);
  pending : list (Prog unit) }.

(** Modelled from the spec: the single worker of section 4.1; it starts
    queued bodies in order until one of them suspends. *)
Fixpoint drain (q : list (Prog unit)) (s : MiddleRoomStore) : Mutex * MiddleRoomStore :=
  match q with
  | [] => ({| running := None; pending := [] |}, s)
  | p :: q' =>
      match advance p s with
      | (Some k, s') => ({| running := Some k; pending := q' |}, s')
      | (None, s') => drain q' s'
      end
  end.

(** Modelled from the spec: [mutex.dispatch], the [submit] of section 4.1;
    the body is enqueued, and started at once when nothing is running. *)
Definition dispatch (body : Prog unit) (m : Mutex) (s : MiddleRoomStore)
  : Mutex * MiddleRoomStore :=
  match running m with
  | Some k => ({| running := Some k; pending := pending m ++ [body] |}, s)
  | None => drain (pending m ++ [body]) s
  end.

(** Modelled from the spec: the awaited call of the running body has
    settled; the worker runs the body on and, when it finishes, the bodies
    queued behind it. *)
Definition resume (m : Mutex) (s : MiddleRoomStore) : Mutex * MiddleRoomStore :=
  match running m with
  | Some k => drain (k :: pending m) s
  | None => (m, s)
  end.

(** The notifications bound through the serializer, and what the event loop
    sees: a notification arriving, or the running body being resumed. *)
Inductive Notification :=
| LocalStreamRemoved (evt : StreamEvent)
| LocalStreamUpdated (evt : StreamEvent)
| UserMessage (raw : string).

Definition handler (n : Notification) : Prog unit :=
  match n with
  | LocalStreamRemoved evt => local_stream_removed evt
  | LocalStreamUpdated evt => local_stream_updated evt
  | UserMessage raw => user_message raw
  end.

Inductive LoopEvent :=
| Arrive (n : Notification)
| Resume.

Definition loopStep (st : Mutex * MiddleRoomStore) (ev : LoopEvent) : Mutex * MiddleRoomStore :=
  match ev with
  | Arrive n => dispatch (handler n) (fst st) (snd st)
  | Resume => resume (fst st) (snd st)
  end.

Definition loop (evs : list LoopEvent) (st : Mutex * MiddleRoomStore) : Mutex * MiddleRoomStore :=
  foldl loopStep st evs.

Definition idle : Mutex := {| running := None; pending := [] |}.

Definition arrivals (evs : list LoopEvent) : list Notification :=
  omap (fun ev => match ev with Arrive n => Some n | Resume => None end) evs.

(** Running bodies one at a time, each to completion. *)
Definition sequentially (bodies : list (Prog unit)) (s : MiddleRoomStore) : MiddleRoomStore :=
  foldl (fun s body => exec body s) s bodies.

(** The work a serializer state still owes, in order. *)
Definition owed (m : Mutex) : list (Prog unit) :=
  match running m with
  | Some k => k :: pending m
  | None => pending m
  end.

(** Resumptions needed to finish a list of bodies started in [s]. *)
Fixpoint resumptions (q : list (Prog unit)) (s : MiddleRoomStore) : nat :=
  match q with
  | [] => 0
  | p :: q' => suspensions p s + resumptions q' (exec p s)
  end.

(** Resumptions after which a serializer state has nothing left to run. *)
Definition resumptionsOwed (st : Mutex * MiddleRoomStore) : nat :=
  match running (fst st) with
  | Some k => S (resumptions (k :: pending (fst st)) (snd st))
  | None => 0
  end.

(** *** Stage occupancy, as the design states it *)

(** The number of filled stage slots. *)
Definition occupied (ps : PlatformState) : nat :=
  (if truthy (g1 ps) then 1 else 0) + (if truthy (g2 ps) then 1 else 0).

(** The first empty slot, [g1] before [g2]. *)
Definition firstEmptySlot (ps : PlatformState) : option string :=
  if negb (truthy (g1 ps)) then Some "g1"
  else if negb (truthy (g2 ps)) then Some "g2"
  else None.

(** *** Teardown, as the design states it *)

(** Every session-owned entity at its initial value (section 3, ownership). *)
Definition session_cleared (s : MiddleRoomStore) : Prop :=
  roomChatMessages s = [] ∧ userGroups s = [] ∧ pkList s = [] ∧ messages s = [] ∧
  notice s = None ∧ groupingSolution s = 0%Z ∧ quit s = false ∧
  joined s = false ∧ roomProperties s = initial_roomProperties.

(** The entities [reset] assigns. *)
Definition reset_cleared (s : MiddleRoomStore) : Prop :=
  roomChatMessages s = [] ∧ userGroups s = [] ∧ pkList s = [] ∧ messages s = [] ∧
  notice s = None ∧ groupingSolution s = 0%Z ∧ quit s = false.

(** *** Screen sharing, as the design states it *)

(** Whether the transport's stream list holds a screen stream. *)
Definition screenListed (s : MiddleRoomStore) : bool :=
  existsb (fun it => is_screen (videoSourceType it)) (fullStreamList (roomManager s)).

(** Whether the local outbound screen stream descriptor is online. *)
Definition screenOnline (s : MiddleRoomStore) : bool :=
  match online (localScreenData (roomManager s)) with
  | Some _ => true
  | None => false
  end.

(** *** Device actuation, as the design states it *)

(** The open/close device calls among the effects performed. *)
Definition isActuation (e : Effect) : bool :=
  match e with
  | DevOpenCamera | DevCloseCamera | DevOpenMicrophone | DevCloseMicrophone => true
  | _ => false
  end.

Definition deviceCalls (tr : list Effect) : list Effect := List.filter isActuation tr.

(** Every available device is in the state the stream descriptor asks for. *)
Definition reconciled (stream : EduStream) (x : MiddleRoomStore) : Prop :=
  (_hasCamera (sceneStore x) = true -> cameraOpen (sceneStore x) = hasVideo stream) ∧
  (_hasMicrophone (sceneStore x) = true -> microphoneOpen (sceneStore x) = hasAudio stream).

(** *** Assertions about programs and about the serializer *)

(** [triple P p Q E]: started in a store satisfying [P], the program [p]
    either returns [a] in a store satisfying [Q a], or throws in a store
    satisfying [E]. *)
Definition triple {A : Type} (P : MiddleRoomStore -> Prop) (p : Prog A)
    (Q : A -> MiddleRoomStore -> Prop) (E : MiddleRoomStore -> Prop) : Prop :=
  ∀ s, P s ->
    match run p s with
    | (Ok a, s') => Q a s'
    | (Thrown, s') => E s'
    end.

(** An assertion kept by a program on both exits. *)
Definition preserves {A : Type} (I : MiddleRoomStore -> Prop) (p : Prog A) : Prop :=
  triple I p (fun _ => I) I.

(** A serializer with no running body has nothing queued. *)
Definition settledQueue (m : Mutex) : Prop := running m = None -> pending m = [].

(** *** Further assertions *)

(** The effects a program has added to the log of [s]. *)
Definition added (s s' : MiddleRoomStore) (l : list Effect) : Prop :=
  trace s' = trace s ++ l.

(** The cached scalars of the store already agree with a snapshot. *)
Definition inSync (classroom : Classroom) (x : MiddleRoomStore) : Prop :=
  roomProperties x = cr_roomProperties classroom ∧
  classState (sceneStore x) = courseState (roomStatus classroom) ∧
  isMuted (sceneStore x) = negb (isStudentChatAllowed (roomStatus classroom)) ∧
  match rp_record (cr_roomProperties classroom) with
  | Some record =>
      (rec_state record = 1%Z -> recordState (sceneStore x) = true) ∧
      (rec_state record = 0%Z -> recordState (sceneStore x) = false)
  | None => True
  end.

(** The session clock ticks exactly while the class state is 1. *)
Definition clockInStep (x : MiddleRoomStore) : Prop :=
  is_Some (_intervalMap x !! "timer") ↔ classState (sceneStore x) = 1%Z.

(** The users with a raised hand. *)
Definition applyUserIds (s : MiddleRoomStore) : list string :=
  au_userUuid <$> applyUsers s.

(** The apply list [showInvitationNotice] leaves behind: the two list
    updates of lines 264-280, in order. *)
Definition applyUsersAfter (action : Z) (userUuid userName : string) (s : MiddleRoomStore)
  : list ApplyUser :=
  let s1 := if (action =? InvitationEnum_Apply)%Z then pushApplyUser userUuid userName s
            else s in
  applyUsers (if (action =? InvitationEnum_Cancel)%Z then dropApplyUser userUuid s1 else s1).

Definition leftToast : Effect :=
  AddToast (T "toast.successfully_left_the_business_channel").

(** The calls [leave] awaits before anything local changes. *)
Definition leaveCalls : list Effect := [LeaveRtc; BoardLeave; Logout; RoomManagerLeave].

(** A decoder for two peer messages: a raised hand of u1 and its withdrawal. *)
Definition decodeHands (apply cancel : Z) (raw : string) : Decoded :=
  if String.eqb raw "hand-up" then DecodeMsg 1 apply "u1" "Ann"
  else if String.eqb raw "hand-down" then DecodeMsg 1 cancel "u1" "Ann"
  else DecodeNull.

(** ** Execution lemmas *)

Lemma run_bind {A B : Type} (p : Prog A) (f : A -> Prog B) (s : MiddleRoomStore) :
  run (p ≫= f) s =
  match run p s with
  | (Ok a, s') => run (f a) s'
  | (Thrown, s') => (Thrown, s')
  end.
Proof.
  unfold mbind, Prog_bind.
  revert s; induction p as [a| |k IH|s' k IH|c k IH]; intros s; simpl; auto.
Qed.

Lemma run_try_catch {A : Type} (p h : Prog A) (s : MiddleRoomStore) :
  run (try_catch p h) s =
  match run p s with
  | (Ok a, s') => (Ok a, s')
  | (Thrown, s') => run h s'
  end.
Proof.
  revert s; induction p as [a| |k IH|s' k IH|c k IH]; intros s; simpl; auto.
Qed.

Lemma run_get (s : MiddleRoomStore) : run get s = (Ok s, s).
Proof. reflexivity. Qed.

Lemma run_modify (f : MiddleRoomStore -> MiddleRoomStore) (s : MiddleRoomStore) :
  run (modify f) s = (Ok tt, f s).
Proof. reflexivity. Qed.

Lemma run_emit (e : Effect) (s : MiddleRoomStore) : run (emit e) s = (Ok tt, log e s).
Proof. reflexivity. Qed.

Lemma run_skip (s : MiddleRoomStore) : run skip s = (Ok tt, s).
Proof. reflexivity. Qed.

Lemma run_await (c : Effect) (s : MiddleRoomStore) :
  run (await c) s =
  (match world (trace s) c with Resolved _ => Ok tt | Rejected => Thrown end, log c s).
Proof. simpl. destruct (world (trace s) c); reflexivity. Qed.

Lemma run_probe (c : Effect) (s : MiddleRoomStore) :
  run (probe c) s =
  (match world (trace s) c with Resolved b => Ok b | Rejected => Thrown end, log c s).
Proof. simpl. destruct (world (trace s) c); reflexivity. Qed.

(** Reduction of store projections over field updates. *)
Ltac store_simpl :=
  cbn [joiningRTC _roomManager _cameraEduStream _screenEduStream _hasCamera _hasMicrophone
       cameraOpen microphoneOpen sharing recordState recordId classState startTime isMuted
       streamList roomUuid sceneStore roomManager roomInfo applyUsers quit joined
       roomChatMessages messages userGroups pkList notice groupingSolution roomProperties
       _intervalMap trace set_joiningRTC set_cameraEduStream set_screenEduStream
       set_hasCamera set_hasMicrophone set_cameraOpen set_microphoneOpen set_sharing
       set_recordState set_recordId set_classState set_startTime set_isMuted
       set_streamList set_sceneStore set_roomInfo set_applyUsers set_quit set_joined
       set_roomChatMessages set_messages set_userGroups set_pkList set_notice
       set_groupingSolution set_roomProperties set_intervalMap set_trace upd_scene log] in
       *.

(** ** A program logic for [run] *)

Lemma triple_conseq {A : Type} (P P' : MiddleRoomStore -> Prop) (p : Prog A)
    (Q Q' : A -> MiddleRoomStore -> Prop) (E E' : MiddleRoomStore -> Prop) :
  triple P' p Q' E' ->
  (∀ s, P s -> P' s) -> (∀ a s, Q' a s -> Q a s) -> (∀ s, E' s -> E s) ->
  triple P p Q E.
Proof.
  intros H HP HQ HE s Hs. specialize (H s (HP s Hs)).
  destruct (run p s) as [[a|] s']; auto.
Qed.

Lemma triple_ret {A : Type} (P : MiddleRoomStore -> Prop) (a : A)
    (Q : A -> MiddleRoomStore -> Prop) (E : MiddleRoomStore -> Prop) :
  (∀ s, P s -> Q a s) -> triple P (Ret a) Q E.
Proof. intros H s Hs. simpl. auto. Qed.

Lemma triple_skip (P : MiddleRoomStore -> Prop)
    (Q : unit -> MiddleRoomStore -> Prop) (E : MiddleRoomStore -> Prop) :
  (∀ s, P s -> Q tt s) -> triple P skip Q E.
Proof. exact (triple_ret P tt Q E). Qed.

Lemma triple_throw {A : Type} (P : MiddleRoomStore -> Prop)
    (Q : A -> MiddleRoomStore -> Prop) (E : MiddleRoomStore -> Prop) :
  (∀ s, P s -> E s) -> triple P (@Throw A) Q E.
Proof. intros H s Hs. simpl. auto. Qed.

Lemma triple_bind {A B : Type} (R : A -> MiddleRoomStore -> Prop)
    (P : MiddleRoomStore -> Prop) (p : Prog A) (k : A -> Prog B)
    (Q : B -> MiddleRoomStore -> Prop) (E : MiddleRoomStore -> Prop) :
  triple P p R E -> (∀ a, triple (R a) (k a) Q E) -> triple P (p ≫= k) Q E.
Proof.
  intros Hp Hk s Hs. rewrite run_bind. specialize (Hp s Hs).
  destruct (run p s) as [[a|] s']; [apply Hk, Hp|exact Hp].
Qed.

(** Reading [this]: the continuation is verified for each store it may see. *)
Lemma triple_get_bind {B : Type} (P : MiddleRoomStore -> Prop) (k : MiddleRoomStore -> Prog B)
    (Q : B -> MiddleRoomStore -> Prop) (E : MiddleRoomStore -> Prop) :
  (∀ s0, P s0 -> triple (fun s => s = s0) (k s0) Q E) -> triple P (get ≫= k) Q E.
Proof.
  intros H s Hs. rewrite run_bind, run_get. apply (H s Hs). reflexivity.
Qed.

Lemma triple_modify (P : MiddleRoomStore -> Prop) (f : MiddleRoomStore -> MiddleRoomStore)
    (Q : unit -> MiddleRoomStore -> Prop) (E : MiddleRoomStore -> Prop) :
  (∀ s, P s -> Q tt (f s)) -> triple P (modify f) Q E.
Proof. intros H s Hs. rewrite run_modify. auto. Qed.

Lemma triple_emit (P : MiddleRoomStore -> Prop) (e : Effect)
    (Q : unit -> MiddleRoomStore -> Prop) (E : MiddleRoomStore -> Prop) :
  (∀ s, P s -> Q tt (log e s)) -> triple P (emit e) Q E.
Proof. exact (triple_modify P (log e) Q E). Qed.

Lemma triple_await (P : MiddleRoomStore -> Prop) (c : Effect)
    (Q : unit -> MiddleRoomStore -> Prop) (E : MiddleRoomStore -> Prop) :
  (∀ s b, P s -> world (trace s) c = Resolved b -> Q tt (log c s)) ->
  (∀ s, P s -> world (trace s) c = Rejected -> E (log c s)) ->
  triple P (await c) Q E.
Proof.
  intros HQ HE s Hs. rewrite run_await.
  destruct (world (trace s) c) eqn:Hw; eauto.
Qed.

Lemma triple_probe (P : MiddleRoomStore -> Prop) (c : Effect)
    (Q : bool -> MiddleRoomStore -> Prop) (E : MiddleRoomStore -> Prop) :
  (∀ s b, P s -> world (trace s) c = Resolved b -> Q b (log c s)) ->
  (∀ s, P s -> world (trace s) c = Rejected -> E (log c s)) ->
  triple P (probe c) Q E.
Proof.
  intros HQ HE s Hs. rewrite run_probe.
  destruct (world (trace s) c) eqn:Hw; eauto.
Qed.

Lemma triple_try_catch {A : Type} (E1 : MiddleRoomStore -> Prop)
    (P : MiddleRoomStore -> Prop) (p h : Prog A)
    (Q : A -> MiddleRoomStore -> Prop) (E : MiddleRoomStore -> Prop) :
  triple P p Q E1 -> triple E1 h Q E -> triple P (try_catch p h) Q E.
Proof.
  intros Hp Hh s Hs. rewrite run_try_catch. specialize (Hp s Hs).
  destruct (run p s) as [[a|] s']; [exact Hp|apply Hh, Hp].
Qed.

(** What a triple says about [exec] when both exits establish the same
    assertion. *)
Lemma triple_exec {A : Type} (P : MiddleRoomStore -> Prop) (p : Prog A)
    (I : MiddleRoomStore -> Prop) (s : MiddleRoomStore) :
  triple P p (fun _ => I) I -> P s -> I (exec p s).
Proof.
  intros H Hs. specialize (H s Hs). unfold exec.
  destruct (run p s) as [[a|] s']; exact H.
Qed.

Lemma preserves_bind {A B : Type} (I : MiddleRoomStore -> Prop) (p : Prog A) (k : A -> Prog B) :
  preserves I p -> (∀ a, preserves I (k a)) -> preserves I (p ≫= k).
Proof. intros Hp Hk. exact (triple_bind (fun _ => I) I p k (fun _ => I) I Hp Hk). Qed.

Lemma preserves_get_bind {B : Type} (I : MiddleRoomStore -> Prop) (k : MiddleRoomStore -> Prog B) :
  (∀ s0, I s0 -> preserves I (k s0)) -> preserves I (get ≫= k).
Proof.
  intros H. apply triple_get_bind. intros s0 Hs0.
  apply (triple_conseq _ I _ _ (fun _ => I) _ I (H s0 Hs0)); [|auto|auto].
  intros s ->. exact Hs0.
Qed.

Lemma preserves_ret {A : Type} (I : MiddleRoomStore -> Prop) (a : A) : preserves I (Ret a).
Proof. apply (triple_ret I a (fun _ => I) I). auto. Qed.

Lemma preserves_throw {A : Type} (I : MiddleRoomStore -> Prop) : preserves I (@Throw A).
Proof. apply (@triple_throw A I (fun _ => I) I). auto. Qed.

Lemma preserves_modify (I : MiddleRoomStore -> Prop) (f : MiddleRoomStore -> MiddleRoomStore) :
  (∀ s, I s -> I (f s)) -> preserves I (modify f).
Proof. exact (triple_modify I f (fun _ => I) I). Qed.

Lemma preserves_await (I : MiddleRoomStore -> Prop) (c : Effect) :
  (∀ s, I s -> I (log c s)) -> preserves I (await c).
Proof. intros H. apply (triple_await I c (fun _ => I) I); eauto. Qed.

Lemma preserves_probe (I : MiddleRoomStore -> Prop) (c : Effect) :
  (∀ s, I s -> I (log c s)) -> preserves I (probe c).
Proof. intros H. apply (triple_probe I c (fun _ => I) I); eauto. Qed.

Lemma preserves_try_catch {A : Type} (I : MiddleRoomStore -> Prop) (p h : Prog A) :
  preserves I p -> preserves I h -> preserves I (try_catch p h).
Proof. intros Hp Hh. exact (triple_try_catch I I p h (fun _ => I) I Hp Hh). Qed.

(** Decomposing a program along its structure, leaving one goal per store
    update. *)
Ltac preserve :=
  lazymatch goal with
  | |- preserves _ (get ≫= _) => apply preserves_get_bind; intros ? ?; preserve
  | |- preserves _ (_ ≫= _) => apply preserves_bind; [preserve | intros ?; preserve]
  | |- preserves _ (if ?b then _ else _) => destruct b eqn:?; preserve
  | |- preserves _ (match ?x with _ => _ end) => destruct x eqn:?; preserve
  | |- preserves _ (modify _) => apply preserves_modify
  | |- preserves _ (emit _) => apply preserves_modify
  | |- preserves _ (await _) => apply preserves_await
  | |- preserves _ (probe _) => apply preserves_probe
  | |- preserves _ (try_catch _ _) => apply preserves_try_catch; preserve
  | |- preserves _ skip => apply preserves_ret
  | |- preserves _ (Ret _) => apply preserves_ret
  | |- preserves _ Throw => apply preserves_throw
  end.

Ltac unfold_devices :=
  unfold cameraEduStreamFlag, prepareCamera, prepareMicrophone,
    openCamera, closeCamera, openMicrophone, closeMicrophone.

Lemma eqb_false_of_ne (a b : string) : a ≠ b -> String.eqb a b = false.
Proof. intros H. apply String.eqb_neq. exact H. Qed.

Lemma run_updateRoomBatchProperties (properties : gmap string PropValue) (cmd : string)
    (s : MiddleRoomStore) :
  _roomManager (sceneStore s) = true ->
  run (updateRoomBatchProperties properties cmd) s =
  (match world (trace s) (UpdateRoomBatchProperties properties cmd) with
   | Resolved _ => Ok tt
   | Rejected => Thrown
   end, log (UpdateRoomBatchProperties properties cmd) s).
Proof.
  intros H. unfold updateRoomBatchProperties.
  rewrite run_bind, run_get, H. apply run_await.
Qed.

Lemma run_batchUpsertStream (streams : list StreamType) (s : MiddleRoomStore) :
  _roomManager (sceneStore s) = true ->
  run (batchUpsertStream streams) s =
  (match world (trace s) (BatchUpsertStream streams) with
   | Resolved _ => Ok tt
   | Rejected => Thrown
   end, log (BatchUpsertStream streams) s).
Proof.
  intros H. unfold batchUpsertStream.
  rewrite run_bind, run_get, H. apply run_await.
Qed.

Lemma run_batchDeleteStream (streams : list DeleteStreamType) (s : MiddleRoomStore) :
  _roomManager (sceneStore s) = true ->
  run (batchDeleteStream streams) s =
  (match world (trace s) (BatchDeleteStream streams) with
   | Resolved _ => Ok tt
   | Rejected => Thrown
   end, log (BatchDeleteStream streams) s).
Proof.
  intros H. unfold batchDeleteStream.
  rewrite run_bind, run_get, H. apply run_await.
Qed.

(** ** Stage occupancy *)

(** C2.  Whatever the store holds, at most two stage slots are filled.  For a
    group that occupies neither slot: with both slots filled [clickPlatform]
    does nothing at all (no property update, no stream batch call, store
    untouched); with a slot free, and the manager assigned and the stream
    upsert resolving, the members' streams are upserted and then one property
    update writes the group id into the first empty slot, [g1] before [g2]. *)
Theorem clickPlatform_capacity (group : UserGroup) (s : MiddleRoomStore) :
  g1 (platformState s) ≠ groupUuid group ->
  g2 (platformState s) ≠ groupUuid group ->
  (occupied (platformState s) <= 2)%nat ∧
  (occupied (platformState s) = 2 -> run (clickPlatform group) s = (Ok tt, s)) ∧
  ((occupied (platformState s) < 2)%nat ->
   _roomManager (sceneStore s) = true ->
   world (trace s) (BatchUpsertStream (map (upsertStreamOf 1) (members group))) ≠ Rejected ->
   ∃ t,
     firstEmptySlot (platformState s) = Some t ∧
     enterStagePatch t (groupUuid group) !! ("interactOutGroups." +:+ t)
       = Some (PStr (groupUuid group)) ∧
     exec (clickPlatform group) s =
       log (UpdateRoomBatchProperties (enterStagePatch t (groupUuid group)) "104")
         (log (BatchUpsertStream (map (upsertStreamOf 1) (members group))) s)).
Proof.
  intros Hg1 Hg2.
  assert (Hsel : run (clickPlatform group) s =
    run (if truthy (g1 (platformState s)) && truthy (g2 (platformState s)) then skip
         else batchUpsertStream (map (upsertStreamOf 1) (members group));;
              s' ← get;
              updateRoomBatchProperties
                (enterStagePatch (if negb (truthy (g1 (platformState s'))) then "g1" else "g2")
                   (groupUuid group)) "104") s).
  { unfold clickPlatform. rewrite run_bind, run_get.
    rewrite (eqb_false_of_ne _ _ Hg1), (eqb_false_of_ne _ _ Hg2). reflexivity. }
  split; [|split].
  - unfold occupied. destruct (truthy _), (truthy _); simpl; lia.
  - intros Hfull. rewrite Hsel. unfold occupied in Hfull.
    destruct (truthy (g1 _)), (truthy (g2 _)); simpl in Hfull; try lia. reflexivity.
  - intros Hfree Hrm Hok. unfold exec. rewrite Hsel.
    set (up := BatchUpsertStream (map (upsertStreamOf 1) (members group))) in *.
    assert (Hnot : truthy (g1 (platformState s)) && truthy (g2 (platformState s)) = false).
    { unfold occupied in Hfree.
      destruct (truthy (g1 _)), (truthy (g2 _)); simpl in Hfree; try lia; reflexivity. }
    rewrite Hnot, run_bind, run_batchUpsertStream by exact Hrm. fold up.
    destruct (world (trace s) up) eqn:Hw; [|congruence].
    rewrite run_bind, run_get.
    change (platformState (log up s)) with (platformState s).
    rewrite run_updateRoomBatchProperties by exact Hrm.
    unfold firstEmptySlot.
    destruct (truthy (g1 (platformState s))) eqn:E1.
    + destruct (truthy (g2 (platformState s))) eqn:E2; [discriminate Hnot|].
      exists "g2". split; [reflexivity|].
      split; [unfold enterStagePatch; apply lookup_insert_eq|reflexivity].
    + exists "g1". split; [reflexivity|].
      split; [unfold enterStagePatch; apply lookup_insert_eq|reflexivity].
Qed.

(** C3.  For a group that holds a slot, with the manager assigned: the first
    call is one property update that clears the group's slot; it also sets
    [groupStates.interactOutGroup] to 0 exactly when the other slot is empty,
    and leaves that key out otherwise.  When the update resolves, a batch
    stream deletion follows with one entry per member, in member order, each
    entry carrying that member's user id and stream id; when it rejects,
    [clickPlatform] rethrows and nothing else is issued. *)
Theorem clickPlatform_leave_stage (group : UserGroup) (s : MiddleRoomStore) :
  let ps := platformState s in
  let id := groupUuid group in
  let t := if String.eqb (g1 ps) id then "g1" else "g2" in
  let other := if String.eqb (g1 ps) id then g2 ps else g1 ps in
  let patch := leaveStagePatch t (negb (truthy other)) in
  let update := UpdateRoomBatchProperties patch "104" in
  let streams :=
    map (fun item => {| ds_userUuid := m_userUuid item; ds_streamUuid := m_streamUuid item |})
        (members group) in
  let deletion := BatchDeleteStream streams in
  g1 ps = id ∨ g2 ps = id ->
  _roomManager (sceneStore s) = true ->
  patch !! ("interactOutGroups." +:+ t) = Some (PStr "") ∧
  patch !! "groupStates.interactOutGroup"
    = (if truthy other then None else Some (PNum 0)) ∧
  (length streams = length (members group) ∧
   map ds_userUuid streams = map m_userUuid (members group) ∧
   map ds_streamUuid streams = map m_streamUuid (members group)) ∧
  (world (trace s) update ≠ Rejected ->
   exec (clickPlatform group) s = log deletion (log update s)) ∧
  (world (trace s) update = Rejected ->
   run (clickPlatform group) s = (Thrown, log update s)).
Proof.
  intros ps id t other patch update streams deletion Hon Hrm.
  assert (Hstreams : map deleteStreamOf (members group) = streams) by reflexivity.
  assert (Hslot : String.eqb (g1 ps) id || String.eqb (g2 ps) id = true).
  { destruct Hon as [H|H]; rewrite H, String.eqb_refl; [reflexivity|apply orb_true_r]. }
  assert (Hlast : (String.eqb t "g1" && negb (truthy (g2 ps)))
                  || (String.eqb t "g2" && negb (truthy (g1 ps))) = negb (truthy other)).
  { subst t other. destruct (String.eqb (g1 ps) id); simpl.
    - apply orb_false_r.
    - reflexivity. }
  assert (Hrun : run (clickPlatform group) s =
    run (updateRoomBatchProperties patch "104";;
         batchDeleteStream (map deleteStreamOf (members group))) s).
  { unfold clickPlatform. rewrite run_bind, run_get.
    fold ps id. rewrite Hslot. fold t. rewrite Hlast. reflexivity. }
  split; [|split; [|split; [|split]]].
  - subst patch. unfold leaveStagePatch.
    destruct (negb (truthy other)); apply lookup_insert_eq.
  - subst patch. unfold leaveStagePatch.
    assert (Hne : "interactOutGroups." +:+ t ≠ "groupStates.interactOutGroup").
    { subst t. destruct (String.eqb (g1 ps) id); discriminate. }
    destruct (truthy other); simpl.
    + rewrite lookup_insert_ne by exact Hne. apply lookup_empty.
    + rewrite lookup_insert_ne by exact Hne. apply lookup_insert_eq.
  - subst streams. rewrite length_map, !map_map. repeat split.
  - intros Hok. unfold exec. rewrite Hrun, run_bind.
    rewrite run_updateRoomBatchProperties by exact Hrm. fold update.
    destruct (world (trace s) update) eqn:Hw; [|congruence].
    rewrite run_batchDeleteStream by exact Hrm. rewrite Hstreams. reflexivity.
  - intros Hrej. rewrite Hrun, run_bind.
    rewrite run_updateRoomBatchProperties by exact Hrm. fold update.
    rewrite Hrej. reflexivity.
Qed.

(** ** Reward accounting *)

Lemma string_length_app (a b : string) :
  String.length (a +:+ b) = (String.length a + String.length b)%nat.
Proof. induction a as [|c a IH]; simpl; [reflexivity|]. rewrite IH. reflexivity. Qed.

Lemma string_app_inv_tail (a b t : string) : a +:+ t = b +:+ t -> a = b.
Proof.
  revert b; induction a as [|c a IH]; intros [|d b] H; simpl in H.
  - reflexivity.
  - apply (f_equal String.length) in H.
    simpl in H. rewrite ?string_length_app in H. simpl in H. lia.
  - apply (f_equal String.length) in H.
    simpl in H. rewrite ?string_length_app in H. simpl in H. lia.
  - injection H as -> H. f_equal. apply IH, H.
Qed.

(** Adding is exact while the sum stays below 2^53 in magnitude. *)
Lemma jsAdd_exact (a b : Z) : (Z.abs (a + b) < 2 ^ 53)%Z -> jsAdd a b = (a + b)%Z.
Proof.
  intros H. unfold jsAdd, roundDouble. cbv zeta.
  destruct (Z.ltb_spec (Z.abs (a + b)) (2 ^ 53)) as [_|H']; [reflexivity|lia].
Qed.

Lemma rewardKey_inj (a b : string) : rewardKey a = rewardKey b -> a = b.
Proof.
  unfold rewardKey. intros H.
  apply (String.app_inj "students.") in H.
  apply string_app_inv_tail in H. exact H.
Qed.

Lemma award_other (ms : list Member) (acc : gmap string PropValue) (k : string) :
  (∀ stu, stu ∈ ms -> rewardKey (m_userUuid stu) ≠ k) ->
  foldl award acc ms !! k = acc !! k.
Proof.
  revert acc; induction ms as [|m ms IH]; intros acc Hk; simpl; [reflexivity|].
  rewrite IH.
  - unfold award. apply lookup_insert_ne, Hk. left.
  - intros stu Hin. apply Hk. right. exact Hin.
Qed.

Lemma award_size (ms : list Member) (acc : gmap string PropValue) :
  NoDup (m_userUuid <$> ms) ->
  (∀ stu, stu ∈ ms -> acc !! rewardKey (m_userUuid stu) = None) ->
  size (foldl award acc ms) = (size acc + length ms)%nat.
Proof.
  revert acc; induction ms as [|m ms IH]; intros acc Hnd Hfresh; simpl; [lia|].
  apply NoDup_cons in Hnd as [Hm Hnd].
  rewrite IH; [|exact Hnd|].
  - unfold award. rewrite map_size_insert_None; [lia|]. apply Hfresh. left.
  - intros stu Hin. unfold award. rewrite lookup_insert_ne.
    + apply Hfresh. right. exact Hin.
    + intros Heq. apply rewardKey_inj in Heq. apply Hm.
      rewrite Heq. apply list_elem_of_fmap_2, Hin.
Qed.

Lemma award_lookup (ms : list Member) (acc : gmap string PropValue) (stu : Member) :
  NoDup (m_userUuid <$> ms) ->
  stu ∈ ms ->
  foldl award acc ms !! rewardKey (m_userUuid stu) = Some (PNum (jsAdd (m_reward stu) 1)).
Proof.
  revert acc; induction ms as [|m ms IH]; intros acc Hnd Hin; simpl.
  - inversion Hin.
  - apply NoDup_cons in Hnd as [Hm Hnd].
    apply elem_of_cons in Hin as [->|Hin].
    + rewrite award_other; [apply lookup_insert_eq|].
      intros stu Hin Heq. apply rewardKey_inj in Heq. apply Hm.
      rewrite <- Heq. apply list_elem_of_fmap_2, Hin.
    + apply IH; assumption.
Qed.

Lemma award_source (ms : list Member) (acc : gmap string PropValue) (k : string) (v : PropValue) :
  foldl award acc ms !! k = Some v ->
  acc !! k = Some v ∨
  ∃ stu, stu ∈ ms ∧ k = rewardKey (m_userUuid stu) ∧ v = PNum (jsAdd (m_reward stu) 1).
Proof.
  revert acc; induction ms as [|m ms IH]; intros acc H; simpl in H; [left; exact H|].
  apply IH in H as [H|(stu & Hin & Hk & Hv)].
  - unfold award in H. rewrite lookup_insert in H. case_decide.
    + right. exists m. split; [left|]. split; congruence.
    + left. exact H.
  - right. exists stu. split; [right; exact Hin|]. split; assumption.
Qed.

(** C4, as the code has it.  For a group whose N members are N distinct
    users, each with an integer reward whose successor stays below 2^53 in
    magnitude, and with the manager assigned: [addGroupStar] issues exactly
    one call, a
    property update with cause 202, and changes nothing else in the store;
    the payload has exactly N entries, every entry sets some member's reward
    key to that member's cached reward plus 1, and every member has its
    entry. *)
Theorem addGroupStar_batched (group : UserGroup) (s : MiddleRoomStore) :
  _roomManager (sceneStore s) = true ->
  NoDup (m_userUuid <$> members group) ->
  (∀ stu, stu ∈ members group -> (Z.abs (m_reward stu + 1) < 2 ^ 53)%Z) ->
  exec (addGroupStar group) s
    = set_trace (trace s ++ [UpdateRoomBatchProperties (rewardPatch (members group)) "202"]) s ∧
  size (rewardPatch (members group)) = length (members group) ∧
  (∀ k v, rewardPatch (members group) !! k = Some v ->
     ∃ stu, stu ∈ members group ∧
            k = rewardKey (m_userUuid stu) ∧ v = PNum (m_reward stu + 1)) ∧
  (∀ stu, stu ∈ members group ->
     rewardPatch (members group) !! rewardKey (m_userUuid stu)
       = Some (PNum (m_reward stu + 1))).
Proof.
  intros Hrm Hnd Hsafe. split; [|split; [|split]].
  - unfold exec, addGroupStar.
    rewrite run_updateRoomBatchProperties by exact Hrm. reflexivity.
  - unfold rewardPatch. rewrite award_size; [rewrite map_size_empty; lia|exact Hnd|].
    intros stu _. apply lookup_empty.
  - intros k v H. unfold rewardPatch in H.
    apply award_source in H as [H|(stu & Hin & Hk & Hv)].
    + rewrite lookup_empty in H. discriminate.
    + exists stu. rewrite jsAdd_exact in Hv by exact (Hsafe stu Hin).
      split; [exact Hin|]. split; assumption.
  - intros stu Hin. unfold rewardPatch.
    rewrite award_lookup by assumption.
    rewrite jsAdd_exact by exact (Hsafe stu Hin). reflexivity.
Qed.

(** ** Room property synchronization *)

Lemma syncRecord_frame (now : Z) (classroom : Classroom) (s : MiddleRoomStore) :
  classState (sceneStore (syncRecord now classroom s)) = classState (sceneStore s) ∧
  startTime (sceneStore (syncRecord now classroom s)) = startTime (sceneStore s) ∧
  _intervalMap (syncRecord now classroom s) = _intervalMap s ∧
  trace (syncRecord now classroom s) = trace s.
Proof.
  unfold syncRecord.
  destruct (rp_record (cr_roomProperties classroom)) as [record|]; [|auto].
  destruct (rec_state record =? 1)%Z; [simpl; auto|].
  destruct ((rec_state record =? 0)%Z && recordState (sceneStore s)); simpl; auto.
Qed.

Lemma delInterval_frame (key : string) (s : MiddleRoomStore) :
  sceneStore (delInterval key s) = sceneStore s ∧
  roomChatMessages (delInterval key s) = roomChatMessages s.
Proof. unfold delInterval. destruct (_intervalMap s !! key); simpl; auto. Qed.

Lemma addInterval_frame (key : string) (iv : Interval) (s : MiddleRoomStore) :
  sceneStore (addInterval key iv s) = sceneStore s ∧
  roomChatMessages (addInterval key iv s) = roomChatMessages s.
Proof.
  unfold addInterval. simpl. destruct (delInterval_frame key s) as [-> ->]. auto.
Qed.

Lemma syncClassState_frame (classroom : Classroom) (s : MiddleRoomStore) :
  roomChatMessages (syncClassState classroom s) = roomChatMessages s ∧
  recordState (sceneStore (syncClassState classroom s)) = recordState (sceneStore s) ∧
  recordId (sceneStore (syncClassState classroom s)) = recordId (sceneStore s).
Proof.
  unfold syncClassState.
  destruct (negb (classState (sceneStore s) =? courseState (roomStatus classroom))%Z); [|auto].
  match goal with |- context [if ?c then _ else _] => destruct c end.
  - match goal with |- context [addInterval ?k ?iv ?x] =>
      destruct (addInterval_frame k iv x) as [-> ->] end.
    simpl. auto.
  - match goal with |- context [delInterval ?k ?x] =>
      destruct (delInterval_frame k x) as [-> ->] end.
    simpl. auto.
Qed.

Lemma addInterval_map (key : string) (iv : Interval) (s : MiddleRoomStore) :
  _intervalMap (addInterval key iv s) = <[key := iv]> (_intervalMap s) ∧
  trace (addInterval key iv s)
    = trace s ++ match _intervalMap s !! key with
                 | Some _ => [ClearInterval key; SetInterval key iv]
                 | None => [SetInterval key iv]
                 end.
Proof.
  unfold addInterval, delInterval.
  destruct (_intervalMap s !! key) eqn:E; simpl.
  - split; [apply insert_delete_eq|]. rewrite <- app_assoc. reflexivity.
  - auto.
Qed.

Lemma delInterval_map (key : string) (s : MiddleRoomStore) :
  _intervalMap (delInterval key s) = delete key (_intervalMap s) ∧
  trace (delInterval key s)
    = trace s ++ match _intervalMap s !! key with
                 | Some _ => [ClearInterval key]
                 | None => []
                 end.
Proof.
  unfold delInterval.
  destruct (_intervalMap s !! key) eqn:E; simpl.
  - auto.
  - split; [symmetry; apply delete_id, E|]. rewrite app_nil_r. reflexivity.
Qed.

(** C5.  A snapshot whose [record.state] is 0: if the cached recording flag
    is true, exactly one chat message is appended, and it is the system
    marker (id and account system, empty text, the room id as its link, the
    time of the handler as its timestamp, not sent by the local user); the
    flag becomes false and the cached record id becomes the empty string; if
    the flag is already false, no chat message is appended and the record id
    is unchanged. *)
Theorem recording_stop_marker (now : Z) (classroom : Classroom) (s : MiddleRoomStore)
    (record : RecordProp) :
  rp_record (cr_roomProperties classroom) = Some record ->
  rec_state record = 0%Z ->
  let s' := classroom_property_updated now classroom s in
  (recordState (sceneStore s) = true ->
   roomChatMessages s'
     = roomChatMessages s
       ++ [ {| cm_id := "system"; cm_ts := now; cm_text := ""; cm_account := "system";
               cm_link := Some (roomUuid (sceneStore s)); cm_sender := false |} ] ∧
   recordState (sceneStore s') = false ∧
   recordId (sceneStore s') = "") ∧
  (recordState (sceneStore s) = false ->
   roomChatMessages s' = roomChatMessages s ∧
   recordState (sceneStore s') = false ∧
   recordId (sceneStore s') = recordId (sceneStore s)).
Proof.
  intros Hrec Hstate s'. subst s'. unfold classroom_property_updated. simpl.
  match goal with |- context [syncClassState classroom ?x] =>
    destruct (syncClassState_frame classroom x) as (-> & -> & ->) end.
  unfold syncRecord. rewrite Hrec, Hstate. simpl.
  split; intros H; rewrite H; simpl; auto.
Qed.

(** C6.  On every snapshot: when the new [courseState] differs from the cached
    class state and is 1, [startTime] is taken from the status block and the
    interval named timer is started with the session tick of 500 ms; when it
    differs and is not 1, [startTime] is taken from the status block and the
    interval named timer is removed; when it equals the cached state, no
    interval is started or stopped and [startTime] keeps its value. *)
Theorem class_state_drives_timer (now : Z) (classroom : Classroom) (s : MiddleRoomStore) :
  let s' := classroom_property_updated now classroom s in
  let newClassState := courseState (roomStatus classroom) in
  let statusStartTime := default 0%Z (rs_startTime (roomStatus classroom)) in
  let tick := {| iv_startTime := statusStartTime; iv_delay := 500 |} in
  (classState (sceneStore s) ≠ newClassState -> newClassState = 1%Z ->
   classState (sceneStore s') = 1%Z ∧
   startTime (sceneStore s') = statusStartTime ∧
   _intervalMap s' = <["timer" := tick]> (_intervalMap s) ∧
   trace s' = trace s ++ match _intervalMap s !! "timer" with
                         | Some _ => [ClearInterval "timer"; SetInterval "timer" tick]
                         | None => [SetInterval "timer" tick]
                         end) ∧
  (classState (sceneStore s) ≠ newClassState -> newClassState ≠ 1%Z ->
   classState (sceneStore s') = newClassState ∧
   startTime (sceneStore s') = statusStartTime ∧
   _intervalMap s' = delete "timer" (_intervalMap s) ∧
   trace s' = trace s ++ match _intervalMap s !! "timer" with
                         | Some _ => [ClearInterval "timer"]
                         | None => []
                         end) ∧
  (classState (sceneStore s) = newClassState ->
   classState (sceneStore s') = classState (sceneStore s) ∧
   startTime (sceneStore s') = startTime (sceneStore s) ∧
   _intervalMap s' = _intervalMap s ∧
   trace s' = trace s).
Proof.
  intros s' newClassState statusStartTime tick.
  set (s0 := set_roomProperties (cr_roomProperties classroom) s).
  destruct (syncRecord_frame now classroom s0) as (Hc & Ht & Hm & Htr).
  set (s1 := syncRecord now classroom s0) in *.
  assert (Hs' : classState (sceneStore s') = classState (sceneStore (syncClassState classroom s1))
              ∧ startTime (sceneStore s') = startTime (sceneStore (syncClassState classroom s1))
              ∧ _intervalMap s' = _intervalMap (syncClassState classroom s1)
              ∧ trace s' = trace (syncClassState classroom s1)).
  { subst s'. unfold classroom_property_updated. fold s0. fold s1. simpl. auto. }
  destruct Hs' as (-> & -> & -> & ->).
  simpl in Hc, Ht, Hm, Htr.
  unfold syncClassState. fold newClassState. fold statusStartTime. rewrite Hc.
  split; [|split].
  - intros Hne Hone.
    assert (E : (classState (sceneStore s) =? newClassState)%Z = false) by (apply Z.eqb_neq, Hne).
    rewrite E. cbn [negb].
    cbn [classState sceneStore upd_scene set_sceneStore set_classState].
    rewrite Hone. cbn [Z.eqb Pos.eqb].
    match goal with |- context [addInterval ?k ?iv ?x] =>
      destruct (addInterval_frame k iv x) as [-> _];
      destruct (addInterval_map k iv x) as [-> ->] end.
    simpl. rewrite Hm, Htr. repeat split; reflexivity.
  - intros Hne Hoff.
    assert (E : (classState (sceneStore s) =? newClassState)%Z = false) by (apply Z.eqb_neq, Hne).
    assert (E1 : (newClassState =? 1)%Z = false) by (apply Z.eqb_neq, Hoff).
    rewrite E. cbn [negb].
    cbn [classState sceneStore upd_scene set_sceneStore set_classState].
    rewrite E1.
    match goal with |- context [delInterval ?k ?x] =>
      destruct (delInterval_frame k x) as [-> _];
      destruct (delInterval_map k x) as [-> ->] end.
    simpl. rewrite Hm, Htr. auto.
  - intros Heq.
    assert (E : (classState (sceneStore s) =? newClassState)%Z = true) by (apply Z.eqb_eq, Heq).
    rewrite E. simpl. auto.
Qed.

(** ** Teardown *)

Lemma reset_frame (s : MiddleRoomStore) :
  reset_cleared (reset s) ∧
  joined (reset s) = joined s ∧
  roomProperties (reset s) = roomProperties s ∧
  _intervalMap (reset s) = _intervalMap s ∧
  trace (reset s) = trace s ++ [ResetRoomState; ResetTime].
Proof.
  unfold reset_cleared, reset. simpl. rewrite <- app_assoc. repeat split; reflexivity.
Qed.

(** When every awaited step of [leave] resolves, the timer is removed before
    the reset. *)
Lemma leave_stops_timer_on_success (s : MiddleRoomStore) :
  (∀ tr c, world tr c ≠ Rejected) ->
  _intervalMap (exec leave s) = delete "timer" (_intervalMap s).
Proof.
  intros Hok.
  set (I0 := fun x => _intervalMap x = _intervalMap s).
  set (I1 := fun x => _intervalMap x = delete "timer" (_intervalMap s)).
  set (No := fun _ : MiddleRoomStore => False).
  assert (Hawait : ∀ c, triple I0 (await c) (fun _ => I0) No).
  { intros c. apply triple_await; [intros x b Hx _; exact Hx|].
    intros x _ Hrej. exact (Hok _ _ Hrej). }
  assert (Hreset : ∀ x, I1 x -> I1 (reset x)).
  { intros x Hx. destruct (reset_frame x) as (_ & _ & _ & Hm & _).
    unfold I1. rewrite Hm. exact Hx. }
  apply (triple_exec I0); [|reflexivity].
  unfold leave, leaveRtc.
  apply (triple_try_catch No); [|apply triple_modify; intros x []].
  apply (triple_bind (fun _ => I0)); [apply triple_modify; intros x Hx; exact Hx|intros _].
  apply (triple_bind (fun _ => I0)); [apply Hawait|intros _].
  apply (triple_bind (fun _ => I0)); [apply Hawait|intros _].
  apply (triple_bind (fun _ => I0)); [apply Hawait|intros _].
  apply triple_get_bind. intros s0 Hs0.
  apply (triple_conseq _ I0 _ _ (fun _ => I1) _ No); [|intros x ->; exact Hs0|auto|auto].
  apply (triple_bind (fun _ => I0)).
  { destruct (_roomManager (sceneStore s0)); [apply Hawait|apply triple_skip; auto]. }
  intros _.
  apply (triple_bind (fun _ => I0)); [apply triple_emit; intros x Hx; exact Hx|intros _].
  apply (triple_bind (fun _ => I1)).
  { apply triple_modify. intros x Hx. unfold I1.
    destruct (delInterval_map "timer" x) as [-> _]. rewrite Hx. reflexivity. }
  intros _.
  apply (triple_bind (fun _ => I1)); [apply triple_modify; exact Hreset|intros _].
  apply (triple_bind (fun _ => I1)); [apply triple_modify; intros x Hx; exact Hx|intros _].
  apply (triple_bind (fun _ => I1)); [apply triple_emit; intros x Hx; exact Hx|intros _].
  apply triple_emit; intros x Hx; exact Hx.
Qed.

(** C7, at the failing path.  When the first awaited step of [leave] (the RTC
    leave) rejects, the catch clause only runs [reset]: the interval map is
    exactly what it was, so a running timer named timer keeps running, and no
    interval is cleared. *)
Theorem leave_keeps_timer_when_rtc_leave_fails (s : MiddleRoomStore) :
  world (trace s) LeaveRtc = Rejected ->
  run leave s = (Ok tt, reset (log LeaveRtc (upd_scene (set_joiningRTC true) s))) ∧
  _intervalMap (exec leave s) = _intervalMap s ∧
  trace (exec leave s) = trace s ++ [LeaveRtc; ResetRoomState; ResetTime].
Proof.
  intros Hrej.
  assert (Hrun : run leave s = (Ok tt, reset (log LeaveRtc (upd_scene (set_joiningRTC true) s)))).
  { unfold leave, leaveRtc. rewrite run_try_catch, run_bind, run_modify, run_bind, run_await.
    store_simpl. rewrite Hrej. apply run_modify. }
  unfold exec. rewrite Hrun. split; [reflexivity|]. split; [reflexivity|].
  simpl. rewrite <- !app_assoc. reflexivity.
Qed.

(** C9, as the code has it.  After [reset], and after [leave] on every path
    (whichever awaited step rejects, or none), the chat messages, user groups,
    pk list, messages, notice, grouping solution and quit flag have their
    initial values; the joined flag and the room property tree are left as
    they were. *)
Theorem leave_resets_session (s : MiddleRoomStore) :
  (reset_cleared (reset s) ∧
   joined (reset s) = joined s ∧
   roomProperties (reset s) = roomProperties s) ∧
  (reset_cleared (exec leave s) ∧
   joined (exec leave s) = joined s ∧
   roomProperties (exec leave s) = roomProperties s).
Proof.
  split.
  - destruct (reset_frame s) as (H1 & H2 & H3 & _). auto.
  - set (I0 := fun x => joined x = joined s ∧ roomProperties x = roomProperties s).
    set (I1 := fun x => reset_cleared x ∧ I0 x).
    assert (Hlog : ∀ e x, I0 x -> I0 (log e x)) by (intros e x Hx; exact Hx).
    assert (Hlog1 : ∀ e x, I1 x -> I1 (log e x)) by (intros e x Hx; exact Hx).
    assert (Hreset : ∀ x, I0 x -> I1 (reset x)).
    { intros x [Hj Hp]. destruct (reset_frame x) as (Hc & Hj' & Hp' & _).
      split; [exact Hc|]. split; congruence. }
    assert (Hdel : ∀ x, I0 x -> I0 (delInterval "timer" x)).
    { intros x Hx. unfold delInterval. destruct (_intervalMap x !! "timer"); exact Hx. }
    apply (triple_exec I0); [|split; reflexivity].
    unfold leave, leaveRtc.
    apply (triple_try_catch I0); [|apply triple_modify; exact Hreset].
    apply (triple_bind (fun _ => I0)); [apply triple_modify; intros x Hx; exact Hx|intros _].
    apply (triple_bind (fun _ => I0)); [apply triple_await; eauto|intros _].
    apply (triple_bind (fun _ => I0)); [apply triple_await; eauto|intros _].
    apply (triple_bind (fun _ => I0)); [apply triple_await; eauto|intros _].
    apply triple_get_bind. intros s0 Hs0.
    apply (triple_conseq _ I0 _ _ (fun _ => I1) _ I0); [|intros x ->; exact Hs0|auto|auto].
    apply (triple_bind (fun _ => I0)).
    { destruct (_roomManager (sceneStore s0)); [apply triple_await; eauto|apply triple_skip; auto]. }
    intros _.
    apply (triple_bind (fun _ => I0)); [apply triple_emit; eauto|intros _].
    apply (triple_bind (fun _ => I0)); [apply triple_modify; exact Hdel|intros _].
    apply (triple_bind (fun _ => I1)); [apply triple_modify; exact Hreset|intros _].
    apply (triple_bind (fun _ => I1)); [apply triple_modify; intros x Hx; exact Hx|intros _].
    apply (triple_bind (fun _ => I1)); [apply triple_emit; eauto|intros _].
    apply triple_emit; eauto.
Qed.

(** ** Screen sharing *)

Lemma find_existsb {A : Type} (f : A -> bool) (l : list A) :
  match List.find f l with Some _ => true | None => false end = existsb f l.
Proof.
  induction l as [|a l IH]; simpl; [reflexivity|].
  destruct (f a); [reflexivity|exact IH].
Qed.

Lemma syncRemoteStreams_sharing (s : MiddleRoomStore) :
  sharing (sceneStore (syncRemoteStreams s)) =
  if String.eqb (userRole (roomInfo s)) "teacher" then sharing (sceneStore s)
  else screenListed s.
Proof.
  unfold syncRemoteStreams, screenListed. store_simpl.
  destruct (String.eqb (userRole (roomInfo s)) "teacher"); cbn [negb]; [reflexivity|].
  rewrite <- find_existsb.
  destruct (List.find _ (fullStreamList (roomManager s))); reflexivity.
Qed.

(** C8, as the code has it.  After a remote stream-list notification (added,
    removed or updated) the sharing flag of every role other than teacher
    equals whether the stream list holds a screen stream, while for the
    teacher the flag keeps its value; on a local screen-stream update
    handled while attached, the teacher's flag becomes whether its own screen
    stream descriptor is online, and no other role's flag is changed by a
    local stream update. *)
Theorem sharing_tracks_streams (evt : StreamEvent) (s : MiddleRoomStore) :
  let tracked :=
    if String.eqb (userRole (roomInfo s)) "teacher" then sharing (sceneStore s)
    else screenListed s in
  (sharing (sceneStore (remote_stream_added s)) = tracked ∧
   sharing (sceneStore (remote_stream_removed s)) = tracked ∧
   sharing (sceneStore (remote_stream_updated s)) = tracked) ∧
  (userRole (roomInfo s) = "teacher" -> joiningRTC (sceneStore s) = true ->
   evt_type evt = "screen" ->
   sharing (sceneStore (exec (local_stream_updated evt) s)) = screenOnline s) ∧
  (userRole (roomInfo s) ≠ "teacher" ->
   sharing (sceneStore (exec (local_stream_updated evt) s)) = sharing (sceneStore s)).
Proof.
  intros tracked. split; [|split].
  - unfold remote_stream_added, remote_stream_removed, remote_stream_updated.
    repeat split; apply syncRemoteStreams_sharing.
  - intros Hrole Hjoin Hevt. unfold exec, local_stream_updated, reconcileScreen, screenOnline.
    rewrite run_bind, run_get, Hjoin, Hevt. cbn [negb String.eqb Ascii.eqb Bool.eqb].
    rewrite run_bind, run_skip, run_bind, run_get, Hrole.
    cbn [String.eqb Ascii.eqb Bool.eqb].
    destruct (online (localScreenData (roomManager s))); rewrite run_modify; reflexivity.
  - intros Hrole.
    set (I := fun x => sharing (sceneStore x) = sharing (sceneStore s)
                       ∧ userRole (roomInfo x) = userRole (roomInfo s)).
    assert (H : preserves I (local_stream_updated evt)).
    { unfold local_stream_updated, reconcileMain, reconcileScreen. unfold_devices.
      preserve;
        try (intros x Hx; exact Hx);
        try match goal with
            | Hs : I ?s0, E : String.eqb (userRole (roomInfo ?s0)) "teacher" = true |- _ =>
                exfalso; apply Hrole; destruct Hs as [_ <-]; apply String.eqb_eq, E
            end. }
    apply (triple_exec I _ I s H). split; reflexivity.
Qed.

(** ** Stream lifecycle reconciliation *)

Lemma deviceCalls_log (e : Effect) (x : MiddleRoomStore) :
  isActuation e = false -> deviceCalls (trace (log e x)) = deviceCalls (trace x).
Proof.
  intros H. unfold deviceCalls. store_simpl.
  rewrite List.filter_app. simpl. rewrite H. apply app_nil_r.
Qed.

Ltac frame_solve :=
  intros; subst; cbv beta in *;
  repeat match goal with H : _ ∧ _ |- _ => destruct H end;
  rewrite ?deviceCalls_log by reflexivity;
  repeat split; store_simpl; auto; try congruence.

(** While attached and the main stream is online, a pass that completes
    leaves every available device in the state the descriptor asks for. *)
Lemma reconcileMain_reconciles (s : MiddleRoomStore) (stream : EduStream) :
  online (localStreamData (roomManager s)) = Some stream ->
  joiningRTC (sceneStore s) = true ->
  triple (fun x => x = s) reconcileMain (fun _ x => reconciled stream x) (fun _ => True).
Proof.
  intros Honline Hjoin. unfold reconcileMain.
  apply triple_get_bind. intros s0 ->. rewrite Honline.
  set (K0 := fun x => joiningRTC (sceneStore x) = true
                      ∧ _cameraEduStream (sceneStore x) = Some stream).
  set (K1 := fun x => K0 x ∧ (_hasCamera (sceneStore x) = true ->
                              cameraOpen (sceneStore x) = hasVideo stream)).
  apply (triple_bind (fun _ => K0)); [apply triple_modify; subst K0; frame_solve|intros _].
  apply (triple_bind (fun _ => K0)).
  { unfold prepareCamera. apply (triple_bind (fun _ => K0)).
    - apply triple_probe; subst K0; frame_solve.
    - intros b. apply triple_modify. subst K0. frame_solve. }
  intros _.
  apply (triple_bind (fun _ => K0)).
  { unfold prepareMicrophone. apply (triple_bind (fun _ => K0)).
    - apply triple_probe; subst K0; frame_solve.
    - intros b. apply triple_modify. subst K0. frame_solve. }
  intros _.
  apply triple_get_bind. intros s1 [Hj1 Hcam1]. rewrite Hj1.
  apply (triple_bind (fun _ => K1)).
  { destruct (_hasCamera (sceneStore s1)) eqn:Hc.
    - unfold cameraEduStreamFlag. apply triple_get_bind. intros ? ->. rewrite Hcam1.
      destruct (hasVideo stream) eqn:Hv.
      + unfold openCamera. apply triple_get_bind. intros ? ->.
        destruct (cameraOpen (sceneStore s1)) eqn:Ho.
        * apply triple_skip. subst K1 K0. frame_solve.
        * apply (triple_bind (fun _ => K0)).
          -- apply triple_await; subst K0; frame_solve.
          -- intros _. apply triple_modify. subst K1 K0. frame_solve.
      + unfold closeCamera. apply triple_get_bind. intros ? ->.
        destruct (cameraOpen (sceneStore s1)) eqn:Ho.
        * apply (triple_bind (fun _ => K0)).
          -- apply triple_await; subst K0; frame_solve.
          -- intros _. apply triple_modify. subst K1 K0. frame_solve.
        * apply triple_skip. subst K1 K0. frame_solve.
    - apply triple_skip. subst K1 K0. frame_solve. }
  intros _.
  apply triple_get_bind. intros s2 [[Hj2 Hcam2] Hrec2].
  destruct (_hasMicrophone (sceneStore s2)) eqn:Hm.
  - unfold cameraEduStreamFlag. apply triple_get_bind. intros ? ->. rewrite Hcam2.
    destruct (hasAudio stream) eqn:Ha.
    + unfold openMicrophone. apply triple_get_bind. intros ? ->.
      destruct (microphoneOpen (sceneStore s2)) eqn:Ho.
      * apply triple_skip. unfold reconciled. frame_solve.
      * apply (triple_bind (fun _ x => sceneStore x = sceneStore s2)).
        -- apply triple_await; frame_solve.
        -- intros _. apply triple_modify. unfold reconciled. intros x Hx.
           store_simpl. rewrite Hx. auto.
    + unfold closeMicrophone. apply triple_get_bind. intros ? ->.
      destruct (microphoneOpen (sceneStore s2)) eqn:Ho.
      * apply (triple_bind (fun _ x => sceneStore x = sceneStore s2)).
        -- apply triple_await; frame_solve.
        -- intros _. apply triple_modify. unfold reconciled. intros x Hx.
           store_simpl. rewrite Hx. auto.
      * apply triple_skip. unfold reconciled. frame_solve.
  - apply triple_skip. unfold reconciled. frame_solve.
Qed.

(** A pass started in a reconciled store performs no device actuation,
    provided the probes report the availability the store already holds. *)
Lemma reconcileMain_idle (s1 : MiddleRoomStore) (stream : EduStream) :
  online (localStreamData (roomManager s1)) = Some stream ->
  reconciled stream s1 ->
  let settled := fun x =>
    _hasCamera (sceneStore x) = _hasCamera (sceneStore s1) ->
    _hasMicrophone (sceneStore x) = _hasMicrophone (sceneStore s1) ->
    deviceCalls (trace x) = deviceCalls (trace s1) in
  triple (fun x => x = s1) reconcileMain (fun _ => settled) settled.
Proof.
  intros Honline [Hrc Hrm] settled. unfold reconcileMain.
  apply triple_get_bind. intros s0 ->. rewrite Honline.
  set (C0 := fun x => _cameraEduStream (sceneStore x) = Some stream
                      ∧ cameraOpen (sceneStore x) = cameraOpen (sceneStore s1)
                      ∧ microphoneOpen (sceneStore x) = microphoneOpen (sceneStore s1)
                      ∧ deviceCalls (trace x) = deviceCalls (trace s1)).
  assert (HC0 : ∀ x, C0 x -> settled x) by (subst C0 settled; frame_solve).
  apply (triple_bind (fun _ => C0)); [apply triple_modify; subst C0; frame_solve|intros _].
  apply (triple_bind (fun _ => C0)).
  { unfold prepareCamera. apply (triple_bind (fun _ => C0)).
    - apply triple_probe; [subst C0; frame_solve|].
      intros x Hx _. apply HC0. revert Hx. subst C0. frame_solve.
    - intros b. apply triple_modify. subst C0. frame_solve. }
  intros _.
  apply (triple_bind (fun _ => C0)).
  { unfold prepareMicrophone. apply (triple_bind (fun _ => C0)).
    - apply triple_probe; [subst C0; frame_solve|].
      intros x Hx _. apply HC0. revert Hx. subst C0. frame_solve.
    - intros b. apply triple_modify. subst C0. frame_solve. }
  intros _.
  apply triple_get_bind. intros s2 (Hcam2 & Hco2 & Hmo2 & Hdc2).
  (* from here on the availability flags are those of [s2] *)
  set (J := fun x =>
    _cameraEduStream (sceneStore x) = Some stream
    ∧ _hasCamera (sceneStore x) = _hasCamera (sceneStore s2)
    ∧ _hasMicrophone (sceneStore x) = _hasMicrophone (sceneStore s2)
    ∧ (_hasCamera (sceneStore s2) = _hasCamera (sceneStore s1) ->
       _hasMicrophone (sceneStore s2) = _hasMicrophone (sceneStore s1) ->
       deviceCalls (trace x) = deviceCalls (trace s1)
       ∧ microphoneOpen (sceneStore x) = microphoneOpen (sceneStore s1))).
  assert (HJ : ∀ x, J x -> settled x).
  { subst J settled. cbv beta. intros x (_ & Hc & Hm & H) Hc' Hm'.
    apply H; congruence. }
  assert (HJ2 : J s2) by (subst J; frame_solve).
  assert (Hoff : ∀ x : MiddleRoomStore,
             _hasCamera (sceneStore s2) = true ->
             cameraOpen (sceneStore s2) ≠ hasVideo stream ->
             _cameraEduStream (sceneStore x) = Some stream ->
             _hasCamera (sceneStore x) = _hasCamera (sceneStore s2) ->
             _hasMicrophone (sceneStore x) = _hasMicrophone (sceneStore s2) -> J x).
  { intros x Hc Hne Hcam Hhc Hhm. subst J. cbv beta.
    repeat split; auto; exfalso; apply Hne; rewrite Hco2; apply Hrc; congruence. }
  destruct (joiningRTC (sceneStore s2)) eqn:Hj2; [|apply triple_skip; intros x ->; auto].
  apply (triple_conseq _ (fun x => x = s2) _ _ (fun _ => J) _ J); [|auto|auto|auto].
  apply (triple_bind (fun _ => J)).
  { destruct (_hasCamera (sceneStore s2)) eqn:Hc; [|apply triple_skip; intros x ->; exact HJ2].
    unfold cameraEduStreamFlag. apply triple_get_bind. intros ? ->. rewrite Hcam2.
    destruct (hasVideo stream) eqn:Hv.
    - unfold openCamera. apply triple_get_bind. intros ? ->.
      destruct (cameraOpen (sceneStore s2)) eqn:Ho;
        [apply triple_skip; intros x ->; exact HJ2|].
      apply (triple_bind (fun _ => J)).
      + apply triple_await; intros; subst; apply Hoff; store_simpl; auto; try discriminate; try congruence.
      + intros _. apply triple_modify. intros x (Hx1 & Hx2 & Hx3 & _).
        apply Hoff; store_simpl; auto; try discriminate; try congruence.
    - unfold closeCamera. apply triple_get_bind. intros ? ->.
      destruct (cameraOpen (sceneStore s2)) eqn:Ho;
        [|apply triple_skip; intros x ->; exact HJ2].
      apply (triple_bind (fun _ => J)).
      + apply triple_await; intros; subst; apply Hoff; store_simpl; auto; try discriminate; try congruence.
      + intros _. apply triple_modify. intros x (Hx1 & Hx2 & Hx3 & _).
        apply Hoff; store_simpl; auto; try discriminate; try congruence. }
  intros _.
  apply triple_get_bind. intros s3 Hs3.
  assert (Hs3' := Hs3). destruct Hs3' as (Hcam3 & Hhc3 & Hhm3 & H3).
  assert (Hoff3 : ∀ x : MiddleRoomStore,
             _hasMicrophone (sceneStore s3) = true ->
             microphoneOpen (sceneStore s3) ≠ hasAudio stream ->
             _cameraEduStream (sceneStore x) = Some stream ->
             _hasCamera (sceneStore x) = _hasCamera (sceneStore s2) ->
             _hasMicrophone (sceneStore x) = _hasMicrophone (sceneStore s2) -> J x).
  { intros x Hm Hne Hcam Hhc Hhm. subst J. cbv beta.
    repeat split; auto; exfalso; apply Hne;
      destruct (H3 H H0) as [_ ->]; apply Hrm; congruence. }
  apply (triple_conseq _ (fun x => x = s3) _ _ (fun _ => J) _ J); [|auto|auto|auto].
  destruct (_hasMicrophone (sceneStore s3)) eqn:Hm; [|apply triple_skip; intros x ->; exact Hs3].
  unfold cameraEduStreamFlag. apply triple_get_bind. intros ? ->. rewrite Hcam3.
  destruct (hasAudio stream) eqn:Ha.
  - unfold openMicrophone. apply triple_get_bind. intros ? ->.
    destruct (microphoneOpen (sceneStore s3)) eqn:Ho;
      [apply triple_skip; intros x ->; exact Hs3|].
    apply (triple_bind (fun _ => J)).
    + apply triple_await; intros; subst; apply Hoff3; store_simpl; auto; try discriminate; try congruence.
    + intros _. apply triple_modify. intros x (Hx1 & Hx2 & Hx3 & _).
      apply Hoff3; store_simpl; auto; try discriminate; try congruence.
  - unfold closeMicrophone. apply triple_get_bind. intros ? ->.
    destruct (microphoneOpen (sceneStore s3)) eqn:Ho;
      [|apply triple_skip; intros x ->; exact Hs3].
    apply (triple_bind (fun _ => J)).
    + apply triple_await; intros; subst; apply Hoff3; store_simpl; auto; try discriminate; try congruence.
    + intros _. apply triple_modify. intros x (Hx1 & Hx2 & Hx3 & _).
      apply Hoff3; store_simpl; auto; try discriminate; try congruence.
Qed.

Lemma local_stream_updated_detached (evt : StreamEvent) (s : MiddleRoomStore) :
  joiningRTC (sceneStore s) = false ->
  run (local_stream_updated evt) s = (Ok tt, s).
Proof.
  intros Hj. unfold local_stream_updated. rewrite run_bind, run_get, Hj. reflexivity.
Qed.

Lemma local_stream_updated_main (evt : StreamEvent) (s : MiddleRoomStore) :
  joiningRTC (sceneStore s) = true ->
  String.eqb (evt_type evt) "main" = true ->
  run (local_stream_updated evt) s = run reconcileMain s.
Proof.
  intros Hj Hmain. unfold local_stream_updated.
  rewrite run_bind, run_get, Hj, Hmain. cbn [negb].
  apply String.eqb_eq in Hmain. rewrite Hmain. cbn [String.eqb Ascii.eqb Bool.eqb].
  rewrite run_bind. destruct (run reconcileMain s) as [[[]|] s']; reflexivity.
Qed.

Lemma local_stream_updated_other (evt : StreamEvent) (s : MiddleRoomStore) :
  String.eqb (evt_type evt) "main" = false ->
  trace (exec (local_stream_updated evt) s) = trace s.
Proof.
  intros Hmain.
  assert (H : preserves (fun x => trace x = trace s) (local_stream_updated evt)).
  { unfold local_stream_updated, reconcileScreen. rewrite Hmain.
    preserve; intros x Hx; exact Hx. }
  apply (triple_exec _ _ _ s H). reflexivity.
Qed.

Lemma local_stream_updated_frame (evt : StreamEvent) (s : MiddleRoomStore) :
  roomManager (exec (local_stream_updated evt) s) = roomManager s ∧
  joiningRTC (sceneStore (exec (local_stream_updated evt) s)) = joiningRTC (sceneStore s).
Proof.
  set (I := fun x => roomManager x = roomManager s
                     ∧ joiningRTC (sceneStore x) = joiningRTC (sceneStore s)).
  assert (H : preserves I (local_stream_updated evt)).
  { unfold local_stream_updated, reconcileMain, reconcileScreen. unfold_devices.
    preserve; intros x Hx; exact Hx. }
  apply (triple_exec I _ I s H). split; reflexivity.
Qed.

(** C10.  Two reconciliation passes in a row for the same event, the first
    one completing: the transport's descriptors and [joiningRTC] are those
    the first pass saw, and if the second pass ends with the availability
    flags the first one left, it has added no open or close device call to
    those of the first pass. *)
Theorem reconcile_twice (evt : StreamEvent) (s : MiddleRoomStore) :
  let s1 := exec (local_stream_updated evt) s in
  let s2 := exec (local_stream_updated evt) s1 in
  fst (run (local_stream_updated evt) s) = Ok tt ->
  _hasCamera (sceneStore s2) = _hasCamera (sceneStore s1) ->
  _hasMicrophone (sceneStore s2) = _hasMicrophone (sceneStore s1) ->
  (roomManager s1 = roomManager s ∧
   joiningRTC (sceneStore s1) = joiningRTC (sceneStore s)) ∧
  deviceCalls (trace s2) = deviceCalls (trace s1).
Proof.
  intros s1 s2 Hok Hc Hm.
  destruct (local_stream_updated_frame evt s) as [Hrm1 Hj1]. fold s1 in Hrm1, Hj1.
  split; [split; assumption|].
  destruct (String.eqb (evt_type evt) "main") eqn:Hmain;
    [|subst s2; rewrite local_stream_updated_other by exact Hmain; reflexivity].
  destruct (joiningRTC (sceneStore s)) eqn:Hj;
    [|subst s2; unfold exec at 1;
      rewrite local_stream_updated_detached by exact Hj1; reflexivity].
  assert (Hs1 : s1 = exec reconcileMain s).
  { subst s1. unfold exec. rewrite local_stream_updated_main by assumption. reflexivity. }
  assert (Hs2 : s2 = exec reconcileMain s1).
  { subst s2. unfold exec. rewrite local_stream_updated_main by assumption. reflexivity. }
  rewrite local_stream_updated_main in Hok by assumption.
  destruct (online (localStreamData (roomManager s))) as [stream|] eqn:Honline.
  - assert (Hrec : reconciled stream s1).
    { pose proof (reconcileMain_reconciles s stream Honline Hj s eq_refl) as H.
      rewrite Hs1. unfold exec.
      destruct (run reconcileMain s) as [[[]|] s']; [exact H|discriminate Hok]. }
    assert (Honline1 : online (localStreamData (roomManager s1)) = Some stream)
      by (rewrite Hrm1; exact Honline).
    pose proof (reconcileMain_idle s1 stream Honline1 Hrec s1 eq_refl) as H.
    assert (Hsettled : _hasCamera (sceneStore s2) = _hasCamera (sceneStore s1) ->
                       _hasMicrophone (sceneStore s2) = _hasMicrophone (sceneStore s1) ->
                       deviceCalls (trace s2) = deviceCalls (trace s1)).
    { rewrite Hs2. unfold exec.
      destruct (run reconcileMain s1) as [[[]|] s']; exact H. }
    apply Hsettled; assumption.
  - rewrite Hs2. unfold exec, reconcileMain.
    rewrite run_bind, run_get, Hrm1, Honline, run_modify. reflexivity.
Qed.

(** ** The Event Serializer *)

Lemma advance_exec (p : Prog unit) (s : MiddleRoomStore) :
  match advance p s with
  | (Some k, s') => exec k s' = exec p s
  | (None, s') => s' = exec p s
  end.
Proof.
  unfold exec. revert s; induction p as [a| |k IH|s' k IH|c k IH]; intros s; simpl; auto; apply IH.
Qed.

Lemma advance_suspensions (p : Prog unit) (s : MiddleRoomStore) :
  match advance p s with
  | (Some k, s') => suspensions p s = S (suspensions k s')
  | (None, _) => suspensions p s = 0
  end.
Proof.
  revert s; induction p as [a| |k IH|s' k IH|c k IH]; intros s; simpl; auto; apply IH.
Qed.

Lemma sequentially_cons (p : Prog unit) (q : list (Prog unit)) (s : MiddleRoomStore) :
  sequentially (p :: q) s = sequentially q (exec p s).
Proof. reflexivity. Qed.

Lemma sequentially_snoc (q : list (Prog unit)) (p : Prog unit) (s : MiddleRoomStore) :
  sequentially (q ++ [p]) s = exec p (sequentially q s).
Proof. unfold sequentially. rewrite foldl_app. reflexivity. Qed.

(** The worker changes neither what the owed work computes nor how many
    resumptions it needs. *)
Lemma drain_owed (q : list (Prog unit)) (s : MiddleRoomStore) :
  sequentially (owed (fst (drain q s))) (snd (drain q s)) = sequentially q s.
Proof.
  revert s; induction q as [|p q IH]; intros s; [reflexivity|].
  cbn [drain]. pose proof (advance_exec p s) as H.
  destruct (advance p s) as [[k|] s']; cbn [fst snd].
  - unfold owed. cbn [running pending]. rewrite !sequentially_cons, H. reflexivity.
  - rewrite IH, sequentially_cons, H. reflexivity.
Qed.

Lemma drain_resumptions (q : list (Prog unit)) (s : MiddleRoomStore) :
  resumptionsOwed (drain q s) = resumptions q s.
Proof.
  revert s; induction q as [|p q IH]; intros s; [reflexivity|].
  cbn [drain resumptions].
  pose proof (advance_exec p s) as He. pose proof (advance_suspensions p s) as Hs.
  destruct (advance p s) as [[k|] s'].
  - unfold resumptionsOwed. cbn [fst snd running pending resumptions].
    rewrite Hs, He. reflexivity.
  - rewrite IH, Hs, He. reflexivity.
Qed.

Lemma drain_settledQueue (q : list (Prog unit)) (s : MiddleRoomStore) :
  settledQueue (fst (drain q s)).
Proof.
  revert s; induction q as [|p q IH]; intros s; simpl; [intros _; reflexivity|].
  destruct (advance p s) as [[k|] s']; simpl; [intros H; discriminate H|apply IH].
Qed.

(** The bodies still queued after the worker ran are untouched bodies from
    the back of the queue; the first body of the queue is never among
    them. *)
Lemma drain_pending (p : Prog unit) (q : list (Prog unit)) (s : MiddleRoomStore) :
  ∃ n, (n <= length q)%nat ∧ pending (fst (drain (p :: q) s)) = drop n q.
Proof.
  revert p s; induction q as [|p' q IH]; intros p s; simpl.
  - exists 0%nat. destruct (advance p s) as [[k|] s']; simpl; auto.
  - destruct (advance p s) as [[k|] s'] eqn:E.
    + exists 0%nat. simpl. split; [lia|reflexivity].
    + destruct (IH p' s') as (n & Hn & Hp). exists (S n). split; [lia|exact Hp].
Qed.

Lemma loop_resumes (n : nat) (st : Mutex * MiddleRoomStore) :
  settledQueue (fst st) ->
  resumptionsOwed st = n ->
  loop (replicate n Resume) st = (idle, sequentially (owed (fst st)) (snd st)).
Proof.
  revert st; induction n as [|n IH]; intros [m s] Hwf Hn; cbn [fst snd] in *.
  - unfold resumptionsOwed in Hn. simpl in Hn.
    destruct m as [[k|] q]; [discriminate Hn|].
    assert (Hq : q = []) by (apply Hwf; reflexivity). subst q. reflexivity.
  - unfold resumptionsOwed in Hn. cbn [fst snd] in *.
    destruct (running m) as [k|] eqn:Hr; [|discriminate Hn].
    injection Hn as Hn.
    change (loop (replicate (S n) Resume) (m, s))
      with (loop (replicate n Resume) (resume m s)).
    unfold resume. rewrite Hr.
    rewrite IH; [|apply drain_settledQueue|rewrite drain_resumptions; exact Hn].
    rewrite drain_owed. unfold owed. rewrite Hr. reflexivity.
Qed.

(** What holds after any sequence of arrivals and resumptions. *)
Lemma loop_invariant (evs : list LoopEvent) (s0 : MiddleRoomStore) :
  let st := loop evs (idle, s0) in
  let bodies := map handler (arrivals evs) in
  settledQueue (fst st) ∧
  sequentially (owed (fst st)) (snd st) = sequentially bodies s0 ∧
  ∃ n, (n <= length bodies)%nat ∧ pending (fst st) = drop n bodies.
Proof.
  induction evs as [|ev evs IH] using rev_ind.
  - cbn. split; [intros _; reflexivity|]. split; [reflexivity|].
    exists 0%nat. split; [lia|reflexivity].
  - cbv zeta in *.
    assert (Hl : loop (evs ++ [ev]) (idle, s0) = loopStep (loop evs (idle, s0)) ev)
      by (unfold loop; rewrite foldl_app; reflexivity).
    assert (Ha : map handler (arrivals (evs ++ [ev]))
                 = map handler (arrivals evs) ++ map handler (arrivals [ev]))
      by (unfold arrivals; rewrite omap_app, map_app; reflexivity).
    rewrite Hl, Ha. clear Hl Ha.
    destruct IH as (Hwf & Hseq & n & Hn & Hpend).
    destruct (loop evs (idle, s0)) as [m s]. cbn [fst snd] in *.
    set (bodies := map handler (arrivals evs)) in *.
    destruct ev as [nt|].
    + (* a notification arrives *)
      change (map handler (arrivals [Arrive nt])) with [handler nt].
      cbn [loopStep fst snd]. unfold dispatch.
      destruct (running m) as [k|] eqn:Hr.
      * cbn [fst snd running pending]. split; [intros H; discriminate H|]. split.
        -- unfold owed in *. cbn [running pending]. rewrite Hr in Hseq.
           change (k :: pending m ++ [handler nt]) with ((k :: pending m) ++ [handler nt]).
           rewrite !sequentially_snoc, Hseq. reflexivity.
        -- exists n. split; [rewrite length_app; lia|].
           rewrite Hpend, drop_app_le by exact Hn. reflexivity.
      * assert (Hq : pending m = []) by (apply Hwf, Hr). rewrite Hq. cbn [app].
        split; [apply drain_settledQueue|]. split.
        -- rewrite drain_owed, sequentially_snoc.
           unfold owed in Hseq. rewrite Hr, Hq in Hseq.
           rewrite <- Hseq. reflexivity.
        -- destruct (drain_pending (handler nt) [] s) as (j & Hj & Hp).
           exists (length (bodies ++ [handler nt])). split; [lia|].
           rewrite Hp, drop_all. destruct j; reflexivity.
    + (* the running body is resumed *)
      change (map handler (arrivals [Resume])) with (@nil (Prog unit)).
      rewrite app_nil_r. cbn [loopStep fst snd]. unfold resume.
      destruct (running m) as [k|] eqn:Hr.
      * split; [apply drain_settledQueue|]. split.
        -- rewrite drain_owed. unfold owed in Hseq. rewrite Hr in Hseq. exact Hseq.
        -- destruct (drain_pending k (pending m) s) as (j & Hj & Hp).
           exists (n + j)%nat. rewrite Hp, Hpend, drop_drop.
           split; [|reflexivity].
           rewrite Hpend, length_drop in Hj. lia.
      * cbn [fst snd]. split; [exact Hwf|]. split; [exact Hseq|].
        exists n. split; [exact Hn|exact Hpend].
Qed.

(** C1.  For every sequence of notifications arriving at arbitrary points
    between the resumptions of the bodies already dispatched: at every point
    at most one body has been started and not finished, the bodies still
    queued are untouched and are the most recent arrivals in arrival order,
    and finishing the work owed gives exactly the store (effect log
    included) obtained by running the handler bodies one at a time, each to
    completion, in arrival order; after finitely many further resumptions
    the serializer is idle in exactly that store. *)
Theorem serializer_runs_in_arrival_order (evs : list LoopEvent) (s0 : MiddleRoomStore) :
  let st := loop evs (idle, s0) in
  let bodies := map handler (arrivals evs) in
  let final := sequentially bodies s0 in
  (∃ n, (n <= length bodies)%nat ∧ pending (fst st) = drop n bodies) ∧
  sequentially (owed (fst st)) (snd st) = final ∧
  loop (evs ++ replicate (resumptionsOwed st) Resume) (idle, s0) = (idle, final).
Proof.
  intros st bodies final.
  destruct (loop_invariant evs s0) as (Hwf & Hseq & Hpend).
  fold st in Hwf, Hseq, Hpend. fold bodies in Hseq, Hpend.
  split; [exact Hpend|]. split; [exact Hseq|].
  unfold loop at 1. rewrite foldl_app. fold (loop evs (idle, s0)). fold st.
  fold (loop (replicate (resumptionsOwed st) Resume) st).
  rewrite (loop_resumes (resumptionsOwed st) st Hwf eq_refl). rewrite Hseq. reflexivity.
Qed.

(** ** Handlers while detached, and handlers that throw *)

Lemma handler_detached (n : Notification) (s : MiddleRoomStore) :
  joiningRTC (sceneStore s) = false ->
  advance (handler n) s = (None, s) ∧ run (handler n) s = (Ok tt, s).
Proof.
  intros H.
  destruct n; unfold handler, local_stream_removed, local_stream_updated, user_message;
    unfold mbind, Prog_bind, get; cbn [bind advance run]; rewrite H; split; reflexivity.
Qed.

(** X1.  While [joiningRTC] is false, any number of dispatched notifications
    (local-stream-removed, local-stream-updated, user-message), arriving in
    any order and with resumptions in between, leave the serializer idle and
    the store exactly as it was. *)
Theorem detached_notifications_dropped (evs : list LoopEvent) (s : MiddleRoomStore) :
  joiningRTC (sceneStore s) = false ->
  loop evs (idle, s) = (idle, s).
Proof.
  intros H. induction evs as [|ev evs IH]; [reflexivity|].
  change (loop (ev :: evs) (idle, s)) with (loop evs (loopStep (idle, s) ev)).
  destruct ev as [n|].
  - cbn [loopStep fst snd]. unfold dispatch, idle. cbn [running pending app drain].
    destruct (handler_detached n s H) as [-> _]. exact IH.
  - exact IH.
Qed.

Lemma try_catch_skip_ok (p : Prog unit) (s : MiddleRoomStore) :
  fst (run (try_catch p skip) s) = Ok tt.
Proof.
  rewrite run_try_catch. destruct (run p s) as [[[]|] s']; reflexivity.
Qed.

(** X2.  The dispatched bodies of local-stream-removed and user-message
    never throw, whatever the devices, the decoder and the transport do:
    every exception is caught inside the body. *)
Theorem guarded_handlers_never_throw (evt : StreamEvent) (raw : string) (s : MiddleRoomStore) :
  fst (run (local_stream_removed evt) s) = Ok tt ∧
  fst (run (user_message raw) s) = Ok tt.
Proof.
  split.
  - unfold local_stream_removed. rewrite run_bind, run_get.
    destruct (negb (joiningRTC (sceneStore s))); [reflexivity|apply try_catch_skip_ok].
  - unfold user_message. rewrite run_bind, run_get.
    destruct (negb (joiningRTC (sceneStore s))); [reflexivity|apply try_catch_skip_ok].
Qed.

(** X3.  The body of local-stream-updated has no catch clause: while
    attached, on a main-stream event with an online descriptor, a failing
    camera probe makes the body throw after the cached descriptor has been
    replaced and before any device is opened or closed. *)
Theorem local_stream_updated_probe_failure (evt : StreamEvent) (s : MiddleRoomStore)
    (stream : EduStream) :
  joiningRTC (sceneStore s) = true ->
  evt_type evt = "main" ->
  online (localStreamData (roomManager s)) = Some stream ->
  world (trace s) GetCameras = Rejected ->
  run (local_stream_updated evt) s
    = (Thrown, log GetCameras (upd_scene (set_cameraEduStream (Some stream)) s)).
Proof.
  intros Hj Hevt Hon Hrej.
  rewrite local_stream_updated_main by (try rewrite Hevt; auto).
  unfold reconcileMain, prepareCamera.
  rewrite run_bind, run_get, Hon, run_bind, run_modify, run_bind, run_bind, run_probe.
  store_simpl. rewrite Hrej. reflexivity.
Qed.

(** ** Stage and reward commands: failures and what they leave alone *)

Lemma clickPlatform_entering (group : UserGroup) (s : MiddleRoomStore) :
  g1 (platformState s) ≠ groupUuid group ->
  g2 (platformState s) ≠ groupUuid group ->
  (occupied (platformState s) < 2)%nat ->
  run (clickPlatform group) s =
  run (batchUpsertStream (map (upsertStreamOf 1) (members group));;
       s' ← get;
       updateRoomBatchProperties
         (enterStagePatch (if negb (truthy (g1 (platformState s'))) then "g1" else "g2")
            (groupUuid group)) "104") s.
Proof.
  intros Hg1 Hg2 Hfree. unfold clickPlatform. rewrite run_bind, run_get.
  rewrite (eqb_false_of_ne _ _ Hg1), (eqb_false_of_ne _ _ Hg2). cbn [orb].
  unfold occupied in Hfree.
  destruct (truthy (g1 (platformState s))), (truthy (g2 (platformState s)));
    simpl in Hfree; try lia; reflexivity.
Qed.

(** X4.  A group entering the stage, with the manager assigned: if the stream
    upsert rejects, [clickPlatform] throws and no property update is issued;
    if the upsert resolves and the property update rejects, [clickPlatform]
    throws with the streams already published and the slot not written. *)
Theorem clickPlatform_enter_failures (group : UserGroup) (s : MiddleRoomStore) (t : string) :
  let upsert := BatchUpsertStream (map (upsertStreamOf 1) (members group)) in
  let update := UpdateRoomBatchProperties (enterStagePatch t (groupUuid group)) "104" in
  g1 (platformState s) ≠ groupUuid group ->
  g2 (platformState s) ≠ groupUuid group ->
  firstEmptySlot (platformState s) = Some t ->
  _roomManager (sceneStore s) = true ->
  (world (trace s) upsert = Rejected ->
   run (clickPlatform group) s = (Thrown, log upsert s)) ∧
  (world (trace s) upsert ≠ Rejected ->
   world (trace s ++ [upsert]) update = Rejected ->
   run (clickPlatform group) s = (Thrown, log update (log upsert s))).
Proof.
  intros upsert update Hg1 Hg2 Hslot Hrm.
  assert (Hfree : (occupied (platformState s) < 2)%nat).
  { unfold firstEmptySlot in Hslot. unfold occupied.
    destruct (truthy (g1 (platformState s))), (truthy (g2 (platformState s)));
      cbn [negb] in *; try discriminate Hslot; simpl; lia. }
  assert (Ht : (if negb (truthy (g1 (platformState s))) then "g1" else "g2") = t).
  { unfold firstEmptySlot in Hslot.
    destruct (truthy (g1 (platformState s))); cbn [negb] in *.
    - destruct (truthy (g2 (platformState s))); cbn [negb] in *;
        [discriminate Hslot|injection Hslot as <-; reflexivity].
    - injection Hslot as <-. reflexivity. }
  rewrite (clickPlatform_entering group s Hg1 Hg2 Hfree).
  rewrite run_bind, run_batchUpsertStream by exact Hrm. fold upsert.
  split.
  - intros Hrej. rewrite Hrej. reflexivity.
  - intros Hok Hrej. destruct (world (trace s) upsert) eqn:Hw; [|congruence].
    rewrite run_bind, run_get.
    change (platformState (log upsert s)) with (platformState s). rewrite Ht.
    rewrite run_updateRoomBatchProperties by exact Hrm. fold update.
    change (trace (log upsert s)) with (trace s ++ [upsert]). rewrite Hrej. reflexivity.
Qed.

(** X5.  The commands are fire-and-forget: on every path, resolved or
    rejected, [clickPlatform], [addGroupStar], [groupControlMicrophone] and
    [sendReward] change no field of the store other than the effect log. *)
Theorem commands_make_no_local_update (group : UserGroup) (control reward : Z)
    (userUuid : string) (s : MiddleRoomStore) :
  localState (exec (clickPlatform group) s) = localState s ∧
  localState (exec (addGroupStar group) s) = localState s ∧
  localState (exec (groupControlMicrophone group control) s) = localState s ∧
  localState (exec (sendReward userUuid reward) s) = localState s.
Proof.
  set (I := fun x => localState x = localState s).
  assert (Hlog : ∀ c x, I x -> I (log c x)) by (intros c x Hx; exact Hx).
  assert (H1 : preserves I (clickPlatform group)).
  { unfold clickPlatform, updateRoomBatchProperties, batchUpsertStream, batchDeleteStream.
    cbv zeta. preserve; auto. }
  assert (H2 : preserves I (addGroupStar group)).
  { unfold addGroupStar, updateRoomBatchProperties. cbv zeta. preserve; auto. }
  assert (H3 : preserves I (groupControlMicrophone group control)).
  { unfold groupControlMicrophone, updateRoomBatchProperties, batchUpsertStream.
    preserve; auto. }
  assert (H4 : preserves I (sendReward userUuid reward)).
  { unfold sendReward. preserve; auto. }
  repeat split;
    [apply (triple_exec I _ I s H1)|apply (triple_exec I _ I s H2)
    |apply (triple_exec I _ I s H3)|apply (triple_exec I _ I s H4)]; reflexivity.
Qed.

(** X6.  With no room manager assigned, [addGroupStar],
    [groupControlMicrophone] and [sendReward] throw before issuing any call,
    and so does [clickPlatform] unless both slots are filled by other
    groups, in which case it returns without doing anything. *)
Theorem commands_need_manager (group : UserGroup) (control reward : Z)
    (userUuid : string) (s : MiddleRoomStore) :
  _roomManager (sceneStore s) = false ->
  run (addGroupStar group) s = (Thrown, s) ∧
  run (groupControlMicrophone group control) s = (Thrown, s) ∧
  run (sendReward userUuid reward) s = (Thrown, s) ∧
  run (clickPlatform group) s =
    (if negb (String.eqb (g1 (platformState s)) (groupUuid group))
        && negb (String.eqb (g2 (platformState s)) (groupUuid group))
        && truthy (g1 (platformState s)) && truthy (g2 (platformState s))
     then Ok tt else Thrown, s).
Proof.
  intros Hrm.
  assert (Hu : ∀ p c, run (updateRoomBatchProperties p c) s = (Thrown, s)).
  { intros p c. unfold updateRoomBatchProperties. rewrite run_bind, run_get, Hrm. reflexivity. }
  assert (Hb : ∀ l, run (batchUpsertStream l) s = (Thrown, s)).
  { intros l. unfold batchUpsertStream. rewrite run_bind, run_get, Hrm. reflexivity. }
  split; [apply Hu|]. split.
  { unfold groupControlMicrophone. rewrite run_bind, Hb. reflexivity. }
  split.
  { unfold sendReward. rewrite run_bind, run_get, Hrm. reflexivity. }
  unfold clickPlatform. rewrite run_bind, run_get.
  destruct (String.eqb (g1 (platformState s)) (groupUuid group));
    [cbn [orb negb andb]; rewrite run_bind, Hu; reflexivity|].
  destruct (String.eqb (g2 (platformState s)) (groupUuid group));
    [cbn [orb negb andb]; rewrite run_bind, Hu; reflexivity|].
  cbn [orb negb andb].
  destruct (truthy (g1 (platformState s)) && truthy (g2 (platformState s))) eqn:E.
  - destruct (truthy (g1 (platformState s))), (truthy (g2 (platformState s)));
      try discriminate E. reflexivity.
  - destruct (truthy (g1 (platformState s))), (truthy (g2 (platformState s)));
      try discriminate E; cbn [andb]; rewrite run_bind, Hb; reflexivity.
Qed.

(** X7.  [groupControlMicrophone], with the manager assigned: one stream
    upsert with one entry per member, in member order, each carrying the
    requested audio state, video state 1 and the name userUuid + stream;
    when it resolves, one property update with an empty payload and cause
    201 follows; when it rejects, the command throws and nothing follows. *)
Theorem groupControlMicrophone_calls (group : UserGroup) (control : Z) (s : MiddleRoomStore) :
  let streams := map (upsertStreamOf control) (members group) in
  _roomManager (sceneStore s) = true ->
  (map st_userUuid streams = map m_userUuid (members group) ∧
   ∀ e, e ∈ streams ->
     st_audioState e = control ∧ st_videoState e = 1%Z ∧
     st_streamName e = st_userUuid e +:+ "stream") ∧
  (world (trace s) (BatchUpsertStream streams) = Rejected ->
   run (groupControlMicrophone group control) s = (Thrown, log (BatchUpsertStream streams) s)) ∧
  (world (trace s) (BatchUpsertStream streams) ≠ Rejected ->
   exec (groupControlMicrophone group control) s
     = log (UpdateRoomBatchProperties ∅ "201") (log (BatchUpsertStream streams) s)).
Proof.
  intros streams Hrm. split; [|split].
  - split.
    + subst streams. rewrite map_map. reflexivity.
    + intros e He. subst streams. apply list_elem_of_In, in_map_iff in He.
      destruct He as (m & <- & _). repeat split.
  - intros Hrej. unfold groupControlMicrophone.
    rewrite run_bind, run_batchUpsertStream by exact Hrm. fold streams. rewrite Hrej.
    reflexivity.
  - intros Hok. unfold exec, groupControlMicrophone.
    rewrite run_bind, run_batchUpsertStream by exact Hrm. fold streams.
    destruct (world (trace s) (BatchUpsertStream streams)); [|congruence].
    rewrite run_updateRoomBatchProperties by exact Hrm. reflexivity.
Qed.

Lemma truthy_false (x : string) : truthy x = false -> x = "".
Proof.
  unfold truthy. intros H. apply String.eqb_eq.
  destruct (String.eqb x ""); [reflexivity|discriminate H].
Qed.

(** X8.  A group whose id is the empty string never enters the stage: with
    both slots filled the click is rejected, and while a slot is empty the
    click is handled as a removal from the first empty slot (one property
    update clearing that slot, then a stream deletion for the members). *)
Theorem clickPlatform_empty_id (group : UserGroup) (s : MiddleRoomStore) :
  groupUuid group = "" ->
  (firstEmptySlot (platformState s) = None -> run (clickPlatform group) s = (Ok tt, s)) ∧
  (∀ t, firstEmptySlot (platformState s) = Some t ->
     let other := if String.eqb t "g1" then g2 (platformState s) else g1 (platformState s) in
     let update := UpdateRoomBatchProperties (leaveStagePatch t (negb (truthy other))) "104" in
     _roomManager (sceneStore s) = true ->
     world (trace s) update ≠ Rejected ->
     exec (clickPlatform group) s
       = log (BatchDeleteStream (map deleteStreamOf (members group))) (log update s)).
Proof.
  intros Hid. unfold firstEmptySlot. split.
  - intros Hfull. unfold clickPlatform. rewrite run_bind, run_get, Hid.
    destruct (truthy (g1 (platformState s))) eqn:E1; [|discriminate Hfull].
    destruct (truthy (g2 (platformState s))) eqn:E2; [|discriminate Hfull].
    unfold truthy in E1, E2.
    destruct (String.eqb (g1 (platformState s)) ""); [discriminate E1|].
    destruct (String.eqb (g2 (platformState s)) ""); [discriminate E2|].
    reflexivity.
  - intros t Ht Hrm Hok. unfold exec, clickPlatform.
    rewrite run_bind, run_get, Hid. cbv zeta.
    destruct (truthy (g1 (platformState s))) eqn:E1; cbn [negb] in Ht.
    + destruct (truthy (g2 (platformState s))) eqn:E2; cbn [negb] in Ht;
        [discriminate Ht|injection Ht as <-].
      assert (E1' : String.eqb (g1 (platformState s)) "" = false).
      { unfold truthy in E1. destruct (String.eqb (g1 (platformState s)) "");
          [discriminate E1|reflexivity]. }
      assert (E2' : String.eqb (g2 (platformState s)) "" = true).
      { unfold truthy in E2. destruct (String.eqb (g2 (platformState s)) "");
          [reflexivity|discriminate E2]. }
      rewrite E1', E2'. cbn [String.eqb Ascii.eqb Bool.eqb orb andb] in Hok |- *.
      rewrite E1 in Hok |- *. cbn [negb] in Hok |- *.
      rewrite run_bind, run_updateRoomBatchProperties by exact Hrm.
      destruct (world (trace s) _); [|congruence].
      rewrite run_batchDeleteStream by exact Hrm. reflexivity.
    + injection Ht as <-.
      assert (E1' : String.eqb (g1 (platformState s)) "" = true).
      { unfold truthy in E1. destruct (String.eqb (g1 (platformState s)) "");
          [reflexivity|discriminate E1]. }
      rewrite E1'. cbn [String.eqb Ascii.eqb Bool.eqb orb andb] in Hok |- *.
      rewrite orb_false_r.
      rewrite run_bind, run_updateRoomBatchProperties by exact Hrm.
      destruct (world (trace s) _); [|congruence].
      rewrite run_batchDeleteStream by exact Hrm. reflexivity.
Qed.

(** ** Snapshots applied again, and the clock kept in step *)

Lemma syncClassState_cases (classroom : Classroom) (x : MiddleRoomStore) :
  let new := courseState (roomStatus classroom) in
  let tick := {| iv_startTime := default 0%Z (rs_startTime (roomStatus classroom));
                 iv_delay := ms |} in
  classState (sceneStore (syncClassState classroom x)) = new ∧
  _intervalMap (syncClassState classroom x)
    = (if (classState (sceneStore x) =? new)%Z then _intervalMap x
       else if (new =? 1)%Z then <["timer" := tick]> (_intervalMap x)
       else delete "timer" (_intervalMap x)).
Proof.
  intros new tick. unfold syncClassState. fold new.
  destruct (classState (sceneStore x) =? new)%Z eqn:E; cbn [negb].
  - apply Z.eqb_eq in E. auto.
  - cbn [classState sceneStore upd_scene set_sceneStore set_classState].
    destruct (new =? 1)%Z eqn:E1.
    + match goal with |- context [addInterval ?k ?iv ?y] =>
        destruct (addInterval_frame k iv y) as [-> _];
        destruct (addInterval_map k iv y) as [-> _] end.
      split; reflexivity.
    + match goal with |- context [delInterval ?k ?y] =>
        destruct (delInterval_frame k y) as [-> _];
        destruct (delInterval_map k y) as [-> _] end.
      split; reflexivity.
Qed.

Lemma classroom_property_updated_inSync (now : Z) (classroom : Classroom)
    (s : MiddleRoomStore) :
  inSync classroom (classroom_property_updated now classroom s).
Proof.
  unfold inSync, classroom_property_updated.
  set (s0 := set_roomProperties (cr_roomProperties classroom) s).
  set (s1 := syncRecord now classroom s0).
  destruct (syncClassState_cases classroom s1) as [Hc _].
  destruct (syncClassState_frame classroom s1) as (_ & Hr & _).
  store_simpl. rewrite Hc, Hr. repeat split.
  subst s1. unfold syncRecord.
  destruct (rp_record (cr_roomProperties classroom)) as [record|]; [|exact I].
  split; intros Hst; rewrite Hst; cbn [Z.eqb Pos.eqb]; [reflexivity|].
  cbn [andb]. destruct (recordState (sceneStore s0)) eqn:E; [reflexivity|exact E].
Qed.

Lemma classroom_property_updated_fixed (now : Z) (classroom : Classroom)
    (x : MiddleRoomStore) :
  inSync classroom x -> classroom_property_updated now classroom x = x.
Proof.
  destruct x as [sc rm ri au q j chat msgs ug pk nt gs rp im tr].
  destruct sc as [jr hasrm cam scr hc hm co mo sh rs rid cs st mu sl ru].
  unfold inSync. store_simpl. intros (-> & -> & -> & Hrec).
  unfold classroom_property_updated, syncRecord, syncClassState. cbv zeta.
  destruct (rp_record (cr_roomProperties classroom)) as [record|].
  - destruct Hrec as [H1 H0].
    destruct (rec_state record =? 1)%Z eqn:E1.
    + apply Z.eqb_eq in E1. rewrite (H1 E1).
      store_simpl. rewrite Z.eqb_refl. reflexivity.
    + destruct (rec_state record =? 0)%Z eqn:E0.
      * apply Z.eqb_eq in E0. rewrite (H0 E0).
        store_simpl. rewrite Z.eqb_refl. reflexivity.
      * store_simpl. rewrite Z.eqb_refl. reflexivity.
  - store_simpl. rewrite Z.eqb_refl. reflexivity.
Qed.

(** X9.  Applying a property snapshot a second time, at any later time,
    changes nothing: no second chat marker, no timer restart, no further
    effect. *)
Theorem classroom_property_updated_idempotent (now now' : Z) (classroom : Classroom)
    (s : MiddleRoomStore) :
  classroom_property_updated now' classroom (classroom_property_updated now classroom s)
    = classroom_property_updated now classroom s.
Proof.
  apply classroom_property_updated_fixed, classroom_property_updated_inSync.
Qed.

(** X10.  The property handler keeps the session clock in step with the
    class state: if the timer interval is registered exactly when the cached
    class state is 1, the same holds after any snapshot; and the handler
    touches no interval other than the one named timer. *)
Theorem classroom_property_updated_clock (now : Z) (classroom : Classroom)
    (s : MiddleRoomStore) :
  clockInStep s ->
  clockInStep (classroom_property_updated now classroom s) ∧
  ∀ key, key ≠ "timer" ->
    _intervalMap (classroom_property_updated now classroom s) !! key = _intervalMap s !! key.
Proof.
  intros Hstep. unfold clockInStep in *. unfold classroom_property_updated.
  set (s0 := set_roomProperties (cr_roomProperties classroom) s).
  destruct (syncRecord_frame now classroom s0) as (Hc & _ & Hm & _).
  set (s1 := syncRecord now classroom s0) in *.
  destruct (syncClassState_cases classroom s1) as [Hc' Hm'].
  store_simpl. rewrite Hc', Hm', Hc, Hm. subst s0. store_simpl.
  destruct (classState (sceneStore s) =? courseState (roomStatus classroom))%Z eqn:E.
  - apply Z.eqb_eq in E. rewrite <- E. split; [exact Hstep|reflexivity].
  - destruct (courseState (roomStatus classroom) =? 1)%Z eqn:E1.
    + apply Z.eqb_eq in E1. split.
      * rewrite lookup_insert_eq. split; [intros _; exact E1|intros _; eauto].
      * intros key Hkey. apply lookup_insert_ne. congruence.
    + apply Z.eqb_neq in E1. split.
      * rewrite lookup_delete_eq. split; [intros [? H]; discriminate H|intros H; contradiction].
      * intros key Hkey. apply lookup_delete_ne. congruence.
Qed.

(** X11.  After the property handler the recording flag is true for
    [record.state] 1, false for 0, and unchanged for any other state or a
    snapshot without a record block; unless the state is 0, the chat log and
    the cached record id keep their values: the record id carried by the
    snapshot is never copied into the store. *)
Theorem classroom_property_updated_record (now : Z) (classroom : Classroom)
    (s : MiddleRoomStore) :
  let s' := classroom_property_updated now classroom s in
  recordState (sceneStore s')
    = match rp_record (cr_roomProperties classroom) with
      | Some record =>
          if (rec_state record =? 1)%Z then true
          else if (rec_state record =? 0)%Z then false
          else recordState (sceneStore s)
      | None => recordState (sceneStore s)
      end ∧
  ((∀ record, rp_record (cr_roomProperties classroom) = Some record ->
      rec_state record ≠ 0%Z) ->
   roomChatMessages s' = roomChatMessages s ∧
   recordId (sceneStore s') = recordId (sceneStore s)).
Proof.
  intros s'. subst s'. unfold classroom_property_updated.
  set (s0 := set_roomProperties (cr_roomProperties classroom) s).
  destruct (syncClassState_frame classroom (syncRecord now classroom s0)) as (Hchat & Hr & Hid).
  store_simpl. rewrite Hchat, Hr, Hid. unfold syncRecord.
  destruct (rp_record (cr_roomProperties classroom)) as [record|]; [|split; auto].
  destruct (rec_state record =? 1)%Z eqn:E1; [split; auto|].
  destruct (rec_state record =? 0)%Z eqn:E0.
  - split.
    + cbn [andb]. destruct (recordState (sceneStore s0)) eqn:E; [reflexivity|exact E].
    + intros H. apply Z.eqb_eq in E0. destruct (H record eq_refl E0).
  - split; auto.
Qed.

(** ** Raised hands *)

Lemma find_none_ids (l : list ApplyUser) (u : string) :
  List.find (fun a => String.eqb (au_userUuid a) u) l = None -> u ∉ au_userUuid <$> l.
Proof.
  induction l as [|a l IH]; simpl; intros H.
  - apply not_elem_of_nil.
  - destruct (String.eqb (au_userUuid a) u) eqn:E; [discriminate H|].
    apply String.eqb_neq in E. apply not_elem_of_cons. split; [congruence|apply IH, H].
Qed.

Lemma filter_ids (l : list ApplyUser) (u : string) :
  au_userUuid <$> List.filter (fun it => negb (String.eqb (au_userUuid it) u)) l
    = List.filter (fun x => negb (String.eqb x u)) (au_userUuid <$> l).
Proof.
  induction l as [|a l IH]; simpl; [reflexivity|].
  destruct (String.eqb (au_userUuid a) u); simpl; [exact IH|f_equal; exact IH].
Qed.

Lemma filter_ids_absent (l : list string) (u : string) :
  u ∉ List.filter (fun x => negb (String.eqb x u)) l.
Proof.
  intros H. apply list_elem_of_In, List.filter_In in H. destruct H as [_ H].
  rewrite String.eqb_refl in H. discriminate H.
Qed.

Lemma filter_NoDup (l : list string) (f : string -> bool) :
  NoDup l -> NoDup (List.filter f l).
Proof.
  induction 1 as [|x l Hx Hl IH]; simpl; [constructor|].
  destruct (f x); [|exact IH]. constructor; [|exact IH].
  intros H. apply Hx. apply list_elem_of_In, List.filter_In in H.
  apply list_elem_of_In, H.
Qed.

Lemma filter_keeps_all (l : list ApplyUser) (u : string) :
  u ∉ au_userUuid <$> l ->
  List.filter (fun it => negb (String.eqb (au_userUuid it) u)) l = l.
Proof.
  induction l as [|a l IH]; simpl; intros H; [reflexivity|].
  apply not_elem_of_cons in H as [Hne H].
  destruct (String.eqb (au_userUuid a) u) eqn:E.
  - apply String.eqb_eq in E. congruence.
  - simpl. rewrite IH by exact H. reflexivity.
Qed.

Lemma pushApplyUser_NoDup (u n : string) (x : MiddleRoomStore) :
  NoDup (applyUserIds x) -> NoDup (applyUserIds (pushApplyUser u n x)).
Proof.
  intros H. unfold pushApplyUser.
  destruct (List.find _ (applyUsers x)) eqn:E; [exact H|].
  match goal with |- context [match ?o with Some _ => _ | None => _ end] =>
    destruct o; [|exact H] end.
  unfold applyUserIds. store_simpl. rewrite fmap_app. apply NoDup_app.
  split; [exact H|]. split; [|apply NoDup_singleton].
  intros y Hy Hy'. apply list_elem_of_singleton in Hy'. subst y.
  exact (find_none_ids _ _ E Hy).
Qed.

Lemma dropApplyUser_NoDup (u : string) (x : MiddleRoomStore) :
  NoDup (applyUserIds x) -> NoDup (applyUserIds (dropApplyUser u x)).
Proof.
  intros H. unfold applyUserIds, dropApplyUser. store_simpl.
  rewrite filter_ids. apply filter_NoDup, H.
Qed.

Ltac unfold_notice :=
  unfold showInvitationNotice; unfold_devices; cbv zeta.

(** X12.  No user is ever listed twice among the raised hands: if the apply
    list has pairwise distinct user ids, it still has after any dispatched
    notification, whatever the message says and whatever the devices do. *)
Theorem applyUsers_stay_distinct (n : Notification) (s : MiddleRoomStore) :
  NoDup (applyUserIds s) -> NoDup (applyUserIds (exec (handler n) s)).
Proof.
  intros H.
  set (I := fun x => NoDup (applyUserIds x)).
  assert (Hp : preserves I (handler n)).
  { destruct n; unfold handler, local_stream_removed, local_stream_updated, user_message,
      reconcileMain, reconcileScreen; unfold_notice;
      preserve;
      try (intros x Hx; exact Hx);
      try (intros x Hx; apply pushApplyUser_NoDup, Hx);
      try (intros x Hx; apply dropApplyUser_NoDup, Hx). }
  exact (triple_exec I _ I s Hp H).
Qed.

Lemma showInvitationNotice_applyUsers (cmd action : Z) (u n : string) (s : MiddleRoomStore) :
  applyUsers (exec (showInvitationNotice cmd action u n) s) = applyUsersAfter action u n s ∧
  notice (exec (showInvitationNotice cmd action u n) s)
    = Some {| reason := invitationText action n; notice_userUuid := u |}.
Proof.
  set (N := Some {| reason := invitationText action n; notice_userUuid := u |}).
  set (A0 := fun x => notice x = N ∧ applyUsers x = applyUsers s
                      ∧ _roomManager (sceneStore x) = _roomManager (sceneStore s)
                      ∧ roomManager x = roomManager s).
  set (s1 := if (action =? InvitationEnum_Apply)%Z then pushApplyUser u n s else s).
  set (A1 := fun x => notice x = N ∧ applyUsers x = applyUsers s1).
  set (A2 := fun x => notice x = N ∧ applyUsers x = applyUsersAfter action u n s).
  assert (Hlog0 : ∀ c x, A0 x -> A0 (log c x)) by (intros c x Hx; exact Hx).
  assert (Hlog1 : ∀ c x, A1 x -> A1 (log c x)) by (intros c x Hx; exact Hx).
  assert (H : triple (fun x => x = s) (showInvitationNotice cmd action u n)
                (fun _ => A2) A2).
  { unfold showInvitationNotice. cbv zeta.
    apply (triple_bind (fun _ => A0));
      [apply triple_modify; intros x ->; repeat split|intros _].
    apply (triple_bind (fun _ => A0)); [apply triple_emit; auto|intros _].
    apply (triple_bind (fun _ => A1)).
    { subst s1. destruct (action =? InvitationEnum_Apply)%Z.
      - apply (triple_bind (fun _ => A1)); [|intros _; apply triple_emit; auto].
        apply triple_modify. intros x (Hn & Ha & Hf & Hr).
        unfold A1, pushApplyUser. rewrite Ha, Hf, Hr.
        destruct (List.find _ (applyUsers s)); [split; assumption|].
        match goal with |- context [match ?o with Some _ => _ | None => _ end] =>
          destruct o end; split; solve [assumption | reflexivity].
      - apply triple_skip. intros x (Hn & Ha & _). split; assumption. }
    intros _.
    apply (triple_bind (fun _ => A2)).
    { unfold A2, applyUsersAfter. fold s1.
      destruct (action =? InvitationEnum_Cancel)%Z.
      - apply triple_modify. intros x [Hn Ha]. split; [exact Hn|].
        unfold dropApplyUser. store_simpl. rewrite Ha. reflexivity.
      - apply triple_skip. intros x Hx. exact Hx. }
    intros _.
    assert (Hrest : ∀ p : Prog unit, preserves A2 p -> triple A2 p (fun _ => A2) A2)
      by (intros p Hp; exact Hp).
    apply Hrest. unfold_devices.
    preserve; intros x Hx; exact Hx. }
  specialize (H s eq_refl). unfold exec.
  destruct (run (showInvitationNotice cmd action u n) s) as [[[]|] s']; destruct H; auto.
Qed.

(** X13.  A cancel invitation always ends with the user absent from the
    raised hands, and every invitation leaves the notice holding its own
    text and user id, even when the device calls of a teacher-accept
    throw. *)
Theorem showInvitationNotice_cancel (cmd action : Z) (u n : string) (s : MiddleRoomStore) :
  notice (exec (showInvitationNotice cmd action u n) s)
    = Some {| reason := invitationText action n; notice_userUuid := u |} ∧
  (action = InvitationEnum_Cancel ->
   u ∉ applyUserIds (exec (showInvitationNotice cmd action u n) s)).
Proof.
  destruct (showInvitationNotice_applyUsers cmd action u n s) as [Ha Hn].
  split; [exact Hn|]. intros ->. unfold applyUserIds. rewrite Ha.
  unfold applyUsersAfter. cbv zeta. rewrite Z.eqb_refl.
  unfold dropApplyUser. store_simpl. rewrite filter_ids. apply filter_ids_absent.
Qed.

(** X14.  Raising a hand and then cancelling it restores the apply list:
    for a user not listed before, and with distinct apply and cancel codes,
    an apply invitation followed by a cancel invitation leaves the list
    exactly as it was. *)
Theorem apply_then_cancel_restores (cmd cmd' : Z) (u n n' : string) (s : MiddleRoomStore) :
  InvitationEnum_Apply ≠ InvitationEnum_Cancel ->
  u ∉ applyUserIds s ->
  applyUsers (exec (showInvitationNotice cmd' InvitationEnum_Cancel u n')
                (exec (showInvitationNotice cmd InvitationEnum_Apply u n) s))
    = applyUsers s.
Proof.
  intros Hne Hu.
  destruct (showInvitationNotice_applyUsers cmd' InvitationEnum_Cancel u n'
              (exec (showInvitationNotice cmd InvitationEnum_Apply u n) s)) as [-> _].
  unfold applyUsersAfter at 1. cbv zeta.
  assert (E : (InvitationEnum_Cancel =? InvitationEnum_Apply)%Z = false)
    by (apply Z.eqb_neq; congruence).
  rewrite E, Z.eqb_refl. unfold dropApplyUser. store_simpl.
  destruct (showInvitationNotice_applyUsers cmd InvitationEnum_Apply u n s) as [-> _].
  unfold applyUsersAfter. cbv zeta.
  assert (E' : (InvitationEnum_Apply =? InvitationEnum_Cancel)%Z = false)
    by (apply Z.eqb_neq; congruence).
  rewrite E', Z.eqb_refl. unfold pushApplyUser.
  destruct (List.find _ (applyUsers s)) eqn:Ef.
  - apply filter_keeps_all, Hu.
  - match goal with |- context [match ?o with Some _ => _ | None => _ end] =>
      destruct o end; [|apply filter_keeps_all, Hu].
    store_simpl. rewrite List.filter_app. simpl. rewrite String.eqb_refl. simpl.
    rewrite app_nil_r. apply filter_keeps_all, Hu.
Qed.

(** ** Leaving *)

Ltac in_calls :=
  unfold leaveCalls; repeat first [apply list_elem_of_here | apply list_elem_of_further].

(** X15.  [leave] never throws, and it is all or nothing about the local
    teardown.  Either the success toast was shown, and then the timer entry
    is removed and the room info reset; or one awaited call was rejected, and
    then the effect log ends with that call followed by the two reset calls,
    no toast and no sequence-id update was issued, and the interval map and
    the room info are what they were. *)
Theorem leave_all_or_nothing (s : MiddleRoomStore) :
  fst (run leave s) = Ok tt ∧
  ∃ l, added s (exec leave s) l ∧
    ((leftToast ∈ l ∧
      _intervalMap (exec leave s) = delete "timer" (_intervalMap s) ∧
      roomInfo (exec leave s) = appStore_resetRoomInfo (roomInfo s))
     ∨
     ((leftToast ∉ l) ∧ (UpdateCurSeqId 0 ∉ l) ∧ (UpdateLastSeqId 0 ∉ l) ∧
      _intervalMap (exec leave s) = _intervalMap s ∧
      roomInfo (exec leave s) = roomInfo s ∧
      ∃ pre c, l = pre ++ [c; ResetRoomState; ResetTime] ∧
               c ∈ leaveCalls ∧ world (trace s ++ pre) c = Rejected)).
Proof.
  set (P0 := fun x => ∃ l, added s x l ∧ (∀ e, e ∈ l -> e ∈ leaveCalls) ∧
                     _intervalMap x = _intervalMap s ∧ roomInfo x = roomInfo s).
  set (E1 := fun x => ∃ pre c, added s x (pre ++ [c]) ∧ (∀ e, e ∈ pre -> e ∈ leaveCalls) ∧
                     c ∈ leaveCalls ∧ world (trace s ++ pre) c = Rejected ∧
                     _intervalMap x = _intervalMap s ∧ roomInfo x = roomInfo s).
  set (S1 := fun (m : gmap string Interval) (r : RoomInfo) x =>
               ∃ l, added s x l ∧ leftToast ∈ l ∧ _intervalMap x = m ∧ roomInfo x = r).
  set (Fin := fun x => ∃ l, added s x l ∧
    ((leftToast ∈ l ∧ _intervalMap x = delete "timer" (_intervalMap s) ∧
      roomInfo x = appStore_resetRoomInfo (roomInfo s))
     ∨
     ((leftToast ∉ l) ∧ (UpdateCurSeqId 0 ∉ l) ∧ (UpdateLastSeqId 0 ∉ l) ∧
      _intervalMap x = _intervalMap s ∧ roomInfo x = roomInfo s ∧
      ∃ pre c, l = pre ++ [c; ResetRoomState; ResetTime] ∧
               c ∈ leaveCalls ∧ world (trace s ++ pre) c = Rejected))).
  assert (Hawait : ∀ c, c ∈ leaveCalls -> triple P0 (await c) (fun _ => P0) E1).
  { intros c Hc. apply triple_await.
    - intros x b (l & Hl & Hall & Hm & Hr) _. exists (l ++ [c]).
      unfold added in *. store_simpl. rewrite Hl, <- app_assoc.
      repeat split; [|exact Hm|exact Hr].
      intros e He. apply elem_of_app in He as [He|He]; [exact (Hall e He)|].
      apply list_elem_of_singleton in He. subst e. exact Hc.
    - intros x (l & Hl & Hall & Hm & Hr) Hrej. exists l, c.
      unfold added in *. store_simpl. rewrite Hl, <- app_assoc.
      rewrite Hl in Hrej. repeat split; assumption. }
  assert (Hlog : ∀ m r e x, S1 m r x -> S1 m r (log e x)).
  { intros m r e x (l & Hl & Ht & Hm & Hr). exists (l ++ [e]).
    unfold added in *. store_simpl. rewrite Hl, <- app_assoc.
    repeat split; [|exact Hm|exact Hr]. apply elem_of_app. left. exact Ht. }
  assert (Hcalls : ∀ e, e ∈ leaveCalls ->
            e ≠ leftToast ∧ e ≠ UpdateCurSeqId 0 ∧ e ≠ UpdateLastSeqId 0).
  { intros e He. unfold leaveCalls in He.
    repeat (apply elem_of_cons in He as [->|He]; [repeat split; discriminate|]).
    apply elem_of_nil in He. destruct He. }
  assert (H : triple (fun x => x = s) leave (fun _ => Fin) (fun _ => False)).
  { unfold leave, leaveRtc.
    apply (triple_try_catch E1).
    - apply (triple_bind (fun _ => P0)).
      { apply triple_modify. intros x ->. exists []. unfold added. store_simpl.
        rewrite app_nil_r. repeat split. intros e He. apply elem_of_nil in He. destruct He. }
      intros _.
      apply (triple_bind (fun _ => P0));
        [apply Hawait; in_calls|intros _].
      apply (triple_bind (fun _ => P0));
        [apply Hawait; in_calls|intros _].
      apply (triple_bind (fun _ => P0));
        [apply Hawait; in_calls|intros _].
      apply triple_get_bind. intros s0 Hs0.
      apply (triple_conseq _ P0 _ _ (fun _ => Fin) _ E1); [|intros x ->; exact Hs0|auto|auto].
      apply (triple_bind (fun _ => P0)).
      { destruct (_roomManager (sceneStore s0));
          [apply Hawait; in_calls|apply triple_skip; auto]. }
      intros _.
      apply (triple_bind (fun _ => S1 (_intervalMap s) (roomInfo s))).
      { apply triple_emit. intros x (l & Hl & _ & Hm & Hr).
        exists (l ++ [leftToast]). unfold added in *. store_simpl.
        rewrite Hl, <- app_assoc. repeat split; [|exact Hm|exact Hr].
        apply elem_of_app. right. apply list_elem_of_singleton. reflexivity. }
      intros _.
      apply (triple_bind (fun _ => S1 (delete "timer" (_intervalMap s)) (roomInfo s))).
      { apply triple_modify. intros x (l & Hl & Ht & Hm & Hr).
        destruct (delInterval_map "timer" x) as [Hd Htr].
        exists (l ++ match _intervalMap x !! "timer" with
                      | Some _ => [ClearInterval "timer"] | None => [] end).
        unfold added in *. rewrite Htr, Hl, <- app_assoc, Hd, Hm.
        repeat split; [apply elem_of_app; left; exact Ht|].
        unfold delInterval. destruct (_intervalMap x !! "timer"); store_simpl; exact Hr. }
      intros _.
      apply (triple_bind (fun _ => S1 (delete "timer" (_intervalMap s)) (roomInfo s))).
      { apply triple_modify. intros x (l & Hl & Ht & Hm & Hr).
        destruct (reset_frame x) as (_ & _ & _ & Hm' & Htr).
        exists (l ++ [ResetRoomState; ResetTime]).
        unfold added in *. rewrite Htr, Hl, <- app_assoc, Hm', Hm.
        repeat split; [apply elem_of_app; left; exact Ht|].
        unfold reset. store_simpl. exact Hr. }
      intros _.
      apply (triple_bind (fun _ => S1 (delete "timer" (_intervalMap s))
                                      (appStore_resetRoomInfo (roomInfo s)))).
      { apply triple_modify. intros x (l & Hl & Ht & Hm & Hr). exists l.
        unfold resetRoomInfo, added in *. store_simpl. rewrite Hr.
        repeat split; assumption. }
      intros _.
      apply (triple_bind (fun _ => S1 (delete "timer" (_intervalMap s))
                                      (appStore_resetRoomInfo (roomInfo s))));
        [apply triple_emit; intros x Hx; apply Hlog, Hx|intros _].
      apply triple_emit. intros x Hx.
      destruct (Hlog _ _ (UpdateLastSeqId 0) x Hx) as (l & Hl & Ht & Hm & Hr).
      exists l. split; [exact Hl|]. left. repeat split; assumption.
    - apply triple_modify.
      intros x (pre & c & Hl & Hall & Hc & Hrej & Hm & Hr).
      destruct (reset_frame x) as (_ & _ & _ & Hm' & Htr).
      exists (pre ++ [c; ResetRoomState; ResetTime]).
      assert (Hnot : ∀ e, (e ≠ leftToast ∧ e ≠ UpdateCurSeqId 0 ∧ e ≠ UpdateLastSeqId 0) ->
                e = leftToast ∨ e = UpdateCurSeqId 0 ∨ e = UpdateLastSeqId 0 -> False)
        by (intros e (H1 & H2 & H3) [H|[H|H]]; auto).
      assert (Hin : ∀ e, e ∈ pre ++ [c; ResetRoomState; ResetTime] ->
                e ≠ leftToast ∧ e ≠ UpdateCurSeqId 0 ∧ e ≠ UpdateLastSeqId 0).
      { intros e He. apply elem_of_app in He as [He|He]; [exact (Hcalls e (Hall e He))|].
        apply elem_of_cons in He as [->|He]; [exact (Hcalls c Hc)|].
        apply elem_of_cons in He as [->|He]; [repeat split; discriminate|].
        apply list_elem_of_singleton in He. subst e. repeat split; discriminate. }
      split.
      { unfold added in *. rewrite Htr, Hl, <- !app_assoc. reflexivity. }
      right. repeat split.
      + intros He. apply Hin in He. destruct He as (He & _). congruence.
      + intros He. apply Hin in He. destruct He as (_ & He & _). congruence.
      + intros He. apply Hin in He. destruct He as (_ & _ & He). congruence.
      + rewrite Hm'. exact Hm.
      + unfold reset. store_simpl. exact Hr.
      + exists pre, c. repeat split; assumption. }
  specialize (H s eq_refl). unfold exec.
  destruct (run leave s) as [[[]|] s']; [|destruct H].
  split; [reflexivity|]. exact H.
Qed.

(** ** Computed views *)

Lemma find_assoc {V : Type} (l : list (string * V)) (u : string) (v : V) :
  NoDup (l.*1) -> (u, v) ∈ l ->
  List.find (fun kv => String.eqb (fst kv) u) l = Some (u, v).
Proof.
  induction l as [|[k w] l IH]; intros Hnd Hin; [inversion Hin|].
  cbn [fmap list_fmap fst] in Hnd. apply NoDup_cons in Hnd as [Hk Hnd].
  cbn [List.find fst]. destruct (String.eqb k u) eqn:Ek.
  - apply String.eqb_eq in Ek. subst k.
    apply elem_of_cons in Hin as [Hin|Hin]; [congruence|].
    exfalso. apply Hk. apply list_elem_of_fmap. exists (u, v). split; [reflexivity|exact Hin].
  - apply elem_of_cons in Hin as [Hin|Hin]; [|apply IH; assumption].
    injection Hin as -> ->. rewrite String.eqb_refl in Ek. discriminate Ek.
Qed.

Lemma find_assoc_none {V : Type} (l : list (string * V)) (u : string) :
  (∀ kv, kv ∈ l -> fst kv ≠ u) ->
  List.find (fun kv => String.eqb (fst kv) u) l = None.
Proof.
  induction l as [|kv l IH]; intros H; [reflexivity|].
  cbn [List.find]. destruct (String.eqb (fst kv) u) eqn:Ek.
  - apply String.eqb_eq in Ek. exfalso. apply (H kv); [left|exact Ek].
  - apply IH. intros kv' Hin. apply H. right. exact Hin.
Qed.

Lemma find_map_to_list {V : Type} (m : gmap string V) (u : string) :
  List.find (fun kv => String.eqb (fst kv) u) (map_to_list m) = (fun v => (u, v)) <$> (m !! u).
Proof.
  destruct (m !! u) as [v|] eqn:E; cbn [fmap option_fmap option_map].
  - apply find_assoc; [apply NoDup_fst_map_to_list|apply elem_of_map_to_list, E].
  - apply find_assoc_none. intros [k w] Hin Hk. cbn [fst] in Hk. subst k.
    apply elem_of_map_to_list in Hin. congruence.
Qed.

Lemma find_fmap {A B : Type} (f : B -> bool) (g : A -> B) (l : list A) :
  List.find f (g <$> l) = g <$> List.find (fun x => f (g x)) l.
Proof.
  induction l as [|a l IH]; [reflexivity|].
  cbn [fmap list_fmap List.find]. destruct (f (g a)); [reflexivity|exact IH].
Qed.

Lemma existsb_eqb_elem (u : string) (l : list string) :
  existsb (String.eqb u) l = true ↔ u ∈ l.
Proof.
  rewrite existsb_exists. split.
  - intros (x & Hin & Hx). apply String.eqb_eq in Hx. subst x. apply list_elem_of_In, Hin.
  - intros Hin. exists u. split; [apply list_elem_of_In, Hin|apply String.eqb_refl].
Qed.

Lemma filter_fmap_comm {A B : Type} (f : B -> bool) (g : A -> B) (l : list A) :
  List.filter f (g <$> l) = g <$> List.filter (fun x => f (g x)) l.
Proof.
  induction l as [|a l IH]; [reflexivity|].
  cbn [fmap list_fmap List.filter]. destruct (f (g a)); cbn [fmap list_fmap]; rewrite <- IH;
    reflexivity.
Qed.

Section ViewFacts.

Variable Stream : Type.
Variable stream_userUuid : Stream -> string.
Variable inherited : string -> bool.
Implicit Types (r : Roster Stream) (s : MiddleRoomStore).

Lemma present_spec r (u : string) :
  present r u = true ↔ u ∈ su_userUuid <$> userList r.
Proof.
  unfold present. induction (userList r) as [|user l IH]; cbn [List.find fmap list_fmap].
  - split; [discriminate|]. intros H. inversion H.
  - destruct (String.eqb (su_userUuid user) u) eqn:E.
    + apply String.eqb_eq in E. split; [intros _; rewrite E; left|reflexivity].
    + apply String.eqb_neq in E. rewrite IH. split; [intros H; right; exact H|].
      intros H. apply elem_of_cons in H as [H|H]; [congruence|exact H].
Qed.

Lemma getUserReward_record r s (u : string) :
  getUserReward r s u = default 0%Z (sp_reward <$> students (roomProperties s) !! u).
Proof.
  unfold getUserReward, roomStudentUserList. cbv zeta. rewrite find_fmap.
  cbn [se_userUuid]. rewrite find_map_to_list.
  destruct (students (roomProperties s) !! u); reflexivity.
Qed.

(** X16.  The reward shown for a user is the reward of the user's student
    record and 0 when there is none; it depends on neither the user list nor
    the streams, so a reward survives the user going offline. *)
Theorem getUserReward_is_record_reward r r' s (u : string) :
  getUserReward r s u = default 0%Z (sp_reward <$> students (roomProperties s) !! u) ∧
  getUserReward r s u = getUserReward r' s u.
Proof.
  split; [apply getUserReward_record|]. rewrite !getUserReward_record. reflexivity.
Qed.

Lemma roomStudentUserList_mirrors_ids r s :
  NoDup (se_userUuid <$> roomStudentUserList r s) ∧
  ∀ u, u ∈ se_userUuid <$> roomStudentUserList r s ↔ is_Some (students (roomProperties s) !! u).
Proof.
  unfold roomStudentUserList. cbv zeta. rewrite <- list_fmap_compose.
  split; [exact (NoDup_fst_map_to_list (students (roomProperties s)))|].
  intros u. rewrite list_elem_of_fmap. split.
  - intros ([k v] & -> & Hin). apply elem_of_map_to_list in Hin. cbn. eauto.
  - intros [v Hv]. exists (u, v). split; [reflexivity|apply elem_of_map_to_list, Hv].
Qed.

(** X17.  [roomStudentUserList] lists every student record exactly once:
    its length is [studentSum] (so [studentTotal] and [studentSum] agree),
    no user id repeats, and an entry is in the list exactly when it copies
    the record stored under its user id and is flagged offline exactly when
    that user is missing from the user list. *)
Theorem roomStudentUserList_mirrors_records r s :
  studentTotal r s = studentSum s ∧
  studentSum s = size (students (roomProperties s)) ∧
  NoDup (se_userUuid <$> roomStudentUserList r s) ∧
  ∀ e, e ∈ roomStudentUserList r s ↔
       students (roomProperties s) !! se_userUuid e
         = Some {| sp_userName := se_userName e; sp_reward := se_reward e;
                   sp_streamUuid := se_streamUuid e |} ∧
       se_account e = se_userName e ∧
       se_offline e = negb (present r (se_userUuid e)).
Proof.
  unfold studentTotal, studentSum, roomStudentUserList. cbv zeta.
  split; [apply length_fmap|]. split; [apply length_map_to_list|]. split.
  - rewrite <- list_fmap_compose.
    exact (NoDup_fst_map_to_list (students (roomProperties s))).
  - intros e. rewrite list_elem_of_fmap. split.
    + intros ([k [n w st]] & -> & Hin). apply elem_of_map_to_list in Hin.
      cbn. repeat split. exact Hin.
    + intros (Hrec & Hacc & Hoff). apply elem_of_map_to_list in Hrec.
      eexists. split; [|exact Hrec]. destruct e as [u st n a w o].
      cbn in *. subst a o. reflexivity.
Qed.

Lemma found_property {A : Type} (m : gmap string A) (key : string) :
  found (property inherited m key) = bool_decide (is_Some (m !! key)) || inherited key.
Proof.
  unfold property. destruct (m !! key) as [a|].
  - rewrite bool_decide_eq_true_2 by eauto. reflexivity.
  - rewrite bool_decide_eq_false_2 by (intros [? ?]; discriminate).
    destruct (inherited key); reflexivity.
Qed.

(** X18.  The online students are, in user-list order, the non-host users
    under whose id the student records hold a record or inherit a member.
    For a user with a record the entry carries the record's name, stream and
    reward, and it matches an entry of [roomStudentUserList] that is not
    flagged offline; for a user found only through an inherited member every
    field but the user id is undefined. *)
Theorem onlineStudentList_consistent r s :
  os_userUuid <$> onlineStudentList inherited r s
    = su_userUuid <$>
        List.filter (fun user =>
                       bool_decide (is_Some (students (roomProperties s) !! su_userUuid user))
                       || inherited (su_userUuid user))
          (studentUserList r) ∧
  ∀ o, o ∈ onlineStudentList inherited r s ->
    match students (roomProperties s) !! os_userUuid o with
    | Some record =>
        o = {| os_userUuid := os_userUuid o;
               os_streamUuid := Some (sp_streamUuid record);
               os_userName := Some (sp_userName record);
               os_account := Some (sp_userName record);
               os_reward := Some (sp_reward record) |} ∧
        {| se_userUuid := os_userUuid o; se_streamUuid := sp_streamUuid record;
           se_userName := sp_userName record; se_account := sp_userName record;
           se_reward := sp_reward record; se_offline := false |} ∈ roomStudentUserList r s
    | None =>
        inherited (os_userUuid o) = true ∧
        o = {| os_userUuid := os_userUuid o; os_streamUuid := None; os_userName := None;
               os_account := None; os_reward := None |}
    end.
Proof.
  split.
  - unfold onlineStudentList, studentUserList. cbv zeta. rewrite <- list_fmap_compose.
    erewrite List.filter_ext; [reflexivity|].
    intros user. apply found_property.
  - intros o Ho. unfold onlineStudentList in Ho. cbv zeta in Ho.
    apply list_elem_of_fmap in Ho as (user & -> & Hin).
    apply list_elem_of_In, List.filter_In in Hin as [Hin Hfound].
    apply List.filter_In in Hin as [Hin _].
    cbn [os_userUuid]. rewrite found_property in Hfound. unfold property.
    destruct (students (roomProperties s) !! su_userUuid user) as [[n w st]|] eqn:E.
    + split; [reflexivity|]. cbn [sp_userName sp_reward sp_streamUuid].
      unfold roomStudentUserList. cbv zeta. apply list_elem_of_fmap.
      exists (su_userUuid user, {| sp_userName := n; sp_reward := w; sp_streamUuid := st |}).
      split; [|apply elem_of_map_to_list, E]. cbn. f_equal.
      symmetry. apply negb_false_iff. apply present_spec.
      apply list_elem_of_fmap. exists user. split; [reflexivity|apply list_elem_of_In, Hin].
    + rewrite bool_decide_eq_false_2 in Hfound by (intros [? ?]; discriminate).
      cbn [orb] in Hfound. rewrite Hfound. split; reflexivity.
Qed.

Lemma filter_raw {A : Type} (p : A -> bool) (l : list A) :
  List.filter p l = fst <$> List.filter (fun x : A * bool => negb (snd x))
                             ((fun it => (it, negb (p it))) <$> l).
Proof.
  induction l as [|a l IH]; [reflexivity|].
  cbn [fmap list_fmap List.filter snd]. rewrite negb_involutive.
  destruct (p a); cbn [fmap list_fmap fst]; rewrite IH; reflexivity.
Qed.

(** X19.  [studentsList] is [rawStudentsList] without its offline items: the
    same items in the same order, the ones flagged offline removed. *)
Theorem studentsList_is_online_part r s :
  studentsList stream_userUuid r s
    = fst <$> List.filter (fun x => negb (snd x)) (rawStudentsList stream_userUuid r s).
Proof. unfold studentsList, rawStudentsList. apply filter_raw. Qed.

Lemma listItems_ids r s :
  item_userUuid stream_userUuid <$> listItems stream_userUuid r s
    = (stream_userUuid <$> studentStreams r)
      ++ List.filter (fun u => negb (existsb (String.eqb u) (stream_userUuid <$> studentStreams r)))
           (se_userUuid <$> roomStudentUserList r s).
Proof.
  unfold listItems. cbv zeta. rewrite fmap_app, <- !list_fmap_compose. f_equal.
  rewrite filter_fmap_comm. reflexivity.
Qed.

(** X20.  Every student with a record and every stream owner is an item of
    [rawStudentsList], and nobody else is; a student who owns a stream gets
    no placeholder, so when the streams have distinct owners no user is
    listed twice. *)
Theorem rawStudentsList_covers r s :
  NoDup (stream_userUuid <$> studentStreams r) ->
  NoDup (item_userUuid stream_userUuid ∘ fst <$> rawStudentsList stream_userUuid r s) ∧
  ∀ u, u ∈ (item_userUuid stream_userUuid ∘ fst <$> rawStudentsList stream_userUuid r s) ↔
       u ∈ (stream_userUuid <$> studentStreams r) ∨
       is_Some (students (roomProperties s) !! u).
Proof.
  intros Hnd.
  assert (E : item_userUuid stream_userUuid ∘ fst <$> rawStudentsList stream_userUuid r s
              = item_userUuid stream_userUuid <$> listItems stream_userUuid r s).
  { unfold rawStudentsList. rewrite <- list_fmap_compose. reflexivity. }
  rewrite E, listItems_ids.
  destruct (roomStudentUserList_mirrors_ids r s) as [Hnd' Hids].
  split.
  - apply NoDup_app. split; [exact Hnd|]. split.
    + intros u Hu Hu'. apply list_elem_of_In, List.filter_In in Hu' as [_ Hu'].
      apply negb_true_iff in Hu'. apply existsb_eqb_elem in Hu. congruence.
    + apply filter_NoDup, Hnd'.
  - intros u. rewrite elem_of_app. split.
    + intros [H|H]; [left; exact H|].
      apply list_elem_of_In, List.filter_In in H as [H _]. right.
      apply Hids, list_elem_of_In, H.
    + intros [H|H]; [left; exact H|].
      destruct (existsb (String.eqb u) (stream_userUuid <$> studentStreams r)) eqn:Eu.
      * left. apply existsb_eqb_elem, Eu.
      * right. apply list_elem_of_In, List.filter_In. split.
        -- apply list_elem_of_In, Hids, H.
        -- rewrite Eu. reflexivity.
Qed.

Lemma shown_owner r (pk : list string) (u : string) :
  existsb (String.eqb u)
    (su_userUuid <$>
       List.filter (fun user => negb (existsb (String.eqb (su_userUuid user)) pk)) (userList r))
  = present r u && negb (existsb (String.eqb u) pk).
Proof.
  unfold present. induction (userList r) as [|user l IH]; [reflexivity|].
  cbn [List.filter List.find]. rewrite (String.eqb_sym (su_userUuid user) u).
  destruct (String.eqb u (su_userUuid user)) eqn:E.
  - apply String.eqb_eq in E. subst u.
    destruct (existsb (String.eqb (su_userUuid user)) pk) eqn:Epk; cbn [negb].
    + rewrite IH. cbn [negb andb]. apply andb_false_r.
    + cbn [fmap list_fmap existsb]. rewrite String.eqb_refl. reflexivity.
  - destruct (negb (existsb (String.eqb (su_userUuid user)) pk)); [|exact IH].
    cbn [fmap list_fmap existsb]. rewrite E. exact IH.
Qed.

(** X21.  The marquee shows, in stream order, exactly the student streams
    whose owner is in the user list and not in the pk list; each carries the
    reward of its owner's student record (0 without one) and has the star
    switched on; after [reset], which empties the pk list, every stream of a
    listed user is shown. *)
Theorem allStudentStreams_shown r s :
  mq_stream <$> allStudentStreams stream_userUuid r s
    = List.filter (fun st => present r (stream_userUuid st)
                             && negb (existsb (String.eqb (stream_userUuid st)) (pkList s)))
        (studentStreams r) ∧
  (∀ e, e ∈ allStudentStreams stream_userUuid r s ->
        mq_rewardNum e
          = default 0%Z (sp_reward <$>
                           students (roomProperties s) !! stream_userUuid (mq_stream e)) ∧
        mq_showStar e = true) ∧
  mq_stream <$> allStudentStreams stream_userUuid r (reset s)
    = List.filter (fun st => present r (stream_userUuid st)) (studentStreams r).
Proof.
  assert (H : ∀ x, mq_stream <$> allStudentStreams stream_userUuid r x
    = List.filter (fun st => present r (stream_userUuid st)
                             && negb (existsb (String.eqb (stream_userUuid st)) (pkList x)))
        (studentStreams r)).
  { intros x. unfold allStudentStreams. cbv zeta. rewrite <- list_fmap_compose.
    erewrite List.filter_ext; [|intros st; apply shown_owner].
    generalize (List.filter (fun st => present r (stream_userUuid st)
                  && negb (existsb (String.eqb (stream_userUuid st)) (pkList x)))
                  (studentStreams r)).
    intros l. induction l as [|a l IH]; [reflexivity|].
    cbn [fmap list_fmap]. f_equal. exact IH. }
  split; [apply H|]. split.
  - intros e He. unfold allStudentStreams in He. cbv zeta in He.
    apply list_elem_of_fmap in He as (st & -> & _). cbn [mq_rewardNum mq_stream mq_showStar].
    split; [apply getUserReward_record|reflexivity].
  - rewrite H. apply List.filter_ext. intros st.
    destruct (reset_frame s) as ((_ & _ & Hpk & _) & _). rewrite Hpk.
    cbn [existsb negb]. apply andb_true_r.
Qed.

Lemma stageMembers_one (ids : list string) (e : MarqueeStream Stream) :
  NoDup ids ->
  flat_map (fun uid => if String.eqb uid (stream_userUuid (mq_stream e)) then [e] else []) ids
    = if existsb (String.eqb (stream_userUuid (mq_stream e))) ids then [e] else [].
Proof.
  induction 1 as [|uid ids Hn Hnd IH]; [reflexivity|].
  cbn [flat_map existsb]. rewrite (String.eqb_sym (stream_userUuid (mq_stream e)) uid).
  destruct (String.eqb uid (stream_userUuid (mq_stream e))) eqn:E; cbn [orb app].
  - apply String.eqb_eq in E. subst uid. rewrite IH.
    destruct (existsb (String.eqb (stream_userUuid (mq_stream e))) ids) eqn:Ex; [|reflexivity].
    exfalso. apply Hn, existsb_eqb_elem, Ex.
  - exact IH.
Qed.

Lemma stageMembers_filter (ids : list string) (l : list (MarqueeStream Stream)) :
  NoDup ids ->
  stageMembers stream_userUuid ids l
    = List.filter (fun e => existsb (String.eqb (stream_userUuid (mq_stream e))) ids) l.
Proof.
  intros Hnd. unfold stageMembers. induction l as [|e l IH]; [reflexivity|].
  cbn [flat_map List.filter]. rewrite IH, stageMembers_one by exact Hnd.
  destruct (existsb (String.eqb (stream_userUuid (mq_stream e))) ids); reflexivity.
Qed.

Lemma stageMembers_elem (ids : list string) (l : list (MarqueeStream Stream))
    (e : MarqueeStream Stream) :
  e ∈ stageMembers stream_userUuid ids l ↔ e ∈ l ∧ stream_userUuid (mq_stream e) ∈ ids.
Proof.
  unfold stageMembers. split.
  - intros H. apply list_elem_of_In, List.in_flat_map in H as (e' & He' & H).
    apply List.in_flat_map in H as (uid & Hu & H).
    destruct (String.eqb uid (stream_userUuid (mq_stream e'))) eqn:E; [|destruct H].
    destruct H as [<-|[]]. apply String.eqb_eq in E. subst uid.
    split; apply list_elem_of_In; assumption.
  - intros [He Hu]. apply list_elem_of_In, List.in_flat_map.
    exists e. split; [apply list_elem_of_In, He|]. apply List.in_flat_map.
    exists (stream_userUuid (mq_stream e)). split; [apply list_elem_of_In, Hu|].
    rewrite String.eqb_refl. left. reflexivity.
Qed.

(** X22.  When the member lists of the two groups on stage name nobody twice,
    the streams of a stage slot are the marquee streams owned by the members
    of the slot's group, once each and in marquee order. *)
Theorem stage_streams_filter r s :
  NoDup (g1MemberIds (platformState s)) ->
  NoDup (g2MemberIds (platformState s)) ->
  g1Members stream_userUuid r s
    = List.filter (fun e => existsb (String.eqb (stream_userUuid (mq_stream e)))
                              (g1MemberIds (platformState s)))
        (allStudentStreams stream_userUuid r s) ∧
  g2Members stream_userUuid r s
    = List.filter (fun e => existsb (String.eqb (stream_userUuid (mq_stream e)))
                              (g2MemberIds (platformState s)))
        (allStudentStreams stream_userUuid r s).
Proof.
  intros H1 H2. unfold g1Members, g2Members.
  split; apply stageMembers_filter; assumption.
Qed.

Lemma segment_memberIds (p : RoomProperties) (g : string) (u : string) :
  segment g = true ->
  (u ∈ memberIds p g ↔ ∃ gp, groups p !! g = Some gp ∧ truthy g = true ∧ u ∈ gp_members gp).
Proof.
  intros Hseg. unfold memberIds. rewrite Hseg. destruct (truthy g).
  - destruct (groups p !! g) as [gp|]; cbn.
    + split; [intros Hu; exists gp; auto|]. intros (gp' & E & _ & Hu). congruence.
    + split; [intros Hu; inversion Hu|]. intros (gp' & E & _). discriminate E.
  - split; [intros Hu; inversion Hu|]. intros (gp' & _ & E & _). discriminate E.
Qed.

(** X23.  A stream is on a stage slot exactly when it is shown in the marquee
    and its owner is among the member ids [platformState] reports for the
    slot; an empty slot shows no stream; and for a slot whose id is one path
    segment, the streams on it are the marquee streams owned by a member of
    the group recorded under that id, none when there is no such record. *)
Theorem stage_streams_only_members r s (e : MarqueeStream Stream) :
  let ps := platformState s in
  let owner := stream_userUuid (mq_stream e) in
  ((e ∈ g1Members stream_userUuid r s ↔
      e ∈ allStudentStreams stream_userUuid r s ∧ owner ∈ g1MemberIds ps) ∧
   (e ∈ g2Members stream_userUuid r s ↔
      e ∈ allStudentStreams stream_userUuid r s ∧ owner ∈ g2MemberIds ps)) ∧
  ((truthy (g1 ps) = false -> g1Members stream_userUuid r s = []) ∧
   (truthy (g2 ps) = false -> g2Members stream_userUuid r s = [])) ∧
  ((segment (g1 ps) = true ->
    (e ∈ g1Members stream_userUuid r s ↔
       e ∈ allStudentStreams stream_userUuid r s ∧
       ∃ gp, groups (roomProperties s) !! g1 ps = Some gp ∧ truthy (g1 ps) = true ∧
             owner ∈ gp_members gp)) ∧
   (segment (g2 ps) = true ->
    (e ∈ g2Members stream_userUuid r s ↔
       e ∈ allStudentStreams stream_userUuid r s ∧
       ∃ gp, groups (roomProperties s) !! g2 ps = Some gp ∧ truthy (g2 ps) = true ∧
             owner ∈ gp_members gp))).
Proof.
  intros ps owner.
  assert (Hnone : ∀ l : list (MarqueeStream Stream), stageMembers stream_userUuid [] l = []).
  { intros l. unfold stageMembers. induction l as [|a l IH]; [reflexivity|exact IH]. }
  split; [|split].
  - unfold g1Members, g2Members. split; apply stageMembers_elem.
  - unfold g1Members, g2Members, ps, platformState. cbn [g1 g2 g1MemberIds g2MemberIds].
    unfold memberIds. split; intros ->; apply Hnone.
  - unfold g1Members, g2Members.
    unfold ps, platformState. cbn [g1 g2 g1MemberIds g2MemberIds].
    split; intros Hseg; rewrite stageMembers_elem, (segment_memberIds _ _ _ Hseg);
      reflexivity.
Qed.

Lemma cardMember_Some r s (u : string) (m : CardMember) :
  cardMember inherited r s u = Some m ->
  cd_userUuid m = u ∧
  cd_offline m = negb (present r u) ∧
  match students (roomProperties s) !! u with
  | Some record =>
      cd_userName m = Some (sp_userName record) ∧
      cd_reward m = Some (sp_reward record) ∧
      cd_streamUuid m = Some (sp_streamUuid record)
  | None =>
      inherited u = true ∧
      cd_userName m = None ∧ cd_reward m = None ∧ cd_streamUuid m = None
  end.
Proof.
  unfold cardMember, property. cbv zeta.
  destruct (students (roomProperties s) !! u) as [record|].
  - intros H. injection H as <-. cbn. repeat split.
  - destruct (inherited u); [|discriminate]. intros H. injection H as <-. cbn. repeat split.
Qed.

Lemma cardMember_None r s (u : string) :
  cardMember inherited r s u = None ↔
  students (roomProperties s) !! u = None ∧ inherited u = false.
Proof.
  unfold cardMember, property. cbv zeta.
  destruct (students (roomProperties s) !! u) as [record|].
  - split; [discriminate|]. intros [H _]. discriminate H.
  - destruct (inherited u); split; try discriminate; auto.
    intros [_ H]. discriminate H.
Qed.

Lemma Forall2_elem_r {A B : Type} (P : A -> B -> Prop) (l : list A) (k : list B) (y : B) :
  Forall2 P l k -> y ∈ k -> ∃ x, x ∈ l ∧ P x y.
Proof.
  induction 1 as [|x y' l k HP _ IH]; intros Hy; [inversion Hy|].
  apply elem_of_cons in Hy as [->|Hy].
  - exists x. split; [left|exact HP].
  - destruct (IH Hy) as (x' & Hx' & HP'). exists x'. split; [right; exact Hx'|exact HP'].
Qed.

Lemma Forall2_fmap_back {A B C : Type} (P : A -> B -> Prop) (f : A -> C) (g : B -> C)
    (l : list A) (k : list B) :
  (∀ x y, P x y -> g y = f x) -> Forall2 P l k -> g <$> k = f <$> l.
Proof.
  intros Hg. induction 1 as [|x y l k HP _ IH]; [reflexivity|].
  cbn [fmap list_fmap]. rewrite (Hg x y HP). f_equal. exact IH.
Qed.

Lemma cardGroup_Some r s (kv : string * GroupProp) (cg : CardGroup) :
  (members ← mapM (cardMember inherited r s) (gp_members (snd kv));
   Some {| cg_groupName := gp_groupName (snd kv); cg_groupUuid := fst kv;
           cg_members := members |}) = Some cg ->
  cg_groupUuid cg = fst kv ∧ cg_groupName cg = gp_groupName (snd kv) ∧
  Forall2 (fun u m => cardMember inherited r s u = Some m) (gp_members (snd kv))
    (cg_members cg).
Proof.
  destruct (mapM (cardMember inherited r s) (gp_members (snd kv))) as [ms|] eqn:E; cbn;
    [|discriminate]. intros H. injection H as <-. cbn.
  repeat split. apply mapM_Some, E.
Qed.

(** X24.  [cardUserGroups] throws exactly when some group names a member
    under whose id the student records hold no record and inherit no
    member. *)
Theorem cardUserGroups_fails_iff r s :
  cardUserGroups inherited r s = None ↔
  ∃ g gp u, groups (roomProperties s) !! g = Some gp ∧ u ∈ gp_members gp ∧
            students (roomProperties s) !! u = None ∧ inherited u = false.
Proof.
  unfold cardUserGroups. rewrite mapM_None, Exists_exists. split.
  - intros ([g gp] & Hin & H). cbn [fst snd] in H.
    destruct (mapM (cardMember inherited r s) (gp_members gp)) as [ms|] eqn:E;
      [discriminate H|].
    apply mapM_None, Exists_exists in E as (u & Hu & E).
    exists g, gp, u. split; [apply elem_of_map_to_list, Hin|].
    split; [exact Hu|exact (proj1 (cardMember_None r s u) E)].
  - intros (g & gp & u & Hg & Hu & E). exists (g, gp).
    split; [apply elem_of_map_to_list, Hg|]. cbn [fst snd].
    assert (E' : mapM (cardMember inherited r s) (gp_members gp) = None).
    { apply mapM_None, Exists_exists. exists u.
      split; [exact Hu|exact (proj2 (cardMember_None r s u) E)]. }
    rewrite E'. reflexivity.
Qed.

Lemma cardUserGroups_group r s (l : list CardGroup) (cg : CardGroup) :
  cardUserGroups inherited r s = Some l -> cg ∈ l ->
  ∃ gp, groups (roomProperties s) !! cg_groupUuid cg = Some gp ∧
        cg_groupName cg = gp_groupName gp ∧
        Forall2 (fun u m => cardMember inherited r s u = Some m) (gp_members gp)
          (cg_members cg).
Proof.
  intros H Hcg. unfold cardUserGroups in H. apply mapM_Some in H.
  destruct (Forall2_elem_r _ _ _ cg H Hcg) as ([g gp] & Hin & Hkv).
  apply cardGroup_Some in Hkv as (Hid & Hname & Hms). cbn [fst snd] in *.
  exists gp. rewrite Hid. split; [apply elem_of_map_to_list, Hin|]. split; assumption.
Qed.

(** X25.  When [cardUserGroups] has a value, it has one card per group
    record, no group id twice; each card carries the name of its group
    record and its members in the record's order, and every member is
    flagged offline exactly when the user is missing from the user list.  A
    member with a student record shows the record's name and stream and the
    reward [getUserReward] reports; a member found only through an inherited
    member has an undefined name, reward and stream. *)
Theorem cardUserGroups_mirrors_groups r s (l : list CardGroup) :
  cardUserGroups inherited r s = Some l ->
  length l = size (groups (roomProperties s)) ∧
  NoDup (cg_groupUuid <$> l) ∧
  ∀ cg, cg ∈ l ->
    ∃ gp, groups (roomProperties s) !! cg_groupUuid cg = Some gp ∧
          cg_groupName cg = gp_groupName gp ∧
          cd_userUuid <$> cg_members cg = gp_members gp ∧
          ∀ m, m ∈ cg_members cg ->
               cd_offline m = negb (present r (cd_userUuid m)) ∧
               match students (roomProperties s) !! cd_userUuid m with
               | Some record =>
                   cd_userName m = Some (sp_userName record) ∧
                   cd_streamUuid m = Some (sp_streamUuid record) ∧
                   cd_reward m = Some (getUserReward r s (cd_userUuid m))
               | None =>
                   inherited (cd_userUuid m) = true ∧
                   cd_userName m = None ∧ cd_streamUuid m = None ∧ cd_reward m = None
               end.
Proof.
  intros H. split; [|split].
  - unfold cardUserGroups in H. apply length_mapM in H.
    rewrite <- H. apply length_map_to_list.
  - unfold cardUserGroups in H. apply mapM_Some in H.
    rewrite (Forall2_fmap_back _ fst cg_groupUuid _ _
               (fun kv cg Hkv => proj1 (cardGroup_Some r s kv cg Hkv)) H).
    apply NoDup_fst_map_to_list.
  - intros cg Hcg. destruct (cardUserGroups_group r s l cg H Hcg) as (gp & Hg & Hn & Hms).
    exists gp. split; [exact Hg|]. split; [exact Hn|]. split.
    + rewrite (Forall2_fmap_back _ id cd_userUuid _ _
                 (fun u m Hm => proj1 (cardMember_Some r s u m Hm)) Hms).
      apply list_fmap_id.
    + intros m Hm. destruct (Forall2_elem_r _ _ _ m Hms Hm) as (u & _ & Hu).
      apply cardMember_Some in Hu as (<- & Hoff & Hrec).
      split; [exact Hoff|]. rewrite getUserReward_record.
      destruct (students (roomProperties s) !! cd_userUuid m) as [record|].
      * destruct Hrec as (Hn' & Hw & Hst). cbn. auto.
      * destruct Hrec as (Hi & Hn' & Hw & Hst). auto.
Qed.

Lemma award_lookup_by (f : string -> Z) (ms : list Member) (acc : gmap string PropValue)
    (u : string) :
  (∀ m, m ∈ ms -> m_reward m = f (m_userUuid m)) ->
  u ∈ m_userUuid <$> ms ∨ acc !! rewardKey u = Some (PNum (jsAdd (f u) 1)) ->
  foldl award acc ms !! rewardKey u = Some (PNum (jsAdd (f u) 1)).
Proof.
  revert acc. induction ms as [|m ms IH]; intros acc Hf Hu.
  - destruct Hu as [Hu|Hu]; [inversion Hu|exact Hu].
  - cbn [foldl]. apply IH; [intros m' Hm'; apply Hf; right; exact Hm'|].
    destruct (decide (m_userUuid m = u)) as [E|E].
    + right. unfold award. rewrite E, lookup_insert_eq, (Hf m), E; [reflexivity|left].
    + destruct Hu as [Hu|Hu].
      * cbn [fmap list_fmap] in Hu. apply elem_of_cons in Hu as [Hu|Hu]; [congruence|].
        left. exact Hu.
      * right. unfold award. rewrite lookup_insert_ne; [exact Hu|].
        intros Hk. apply rewardKey_inj in Hk. exact (E Hk).
Qed.

Lemma asMember_Some (cm : CardMember) (m : Member) :
  asMember cm = Some m ->
  m_userUuid m = cd_userUuid cm ∧ cd_reward cm = Some (m_reward m) ∧
  cd_streamUuid cm = Some (m_streamUuid m).
Proof.
  unfold asMember. destruct (cd_reward cm) as [w|]; [|discriminate].
  destruct (cd_streamUuid cm) as [st|]; [|discriminate].
  cbn. intros H. injection H as <-. cbn. auto.
Qed.

(** X26.  Giving a star to a group taken from [cardUserGroups], all of whose
    members have a defined reward and stream: the command receives the
    group's id, name and members in order, and sends one property update
    with cause 202 whose entries are exactly these: for every member named
    by the group's record, that member's reward key set to the reward
    [getUserReward] reports plus 1, in number arithmetic.  This holds also
    when the record names a member twice. *)
Theorem card_group_star r s (l : list CardGroup) (cg : CardGroup) (group : UserGroup) :
  cardUserGroups inherited r s = Some l -> cg ∈ l ->
  asUserGroup cg = Some group ->
  _roomManager (sceneStore s) = true ->
  (groupUuid group = cg_groupUuid cg ∧ groupName group = cg_groupName cg ∧
   m_userUuid <$> members group = cd_userUuid <$> cg_members cg) ∧
  exec (addGroupStar group) s
    = log (UpdateRoomBatchProperties (rewardPatch (members group)) "202") s ∧
  ∀ k v, rewardPatch (members group) !! k = Some v ↔
         ∃ gp u, groups (roomProperties s) !! cg_groupUuid cg = Some gp ∧
                 u ∈ gp_members gp ∧
                 k = rewardKey u ∧ v = PNum (jsAdd (getUserReward r s u) 1).
Proof.
  intros H Hcg Hgroup Hrm.
  destruct (cardUserGroups_group r s l cg H Hcg) as (gp & Hg & _ & Hms).
  unfold asUserGroup in Hgroup.
  destruct (mapM asMember (cg_members cg)) as [ms|] eqn:Eas; [|discriminate Hgroup].
  cbn in Hgroup. injection Hgroup as <-. cbn [members groupUuid groupName].
  apply mapM_Some in Eas.
  assert (Hcards : m_userUuid <$> ms = cd_userUuid <$> cg_members cg).
  { exact (Forall2_fmap_back _ cd_userUuid m_userUuid _ _
             (fun cm m Hm => proj1 (asMember_Some cm m Hm)) Eas). }
  assert (Hids : m_userUuid <$> ms = gp_members gp).
  { rewrite Hcards.
    rewrite (Forall2_fmap_back _ id cd_userUuid _ _
               (fun u m Hm => proj1 (cardMember_Some r s u m Hm)) Hms).
    apply list_fmap_id. }
  assert (Hrew : ∀ m, m ∈ ms -> m_reward m = getUserReward r s (m_userUuid m)).
  { intros m Hm.
    destruct (Forall2_elem_r _ _ _ m Eas Hm) as (cm & Hcm & Has).
    apply asMember_Some in Has as (Hu & Hw & _).
    destruct (Forall2_elem_r _ _ _ cm Hms Hcm) as (u & _ & Hcard).
    apply cardMember_Some in Hcard as (Hu' & _ & Hrec).
    rewrite getUserReward_record, Hu, Hu'.
    destruct (students (roomProperties s) !! u) as [record|].
    - destruct Hrec as (_ & Hw' & _). cbn. congruence.
    - destruct Hrec as (_ & _ & Hw' & _). congruence. }
  split; [repeat split; exact Hcards|]. split.
  - unfold exec, addGroupStar. cbv zeta.
    rewrite run_updateRoomBatchProperties by exact Hrm. reflexivity.
  - intros k v. split.
    + intros Hk. unfold rewardPatch in Hk.
      apply award_source in Hk as [Hk|(stu & Hin & -> & ->)];
        [rewrite lookup_empty in Hk; discriminate Hk|].
      exists gp, (m_userUuid stu). split; [exact Hg|]. split.
      * rewrite <- Hids. apply list_elem_of_fmap_2, Hin.
      * rewrite (Hrew stu Hin). split; reflexivity.
    + intros (gp' & u & Hg' & Hu & -> & ->).
      assert (gp' = gp) by congruence. subst gp'.
      unfold rewardPatch. apply award_lookup_by; [exact Hrew|].
      left. rewrite Hids. exact Hu.
Qed.

End ViewFacts.

End Session.

(** ** The theorems at concrete sessions *)

Lemma clickPlatform_capacity_witness :
  g1 (platformState teacherSession) ≠ groupUuid groupTwo ∧
  g2 (platformState teacherSession) ≠ groupUuid groupTwo ∧
  exec world_ok (clickPlatform groupTwo) teacherSession =
    log (UpdateRoomBatchProperties (enterStagePatch "g2" "group_id_2") "104")
      (log (BatchUpsertStream (map (upsertStreamOf 1) (members groupTwo))) teacherSession).
Proof.
  assert (H1 : g1 (platformState teacherSession) ≠ groupUuid groupTwo) by discriminate.
  assert (H2 : g2 (platformState teacherSession) ≠ groupUuid groupTwo) by discriminate.
  split; [exact H1|]. split; [exact H2|].
  destruct (clickPlatform_capacity world_ok groupTwo teacherSession H1 H2) as (_ & _ & H).
  destruct H as (t & Ht & _ & Hexec);
    [vm_compute; lia|reflexivity|unfold world_ok; discriminate|].
  injection Ht as <-. exact Hexec.
Defined.

Lemma clickPlatform_leave_stage_witness :
  (g1 (platformState teacherSession) = groupUuid groupOne
   ∨ g2 (platformState teacherSession) = groupUuid groupOne) ∧
  leaveStagePatch "g1" true !! "groupStates.interactOutGroup" = Some (PNum 0) ∧
  exec world_ok (clickPlatform groupOne) teacherSession =
    log (BatchDeleteStream [ {| ds_userUuid := "u1"; ds_streamUuid := "s1" |};
                             {| ds_userUuid := "u2"; ds_streamUuid := "s2" |} ])
      (log (UpdateRoomBatchProperties (leaveStagePatch "g1" true) "104") teacherSession).
Proof.
  assert (H1 : g1 (platformState teacherSession) = groupUuid groupOne
               ∨ g2 (platformState teacherSession) = groupUuid groupOne)
    by (left; reflexivity).
  split; [exact H1|].
  destruct (clickPlatform_leave_stage world_ok groupOne teacherSession H1 eq_refl)
    as (_ & Hflag & _ & Hok & _).
  split; [exact Hflag|]. apply Hok. unfold world_ok. discriminate.
Defined.

Lemma addGroupStar_batched_witness :
  NoDup (m_userUuid <$> members groupOne) ∧
  Forall (fun stu => (Z.abs (m_reward stu + 1) < 2 ^ 53)%Z) (members groupOne) ∧
  size (rewardPatch (members groupOne)) = 2%nat ∧
  rewardPatch (members groupOne) !! "students.u2.reward" = Some (PNum 4) ∧
  exec world_ok (addGroupStar groupOne) teacherSession
    = log (UpdateRoomBatchProperties (rewardPatch (members groupOne)) "202") teacherSession.
Proof.
  assert (Hnd : NoDup (m_userUuid <$> members groupOne)).
  { apply (bool_decide_unpack _). vm_compute. exact I. }
  assert (Hsafe : Forall (fun stu => (Z.abs (m_reward stu + 1) < 2 ^ 53)%Z)
                    (members groupOne)).
  { repeat constructor. }
  split; [exact Hnd|]. split; [exact Hsafe|].
  destruct (addGroupStar_batched world_ok groupOne teacherSession eq_refl Hnd
              (proj1 (Forall_forall _ _) Hsafe))
    as (Hexec & Hsize & _ & Hall).
  split; [exact Hsize|]. split; [|exact Hexec].
  apply (Hall {| m_userUuid := "u2"; m_reward := 3; m_streamUuid := "s2" |}).
  right. left.
Defined.

Lemma recording_stop_marker_witness :
  rp_record (cr_roomProperties runningSnapshot)
    = Some {| rec_state := 0; rec_recordId := "rec-7" |} ∧
  roomChatMessages (classroom_property_updated 1234 runningSnapshot teacherSession)
    = [ {| cm_id := "system"; cm_ts := 1234; cm_text := ""; cm_account := "system";
           cm_link := Some "room-1"; cm_sender := false |} ] ∧
  recordState (sceneStore (classroom_property_updated 1234 runningSnapshot teacherSession))
    = false ∧
  recordId (sceneStore (classroom_property_updated 1234 runningSnapshot teacherSession)) = "".
Proof.
  split; [reflexivity|].
  destruct (recording_stop_marker 1234 runningSnapshot teacherSession
              {| rec_state := 0; rec_recordId := "rec-7" |} eq_refl eq_refl) as [H _].
  apply H. reflexivity.
Defined.

Lemma class_state_drives_timer_witness :
  (classState (sceneStore beforeClass) ≠ courseState (roomStatus runningSnapshot) ∧
   startTime (sceneStore (classroom_property_updated 1234 runningSnapshot beforeClass))
     = 2000%Z ∧
   _intervalMap (classroom_property_updated 1234 runningSnapshot beforeClass) !! "timer"
     = Some {| iv_startTime := 2000; iv_delay := 500 |}) ∧
  (classState (sceneStore teacherSession) ≠ courseState (roomStatus endedSnapshot) ∧
   startTime (sceneStore (classroom_property_updated 1234 endedSnapshot teacherSession))
     = 2600%Z ∧
   _intervalMap (classroom_property_updated 1234 endedSnapshot teacherSession) !! "timer"
     = None).
Proof.
  assert (Hstart : classState (sceneStore beforeClass)
                   ≠ courseState (roomStatus runningSnapshot)) by discriminate.
  assert (Hend : classState (sceneStore teacherSession)
                 ≠ courseState (roomStatus endedSnapshot)) by discriminate.
  destruct (class_state_drives_timer 1234 runningSnapshot beforeClass) as [H1 _].
  destruct (class_state_drives_timer 1234 endedSnapshot teacherSession) as (_ & H2 & _).
  destruct (H1 Hstart eq_refl) as (_ & Hs1 & Hm1 & _).
  destruct (H2 Hend ltac:(discriminate)) as (_ & Hs2 & Hm2 & _).
  split.
  - split; [exact Hstart|]. split; [exact Hs1|]. rewrite Hm1. apply lookup_insert_eq.
  - split; [exact Hend|]. split; [exact Hs2|]. rewrite Hm2. apply lookup_delete_eq.
Defined.

Lemma leave_keeps_timer_witness :
  world_rtc_down (trace teacherSession) LeaveRtc = Rejected ∧
  _intervalMap (exec world_rtc_down (leave (fun _ => scene0) id) teacherSession) !! "timer"
    = Some {| iv_startTime := 1000; iv_delay := 500 |}.
Proof.
  split; [reflexivity|].
  destruct (leave_keeps_timer_when_rtc_leave_fails (fun _ => scene0) id world_rtc_down
              teacherSession eq_refl) as (_ & Hmap & _).
  rewrite Hmap. reflexivity.
Defined.

Lemma sharing_tracks_streams_witness :
  userRole (roomInfo studentSession) ≠ "teacher" ∧
  sharing (sceneStore (remote_stream_added studentSession)) = true ∧
  sharing (sceneStore (exec world_ok (local_stream_updated {| evt_type := "screen" |})
                         studentSession)) = false ∧
  sharing (sceneStore (exec world_ok (local_stream_updated {| evt_type := "screen" |})
                         teacherSession)) = true.
Proof.
  assert (Hne : userRole (roomInfo studentSession) ≠ "teacher") by discriminate.
  split; [exact Hne|].
  destruct (sharing_tracks_streams world_ok {| evt_type := "screen" |} studentSession)
    as ((Hadded & _ & _) & _ & Hlocal).
  destruct (sharing_tracks_streams world_ok {| evt_type := "screen" |} teacherSession)
    as (_ & Hteacher & _).
  split; [exact Hadded|]. split; [exact (Hlocal Hne)|].
  exact (Hteacher eq_refl eq_refl eq_refl).
Defined.

Lemma reconcile_twice_witness :
  fst (run world_ok (local_stream_updated {| evt_type := "main" |}) teacherSession) = Ok tt ∧
  deviceCalls (trace (exec world_ok (local_stream_updated {| evt_type := "main" |})
                        teacherSession)) = [DevOpenCamera] ∧
  deviceCalls (trace (exec world_ok (local_stream_updated {| evt_type := "main" |})
                        (exec world_ok (local_stream_updated {| evt_type := "main" |})
                           teacherSession))) = [DevOpenCamera].
Proof.
  assert (Hok : fst (run world_ok (local_stream_updated {| evt_type := "main" |})
                       teacherSession) = Ok tt) by reflexivity.
  split; [exact Hok|]. split; [reflexivity|].
  destruct (reconcile_twice world_ok {| evt_type := "main" |} teacherSession Hok
              eq_refl eq_refl) as [_ H].
  rewrite H. reflexivity.
Defined.

(** ** Where the design's words and the code part *)

(** C8 as stated fails for the teacher: the stream list holds a screen
    stream, yet the flag stays false after [remote-stream-added]. *)
Lemma teacher_sharing_not_tracked :
  sharing (sceneStore (remote_stream_added teacherSession)) ≠ screenListed teacherSession.
Proof. vm_compute. discriminate. Qed.

(** C4 as stated fails at three inputs.  A group that lists user u1 twice has
    two members, yet the update carries one entry (the payload is keyed by
    user id).  A member with 2^53 stars is sent 2^53 again, not 2^53 + 1
    (number addition rounds to the nearest double).  And before the room
    manager is assigned no update is issued at all: the command throws. *)
Lemma addGroupStar_merges_and_rounds :
  (length (members pairedGroup) = 2%nat ∧
   size (rewardPatch (members pairedGroup)) = 1%nat ∧
   exec world_ok (addGroupStar pairedGroup) teacherSession
     = log (UpdateRoomBatchProperties {[ "students.u1.reward" := PNum 6 ]} "202")
         teacherSession) ∧
  (m_reward <$> members veteranGroup = [(2 ^ 53)%Z] ∧
   rewardPatch (members veteranGroup) !! "students.u1.reward" ≠ Some (PNum (2 ^ 53 + 1)) ∧
   exec world_ok (addGroupStar veteranGroup) teacherSession
     = log (UpdateRoomBatchProperties {[ "students.u1.reward" := PNum (2 ^ 53) ]} "202")
         teacherSession) ∧
  run world_ok (addGroupStar groupOne) lobbySession = (Thrown, lobbySession).
Proof.
  split; [|split].
  - split; [reflexivity|]. split; vm_compute; reflexivity.
  - split; [reflexivity|]. split; [vm_compute; discriminate|vm_compute; reflexivity].
  - vm_compute. reflexivity.
Qed.

(** C9 as stated fails: after [leave] of a joined session the joined flag is
    still set and the property tree is still the last snapshot. *)
Lemma leave_keeps_joined_and_properties :
  ¬ session_cleared (exec world_ok (leave (fun _ => scene0) id) teacherSession).
Proof.
  unfold session_cleared. intros (_ & _ & _ & _ & _ & _ & _ & Hjoined & _).
  vm_compute in Hjoined. discriminate Hjoined.
Qed.

(** ** Further theorems at concrete sessions *)

Lemma detached_notifications_dropped_witness :
  joiningRTC (sceneStore lobbySession) = false ∧
  loop 1 2 3 4 (decodeHands 1 2) world_ok
    [Arrive (LocalStreamUpdated {| evt_type := "main" |}); Resume;
     Arrive (UserMessage "hand-up"); Arrive (LocalStreamRemoved {| evt_type := "main" |})]
    (idle, lobbySession)
  = (idle, lobbySession).
Proof.
  split; [reflexivity|].
  apply (detached_notifications_dropped 1 2 3 4 (decodeHands 1 2) world_ok). reflexivity.
Defined.

Lemma local_stream_updated_probe_failure_witness :
  world_camera_down (trace teacherSession) GetCameras = Rejected ∧
  run world_camera_down (local_stream_updated {| evt_type := "main" |}) teacherSession
    = (Thrown, log GetCameras (upd_scene (set_cameraEduStream (Some mainStream)) teacherSession)).
Proof.
  split; [reflexivity|].
  apply (local_stream_updated_probe_failure world_camera_down {| evt_type := "main" |}
           teacherSession mainStream); reflexivity.
Defined.

Lemma clickPlatform_enter_failures_witness :
  firstEmptySlot (platformState teacherSession) = Some "g2" ∧
  run world_upsert_down (clickPlatform groupTwo) teacherSession
    = (Thrown, log (BatchUpsertStream (map (upsertStreamOf 1) (members groupTwo)))
                 teacherSession) ∧
  run world_update_down (clickPlatform groupTwo) teacherSession
    = (Thrown,
       log (UpdateRoomBatchProperties (enterStagePatch "g2" "group_id_2") "104")
         (log (BatchUpsertStream (map (upsertStreamOf 1) (members groupTwo)))
            teacherSession)).
Proof.
  assert (H1 : g1 (platformState teacherSession) ≠ groupUuid groupTwo) by discriminate.
  assert (H2 : g2 (platformState teacherSession) ≠ groupUuid groupTwo) by discriminate.
  split; [reflexivity|]. split.
  - destruct (clickPlatform_enter_failures world_upsert_down groupTwo teacherSession "g2"
                H1 H2 eq_refl eq_refl) as [H _].
    apply H. reflexivity.
  - destruct (clickPlatform_enter_failures world_update_down groupTwo teacherSession "g2"
                H1 H2 eq_refl eq_refl) as [_ H].
    apply H; [discriminate|reflexivity].
Defined.

Lemma commands_need_manager_witness :
  _roomManager (sceneStore lobbySession) = false ∧
  run world_ok (addGroupStar groupOne) lobbySession = (Thrown, lobbySession) ∧
  run world_ok (sendReward "u1" 0) lobbySession = (Thrown, lobbySession).
Proof.
  split; [reflexivity|].
  destruct (commands_need_manager world_ok groupOne 0 0 "u1" lobbySession eq_refl)
    as (H1 & _ & H3 & _).
  split; assumption.
Defined.

Lemma groupControlMicrophone_calls_witness :
  _roomManager (sceneStore teacherSession) = true ∧
  exec world_ok (groupControlMicrophone groupOne 0) teacherSession
    = log (UpdateRoomBatchProperties ∅ "201")
        (log (BatchUpsertStream (map (upsertStreamOf 0) (members groupOne))) teacherSession) ∧
  run world_upsert_down (groupControlMicrophone groupOne 0) teacherSession
    = (Thrown, log (BatchUpsertStream (map (upsertStreamOf 0) (members groupOne)))
                 teacherSession).
Proof.
  split; [reflexivity|]. split.
  - destruct (groupControlMicrophone_calls world_ok groupOne 0 teacherSession eq_refl)
      as (_ & _ & H).
    apply H. discriminate.
  - destruct (groupControlMicrophone_calls world_upsert_down groupOne 0 teacherSession eq_refl)
      as (_ & H & _).
    apply H. reflexivity.
Defined.

Lemma clickPlatform_empty_id_witness :
  groupUuid namelessGroup = "" ∧
  firstEmptySlot (platformState teacherSession) = Some "g2" ∧
  exec world_ok (clickPlatform namelessGroup) teacherSession
    = log (BatchDeleteStream (map deleteStreamOf (members namelessGroup)))
        (log (UpdateRoomBatchProperties (leaveStagePatch "g2" false) "104") teacherSession).
Proof.
  split; [reflexivity|]. split; [reflexivity|].
  destruct (clickPlatform_empty_id world_ok namelessGroup teacherSession eq_refl) as [_ H].
  apply (H "g2"); [reflexivity|reflexivity|discriminate].
Defined.

Lemma classroom_property_updated_clock_witness :
  clockInStep teacherSession ∧
  clockInStep (classroom_property_updated 1234 endedSnapshot teacherSession).
Proof.
  assert (H : clockInStep teacherSession).
  { split; [reflexivity|]. intros _. exists {| iv_startTime := 1000; iv_delay := 500 |}.
    reflexivity. }
  split; [exact H|].
  exact (proj1 (classroom_property_updated_clock 1234 endedSnapshot teacherSession H)).
Defined.

Lemma classroom_property_updated_record_witness :
  recordState (sceneStore (classroom_property_updated 1234 recordingSnapshot lobbySession))
    = true ∧
  recordId (sceneStore (classroom_property_updated 1234 recordingSnapshot lobbySession)) = "".
Proof.
  destruct (classroom_property_updated_record 1234 recordingSnapshot lobbySession) as [H1 H2].
  split; [exact H1|]. apply H2. intros record H. injection H as <-. discriminate.
Defined.

Lemma applyUsers_stay_distinct_witness :
  NoDup (applyUserIds handsSession) ∧
  applyUserIds (exec world_ok (handler 1 2 3 4 (decodeHands 1 2) (UserMessage "hand-up"))
                  handsSession) = ["u1"] ∧
  NoDup (applyUserIds
           (exec world_ok (handler 1 2 3 4 (decodeHands 1 2) (UserMessage "hand-up"))
              (exec world_ok (handler 1 2 3 4 (decodeHands 1 2) (UserMessage "hand-up"))
                 handsSession))).
Proof.
  assert (H0 : NoDup (applyUserIds handsSession)) by constructor.
  split; [exact H0|]. split; [reflexivity|].
  apply (applyUsers_stay_distinct 1 2 3 4 (decodeHands 1 2) world_ok).
  apply (applyUsers_stay_distinct 1 2 3 4 (decodeHands 1 2) world_ok). exact H0.
Defined.

Lemma showInvitationNotice_cancel_witness :
  applyUserIds (exec world_ok (showInvitationNotice 1 2 3 4 1 1 "u1" "Ann") handsSession)
    = ["u1"] ∧
  "u1" ∉ applyUserIds
           (exec world_ok (showInvitationNotice 1 2 3 4 1 2 "u1" "Ann")
              (exec world_ok (showInvitationNotice 1 2 3 4 1 1 "u1" "Ann") handsSession)).
Proof.
  split; [reflexivity|].
  apply (showInvitationNotice_cancel 1 2 3 4 world_ok 1 2 "u1" "Ann"). reflexivity.
Defined.

Lemma apply_then_cancel_restores_witness :
  (1 ≠ 2)%Z ∧ ("u1" ∉ applyUserIds handsSession) ∧
  applyUsers (exec world_ok (showInvitationNotice 1 2 3 4 1 1 "u1" "Ann") handsSession)
    ≠ [] ∧
  applyUsers (exec world_ok (showInvitationNotice 1 2 3 4 1 2 "u1" "Ann")
                (exec world_ok (showInvitationNotice 1 2 3 4 1 1 "u1" "Ann") handsSession))
    = [].
Proof.
  assert (H1 : (1 ≠ 2)%Z) by discriminate.
  assert (H2 : "u1" ∉ applyUserIds handsSession) by apply not_elem_of_nil.
  split; [exact H1|]. split; [exact H2|]. split; [discriminate|].
  exact (apply_then_cancel_restores 1 2 3 4 world_ok 1 1 "u1" "Ann" "Ann" handsSession H1 H2).
Defined.

Lemma rawStudentsList_covers_witness :
  NoDup (es_userUuid <$> studentStreams classRoster) ∧
  NoDup (item_userUuid es_userUuid ∘ fst <$> rawStudentsList es_userUuid classRoster classSession) ∧
  "u2" ∈ (item_userUuid es_userUuid ∘ fst <$> rawStudentsList es_userUuid classRoster classSession).
Proof.
  assert (H : NoDup (es_userUuid <$> studentStreams classRoster)).
  { apply (bool_decide_unpack _). vm_compute. exact I. }
  split; [exact H|].
  destruct (rawStudentsList_covers EduStream es_userUuid classRoster classSession H) as [H1 H2].
  split; [exact H1|]. apply H2. right. eexists. reflexivity.
Defined.

Lemma stage_streams_filter_witness :
  NoDup (g1MemberIds (platformState classSession)) ∧
  NoDup (g2MemberIds (platformState classSession)) ∧
  mq_stream <$> g1Members es_userUuid classRoster classSession = [streamOf "u1" "s1"] ∧
  g2Members es_userUuid classRoster classSession = [].
Proof.
  assert (H1 : NoDup (g1MemberIds (platformState classSession))).
  { apply (bool_decide_unpack _). vm_compute. exact I. }
  assert (H2 : NoDup (g2MemberIds (platformState classSession))) by constructor.
  split; [exact H1|]. split; [exact H2|].
  destruct (stage_streams_filter EduStream es_userUuid classRoster classSession H1 H2)
    as [E1 E2].
  rewrite E1, E2. split; reflexivity.
Defined.

Lemma onlineStudentList_consistent_witness :
  os_userUuid <$> onlineStudentList objectPrototype quirkRoster quirkSession
    = ["u1"; "constructor"] ∧
  os_reward <$> onlineStudentList objectPrototype quirkRoster quirkSession
    = [Some 0%Z; None].
Proof.
  split; [|vm_compute; reflexivity].
  rewrite (proj1 (onlineStudentList_consistent EduStream objectPrototype quirkRoster
                    quirkSession)).
  vm_compute. reflexivity.
Defined.

Lemma stage_streams_only_members_witness :
  truthy (g2 (platformState classSession)) = false ∧
  segment (g1 (platformState classSession)) = true ∧
  g2Members es_userUuid classRoster classSession = [] ∧
  mq_stream <$> g1Members es_userUuid classRoster classSession = [streamOf "u1" "s1"].
Proof.
  split; [reflexivity|]. split; [reflexivity|]. split; [|vm_compute; reflexivity].
  destruct (stage_streams_only_members EduStream es_userUuid classRoster classSession
              {| mq_stream := streamOf "u1" "s1"; mq_showStar := true;
                 mq_showControls := false; mq_showHover := true; mq_rewardNum := 0 |})
    as (_ & (_ & H) & _).
  apply H. reflexivity.
Defined.

Lemma cardUserGroups_mirrors_groups_witness :
  cardUserGroups objectPrototype classRoster classSession = Some classCards ∧
  length classCards = size (groups (roomProperties classSession)) ∧
  NoDup (cg_groupUuid <$> classCards) ∧
  cardUserGroups objectPrototype quirkRoster quirkSession = Some [quirkCard] ∧
  length [quirkCard] = size (groups (roomProperties quirkSession)).
Proof.
  assert (E : cardUserGroups objectPrototype classRoster classSession = Some classCards)
    by (vm_compute; reflexivity).
  assert (E' : cardUserGroups objectPrototype quirkRoster quirkSession = Some [quirkCard])
    by (vm_compute; reflexivity).
  destruct (cardUserGroups_mirrors_groups EduStream objectPrototype classRoster classSession
              classCards E) as (H1 & H2 & _).
  destruct (cardUserGroups_mirrors_groups EduStream objectPrototype quirkRoster quirkSession
              [quirkCard] E') as (H3 & _).
  repeat split; assumption.
Defined.

Lemma card_group_star_witness :
  cardUserGroups objectPrototype classRoster classSession = Some classCards ∧
  asUserGroup cardTwo = Some groupTwo ∧
  rewardPatch (members groupTwo) !! "students.u3.reward" = Some (PNum 2).
Proof.
  assert (E : cardUserGroups objectPrototype classRoster classSession = Some classCards)
    by (vm_compute; reflexivity).
  split; [exact E|]. split; [reflexivity|].
  destruct (card_group_star world_ok EduStream objectPrototype classRoster classSession
              classCards cardTwo groupTwo E) as (_ & _ & H);
    [right; left|reflexivity|reflexivity|].
  apply H. eexists _, "u3". split; [reflexivity|]. split; [left|].
  split; [reflexivity|vm_compute; reflexivity].
Defined.
